(** * organism_tractability: the fetch orchestrator and its leaves

    A shallow embedding of
    - [utils/rate_limiter.py]  (RateLimiter, retry_with_backoff),
    - [db/feature_metadata/feature_metadata_service.py]  (the catalog),
    - [db/features/pipeline.py]  (SOURCE_REGISTRY, FeaturesPipeline),
    - the constructors of the source clients,
    followed by the properties of the orchestrator that the design
    document states.

    Conventions.  Python [str] is [string]; [int] is [Z]; [float] is the
    IEEE 754 binary64 type [float] with its rounding operations; [None]
    in an [X | None] position is [option].  Durations that the program
    does not compute (how long the machine takes, what the clock shows)
    are rational numbers.
    A Python [dict] whose iteration order matters is an association list
    kept in insertion order.  Code that can raise returns [Exn + A];
    code that also has effects runs in the monad [M] below, whose state
    survives a raise (what was done before the exception stays done). *)

From Stdlib Require Import List String Ascii Bool ZArith QArith Lia Lqa.
From Stdlib Require Import Floats.
From Stdlib Require Import DecimalString.
From Stdlib Require Import Permutation.
Import ListNotations.

Local Open Scope string_scope.
Local Open Scope list_scope.

Scheme All for list.
Scheme All for prod.

(** ** Python values *)

(** What an adapter hands back ([Any] in the source): JSON-like data and
    pydantic models.  [VModel cls fields] is an instance of the
    [BaseModel] subclass [cls]; it is the only kind of value for which
    [hasattr(v, "model_dump")] holds. *)
Inductive PyVal : Type :=
| VNone
| VBool (b : bool)
| VInt (z : Z)
| VFloat (x : float)
| VStr (s : string)
| VList (items : list PyVal)
| VDict (items : list (string * PyVal))
| VModel (cls : string) (fields : list (string * PyVal)).

(** [BaseModel.model_dump()] in Python mode: the fields as a dict, nested
    models, lists and dict values converted recursively. *)
Fixpoint dump (v : PyVal) : PyVal :=
  match v with
  | VList items => VList (map dump items)
  | VDict items => VDict (map (fun '(k, x) => (k, dump x)) items)
  | VModel _ fields => VDict (map (fun '(k, x) => (k, dump x)) fields)
  | _ => v
  end.

Definition hasattr_model_dump (v : PyVal) : bool :=
  match v with VModel _ _ => true | _ => false end.

Definition model_dump (v : PyVal) : PyVal := dump v.

(** A value with no model instance left in it. *)
Fixpoint plain (v : PyVal) : bool :=
  match v with
  | VList items => forallb plain items
  | VDict items => forallb (fun '(_, x) => plain x) items
  | VModel _ _ => false
  | _ => true
  end.

(** ** Exceptions *)

Record Exn : Type := mkExn { exn_class : string; exn_msg : string }.

Definition ValueError (msg : string) : Exn := mkExn "ValueError" msg.
Definition TypeError (msg : string) : Exn := mkExn "TypeError" msg.
Definition AttributeError (msg : string) : Exn := mkExn "AttributeError" msg.

(** [", ".join(xs)] *)
Fixpoint join (sep : string) (xs : list string) : string :=
  match xs with
  | [] => ""
  | [x] => x
  | x :: rest => (x ++ sep ++ join sep rest)%string
  end.

(** [needle in haystack] for strings, as a proposition. *)
Definition occurs_in (needle haystack : string) : Prop :=
  exists pre post, haystack = (pre ++ needle ++ post)%string.

(** ** Dictionaries in insertion order *)

Fixpoint dict_get {V : Type} (k : string) (d : list (string * V)) : option V :=
  match d with
  | [] => None
  | (k', v) :: rest => if String.eqb k k' then Some v else dict_get k rest
  end.

Definition dict_contains {V : Type} (k : string) (d : list (string * V)) : bool :=
  match dict_get k d with Some _ => true | None => false end.

Definition dict_keys {V : Type} (d : list (string * V)) : list string :=
  map fst d.

(** [d[k] = v]: an existing key keeps its position and takes the new
    value, a new key goes to the end. *)
Fixpoint dict_set {V : Type} (k : string) (v : V) (d : list (string * V))
  : list (string * V) :=
  match d with
  | [] => [(k, v)]
  | (k', v') :: rest =>
      if String.eqb k k' then (k', v) :: rest else (k', v') :: dict_set k v rest
  end.

Fixpoint sequence_sum {E A : Type} (xs : list (E + A)) : E + list A :=
  match xs with
  | [] => inr []
  | inl e :: _ => inl e
  | inr a :: rest =>
      match sequence_sum rest with
      | inl e => inl e
      | inr l => inr (a :: l)
      end
  end.

(** [str(i)] for an [int]. *)
Definition str_of_int (i : Z) : string :=
  DecimalString.NilZero.string_of_int (Z.to_int i).

(** ** What the language and the third-party libraries provide

    These are not code of the repository; the development is parametric
    in them. *)
Class Library : Type := {
  (** [str.strip()] *)
  strip : string -> string;
  (** [int(s)] on a [str]; [None] when it raises [ValueError] *)
  py_int : string -> option Z;
  (** pydantic's lax-mode coercion of a [str] to an [int] field *)
  str_as_int : string -> option Z;
  (** [json.dumps(v, ensure_ascii=False, sort_keys=True)] *)
  json_dumps : PyVal -> Exn + string;
  (** [issubclass(c, d)] on exception class names *)
  issubclass : string -> string -> bool;
  (** [repr] of a [csv.DictReader] row: the zipped fields and, under the
      key [None], the surplus values when there are any *)
  repr_row : list (string * option string) -> option (list string) -> string
}.

(** ** The feature metadata catalog
    [db/feature_metadata/feature_metadata_service.py] *)

(** What [yaml.safe_load] returns (mappings with string keys, one binding
    per key as in the resulting [dict]). *)
Inductive Yaml : Type :=
| YNull
| YBool (b : bool)
| YInt (z : Z)
| YFloat (x : float)
| YStr (s : string)
| YList (items : list Yaml)
| YMap (items : list (string * Yaml)).

Record FeatureMetadata : Type := mkFeatureMetadata {
  feature_id : string;
  source_id : string;
  display_name : string;
  category : string;
  description : string;
  organism_query_type : option string;
  answer_enum : option (list string);
  query : option string;
  max_products : option Z;
  type : option string
}.

(** A pydantic [ValidationError]; the message lists, for every failing
    field, its name and pydantic's error type (the library's full text
    is longer). *)
Definition ValidationError (errors : list (string * string)) : Exn :=
  mkExn "ValidationError"
        (join "; " (map (fun '(loc, ty) => (loc ++ ": " ++ ty)%string) errors)).

(** [x: str = Field(...)] *)
Definition required_str (v : option Yaml) : string + string :=
  match v with
  | None => inl "missing"
  | Some (YStr s) => inr s
  | Some _ => inl "string_type"
  end.

(** [x: str = Field(..., min_length=1)] *)
Definition required_str_min_length_1 (v : option Yaml) : string + string :=
  match required_str v with
  | inl e => inl e
  | inr s => if (String.length s <? 1)%nat then inl "string_too_short" else inr s
  end.

(** [x: str | None = Field(default=None)] *)
Definition optional_str (v : option Yaml) : string + option string :=
  match v with
  | None | Some YNull => inr None
  | Some (YStr s) => inr (Some s)
  | Some _ => inl "string_type"
  end.

Definition yaml_str (v : Yaml) : string + string :=
  match v with YStr s => inr s | _ => inl "string_type" end.

(** [x: list[str] | None = Field(default=None)] *)
Definition optional_list_str (v : option Yaml) : string + option (list string) :=
  match v with
  | None | Some YNull => inr None
  | Some (YList items) =>
      match sequence_sum (map yaml_str items) with
      | inl e => inl e
      | inr l => inr (Some l)
      end
  | Some _ => inl "list_type"
  end.

(** pydantic's conversion of a [float] given for an [int] field: an
    infinity and NaN are refused, then a number with a fractional part,
    then a number that is not strictly between [-2^63] and [2^63]. *)
Definition float_as_int (x : float) : string + Z :=
  match Prim2SF x with
  | S754_nan | S754_infinity _ => inl "finite_number"
  | S754_zero _ => inr 0%Z
  | S754_finite s m e =>
      let n := if s then Zneg m else Zpos m in
      let in_range (z : Z) : string + Z :=
        if ((- 2 ^ 63 <? z) && (z <? 2 ^ 63))%Z
        then inr z else inl "int_parsing_size" in
      match e with
      | Zneg p =>
          if (n mod 2 ^ Zpos p =? 0)%Z
          then in_range (n / 2 ^ Zpos p)%Z
          else inl "int_from_float"
      | _ => in_range (n * 2 ^ e)%Z
      end
  end.

(** [x: int | None = Field(default=None)], lax mode: a [bool] is an
    [int], a [float] without fractional part and a numeric [str] are
    converted. *)
Definition optional_int `{Library} (v : option Yaml) : string + option Z :=
  match v with
  | None | Some YNull => inr None
  | Some (YInt z) => inr (Some z)
  | Some (YBool b) => inr (Some (if b then 1 else 0)%Z)
  | Some (YFloat x) =>
      match float_as_int x with
      | inr z => inr (Some z)
      | inl ty => inl ty
      end
  | Some (YStr s) =>
      match str_as_int s with
      | Some z => inr (Some z)
      | None => inl "int_parsing"
      end
  | Some _ => inl "int_type"
  end.

Definition field_error {A : Type} (loc : string) (r : string + A)
  : list (string * string) :=
  match r with inl ty => [(loc, ty)] | inr _ => [] end.

(** [FeatureMetadata.model_validate(f)]: every declared field is checked,
    keys that are not fields are ignored, and all field errors are
    reported together. *)
Definition model_validate `{Library} (f : Yaml) : Exn + FeatureMetadata :=
  match f with
  | YMap d =>
      let r1 := required_str (dict_get "feature_id" d) in
      let r2 := required_str (dict_get "source_id" d) in
      let r3 := required_str (dict_get "display_name" d) in
      let r4 := required_str (dict_get "category" d) in
      let r5 := required_str_min_length_1 (dict_get "description" d) in
      let r6 := optional_str (dict_get "organism_query_type" d) in
      let r7 := optional_list_str (dict_get "answer_enum" d) in
      let r8 := optional_str (dict_get "query" d) in
      let r9 := optional_int (dict_get "max_products" d) in
      let r10 := optional_str (dict_get "type" d) in
      match r1, r2, r3, r4, r5, r6, r7, r8, r9, r10 with
      | inr a1, inr a2, inr a3, inr a4, inr a5,
        inr a6, inr a7, inr a8, inr a9, inr a10 =>
          inr (mkFeatureMetadata a1 a2 a3 a4 a5 a6 a7 a8 a9 a10)
      | _, _, _, _, _, _, _, _, _, _ =>
          inl (ValidationError
                 (field_error "feature_id" r1 ++ field_error "source_id" r2 ++
                  field_error "display_name" r3 ++ field_error "category" r4 ++
                  field_error "description" r5 ++
                  field_error "organism_query_type" r6 ++
                  field_error "answer_enum" r7 ++ field_error "query" r8 ++
                  field_error "max_products" r9 ++ field_error "type" r10))
      end
  | _ => inl (ValidationError [("", "model_type")])
  end.

(** [for f in feature_dicts]: what iterating the value yields. *)
Definition iterate (v : Yaml) : Exn + list Yaml :=
  match v with
  | YList items => inr items
  | YMap items => inr (map (fun '(k, _) => YStr k) items)
  | YStr s => inr (map (fun c => YStr (String c EmptyString)) (list_ascii_of_string s))
  | _ => inl (TypeError "object is not iterable")
  end.

(** [FeatureMetadataService.get_all_feature_metadata], on the parsed
    content [data] of feature_metadata.yaml. *)
Definition get_all_feature_metadata_of `{Library} (data : Yaml)
  : Exn + list FeatureMetadata :=
  match data with
  | YMap items =>
      let feature_dicts :=
        match dict_get "features" items with
        | Some v => v
        | None => YList []
        end in
      match iterate feature_dicts with
      | inl e => inl e
      | inr fs => sequence_sum (map model_validate fs)
      end
  | _ => inl (AttributeError "object has no attribute 'get'")
  end.

(** [FeatureMetadataService.get_feature_metadata_by_source] *)
Definition get_feature_metadata_by_source_of `{Library} (data : Yaml)
  (sid : string) : Exn + list FeatureMetadata :=
  match get_all_feature_metadata_of data with
  | inl e => inl e
  | inr features => inr (filter (fun f => String.eqb (source_id f) sid) features)
  end.

(** [FeatureMetadataService.get_feature_ids_for_source] *)
Definition get_feature_ids_for_source_of `{Library} (data : Yaml)
  (sid : string) : Exn + list string :=
  match get_all_feature_metadata_of data with
  | inl e => inl e
  | inr features =>
      inr (map feature_id
               (filter (fun f => String.eqb (source_id f) sid) features))
  end.

(** ** The pipeline: services and state
    [db/features/pipeline.py] *)

(** The [SourceFunction] protocol.  An adapter reads and changes the
    world outside the process (remote services, their rate limiters), and
    returns a value or raises. *)
Definition SourceFunction (W : Type) : Type :=
  Z -> string -> FeatureMetadata -> W -> (Exn + PyVal) * W.

Class Services : Type := {
  World : Type;
  get_protocols_io : SourceFunction World;
  get_ncbi : SourceFunction World;
  get_nih_reporter : SourceFunction World;
  get_atcc : SourceFunction World;
  get_exa_answer : SourceFunction World;
  (** the parsed content of feature_metadata.yaml *)
  feature_metadata_yaml : Yaml
}.

(** One adapter invocation, as logged. *)
Record Call : Type := mkCall {
  call_organism_id : Z;
  call_organism_scientific_name : string;
  call_feature_metadata : FeatureMetadata;
  call_outcome : Exn + PyVal
}.

(** The dict appended to [rows]. *)
Record FeatureRow : Type := mkFeatureRow {
  row_organism_id : Z;
  row_feature_id : string;
  row_source_id : string;
  row_fetched_object : PyVal
}.

(** A line written by [csv.DictWriter.writerow]. *)
Record CsvRow : Type := mkCsvRow {
  csv_organism_id : Z;
  csv_feature_id : string;
  csv_source_id : string;
  csv_fetched_object : string
}.

(** [calls] is the log of adapter invocations, oldest first; [output_csv]
    is [None] until the output file is opened for writing, then the data
    lines below the header. *)
Record State `{Services} : Type := mkState {
  world : World;
  calls : list Call;
  output_csv : option (list CsvRow)
}.

Arguments mkState {_} _ _ _.

Definition M `{Services} (A : Type) : Type := State -> (Exn + A) * State.

Definition ret `{Services} {A : Type} (a : A) : M A := fun st => (inr a, st).

Definition raise `{Services} {A : Type} (e : Exn) : M A := fun st => (inl e, st).

Definition bind `{Services} {A B : Type} (c : M A) (k : A -> M B) : M B :=
  fun st =>
    match c st with
    | (inl e, st') => (inl e, st')
    | (inr a, st') => k a st'
    end.

Definition lift `{Services} {A : Type} (r : Exn + A) : M A :=
  fun st => (r, st).

Declare Scope pipeline_scope.
Delimit Scope pipeline_scope with pipeline.
Notation "x <- c ;; k" := (bind c (fun x => k))
  (at level 100, c at next level, right associativity) : pipeline_scope.
Notation "c ;;; k" := (bind c (fun _ => k))
  (at level 100, right associativity) : pipeline_scope.

(** The value of a registry entry: [{"function": ...}]. *)
Record SourceConfig `{Services} : Type := mkSourceConfig {
  function : SourceFunction World
}.

Arguments mkSourceConfig {_} _.

Definition SOURCE_REGISTRY `{Services} : list (string * SourceConfig) :=
  [ ("protocols_io", {| function := get_protocols_io |});
    ("ncbi", {| function := get_ncbi |});
    ("nih_reporter", {| function := get_nih_reporter |});
    ("atcc", {| function := get_atcc |});
    ("exa_answer", {| function := get_exa_answer |}) ].

Definition KeyError (k : string) : Exn := mkExn "KeyError" k.

Local Open Scope pipeline_scope.

(** The dict comprehension
    [{source_id: SOURCE_REGISTRY[source_id] for source_id in source_ids}],
    filling [acc] from left to right. *)
Fixpoint select_sources `{Services} (source_ids : list string)
  (acc : list (string * SourceConfig)) : Exn + list (string * SourceConfig) :=
  match source_ids with
  | [] => inr acc
  | sid :: rest =>
      match dict_get sid SOURCE_REGISTRY with
      | Some config => select_sources rest (dict_set sid config acc)
      | None => inl (KeyError sid)
      end
  end.

(** [FeaturesPipeline._get_sources_to_process] *)
Definition _get_sources_to_process `{Services}
  (source_ids : option (list string)) : Exn + list (string * SourceConfig) :=
  match source_ids with
  | None => inr SOURCE_REGISTRY
  | Some ids =>
      let invalid_sources :=
        filter (fun sid => negb (dict_contains sid SOURCE_REGISTRY)) ids in
      match invalid_sources with
      | _ :: _ =>
          let available := join ", " (dict_keys SOURCE_REGISTRY) in
          inl (ValueError ("Invalid source IDs: " ++ join ", " invalid_sources
                           ++ ". Available sources: " ++ available)%string)
      | [] => select_sources ids []
      end
  end.

(** [get_feature_metadata_by_source] on the deployed catalog file, which
    the service re-reads at every call. *)
Definition get_all_feature_metadata `{Library} `{Services}
  : Exn + list FeatureMetadata :=
  get_all_feature_metadata_of feature_metadata_yaml.

Definition get_feature_metadata_by_source `{Library} `{Services}
  (sid : string) : Exn + list FeatureMetadata :=
  get_feature_metadata_by_source_of feature_metadata_yaml sid.

(** [config["function"](organism_id=..., ...)]: run the adapter on the
    world and log the invocation. *)
Definition invoke `{Services} (fn : SourceFunction World) (organism_id : Z)
  (organism_scientific_name : string) (feature_metadata : FeatureMetadata)
  : M PyVal :=
  fun st =>
    let '(outcome, w) :=
      fn organism_id organism_scientific_name feature_metadata (world st) in
    (outcome,
     mkState w
             (calls st ++ [mkCall organism_id organism_scientific_name
                                  feature_metadata outcome])
             (output_csv st)).

(** The [if result is None / elif hasattr(result, "model_dump") / else]
    of [fetch_features_for_organism]. *)
Definition fetched_obj_of (result : PyVal) : PyVal :=
  match result with
  | VNone => VDict []
  | _ => if hasattr_model_dump result then model_dump result else result
  end.

(** The inner loop [for feature_metadata in features_metadata], appending
    to [rows].  (The progress line printed before each call is left
    out.) *)
Fixpoint fetch_features `{Services} (features_metadata : list FeatureMetadata)
  (config : SourceConfig) (organism_id : Z) (organism_scientific_name : string)
  (rows : list FeatureRow) : M (list FeatureRow) :=
  match features_metadata with
  | [] => ret rows
  | feature_metadata :: rest =>
      result <- invoke (function config) organism_id organism_scientific_name
                       feature_metadata ;;
      let fetched_obj := fetched_obj_of result in
      fetch_features rest config organism_id organism_scientific_name
        (rows ++ [mkFeatureRow organism_id (feature_id feature_metadata)
                               (source_id feature_metadata) fetched_obj])
  end.

(** The outer loop [for source_id, config in sources_to_process.items()]. *)
Fixpoint fetch_sources `{Library} `{Services}
  (sources_to_process : list (string * SourceConfig)) (organism_id : Z)
  (organism_scientific_name : string) (rows : list FeatureRow)
  : M (list FeatureRow) :=
  match sources_to_process with
  | [] => ret rows
  | (sid, config) :: rest =>
      features_metadata <- lift (get_feature_metadata_by_source sid) ;;
      rows' <- fetch_features features_metadata config organism_id
                              organism_scientific_name rows ;;
      fetch_sources rest organism_id organism_scientific_name rows'
  end.

(** [FeaturesPipeline.fetch_features_for_organism] *)
Definition fetch_features_for_organism `{Library} `{Services}
  (organism_id : Z) (organism_scientific_name : string)
  (source_ids : option (list string)) : M (list FeatureRow) :=
  sources_to_process <- lift (_get_sources_to_process source_ids) ;;
  fetch_sources sources_to_process organism_id organism_scientific_name [].

(** ** The batch driver [FeaturesPipeline.run_csv]

    The input file is given as the rows [csv.reader] yields for it, one
    per physical line (no quoted field spans a line break): line [k] of
    the file, counting from 1, is the [k]-th element, and a blank line
    is the empty row. *)

Record Organism : Type := mkOrganism {
  org_scientific_name : string;
  org_id : Z
}.

(** A row of [csv.DictReader]: [dict(zip(fieldnames, row))], the missing
    trailing fields set to [None], the surplus ones kept under the key
    [None]. *)
Record DictRow : Type := mkDictRow {
  row_fields : list (string * option string);
  row_rest : option (list string)
}.

Fixpoint zip_fields (fieldnames row : list string)
  (d : list (string * option string)) : list (string * option string) :=
  match fieldnames, row with
  | [], _ => d
  | name :: names, [] => zip_fields names [] (dict_set name None d)
  | name :: names, v :: vs => zip_fields names vs (dict_set name (Some v) d)
  end.

Definition dict_row (fieldnames row : list string) : DictRow :=
  mkDictRow (zip_fields fieldnames row [])
            (if (List.length fieldnames <? List.length row)%nat
             then Some (skipn (List.length fieldnames) row) else None).

(** [row.get(key) or ""] *)
Definition get_or_empty (row : DictRow) (key : string) : string :=
  match dict_get key (row_fields row) with
  | Some (Some v) => v
  | _ => ""
  end.

Definition is_empty (s : string) : bool :=
  match s with EmptyString => true | _ => false end.

(** The loop [for i, row in enumerate(reader, start=2)]; [DictReader]
    passes over empty rows without yielding them. *)
Fixpoint read_organisms `{Library} (fieldnames : list string)
  (records : list (list string)) (i : Z) (organisms : list Organism)
  : Exn + list Organism :=
  match records with
  | [] => inr organisms
  | [] :: rest => read_organisms fieldnames rest i organisms
  | fields :: rest =>
      let row := dict_row fieldnames fields in
      let name := strip (get_or_empty row "organism_scientific_name") in
      let oid_raw := strip (get_or_empty row "organism_id") in
      if is_empty name || is_empty oid_raw then
        inl (ValueError
               ("Input CSV row " ++ str_of_int i ++
                " missing organism_scientific_name or organism_id: " ++
                repr_row (row_fields row) (row_rest row))%string)
      else
        match py_int oid_raw with
        | None =>
            inl (ValueError
                   ("Input CSV row " ++ str_of_int i ++
                    " organism_id must be an integer taxonomy id, got: " ++
                    oid_raw)%string)
        | Some oid =>
            read_organisms fieldnames rest (i + 1)
                           (organisms ++ [mkOrganism name oid])
        end
  end.

(** [sorted(required - set(reader.fieldnames))] *)
Definition missing_columns (fieldnames : list string) : list string :=
  filter (fun c => negb (existsb (String.eqb c) fieldnames))
         ["organism_id"; "organism_scientific_name"].

(** Opening the output file with mode "w" and writing the header. *)
Definition open_output `{Services} : M unit :=
  fun st => (inr tt, mkState (world st) (calls st) (Some [])).

Definition writerow `{Services} (r : CsvRow) : M unit :=
  fun st =>
    (inr tt,
     mkState (world st) (calls st)
             (Some (match output_csv st with
                    | Some written => written ++ [r]
                    | None => [r]
                    end))).

Fixpoint write_rows `{Library} `{Services} (rows : list FeatureRow) : M unit :=
  match rows with
  | [] => ret tt
  | r :: rest =>
      fetched_object <- lift (json_dumps (row_fetched_object r)) ;;
      (writerow (mkCsvRow (row_organism_id r) (row_feature_id r)
                          (row_source_id r) fetched_object) ;;;
       write_rows rest)
  end.

Fixpoint write_organisms `{Library} `{Services} (organisms : list Organism)
  (source_ids : option (list string)) : M unit :=
  match organisms with
  | [] => ret tt
  | org :: rest =>
      rows <- fetch_features_for_organism (org_id org)
                (org_scientific_name org) source_ids ;;
      (write_rows rows ;;; write_organisms rest source_ids)
  end.

(** [FeaturesPipeline.run_csv] (creating the output directory is left
    out). *)
Definition run_csv `{Library} `{Services} (input_csv : list (list string))
  (source_ids : option (list string)) : M unit :=
  match input_csv with
  | [] => raise (ValueError "Input CSV has no header row.")
  | fieldnames :: records =>
      match missing_columns fieldnames with
      | _ :: _ =>
          raise (ValueError
                   ("Input CSV missing required columns: " ++
                    join ", " (missing_columns fieldnames) ++
                    ". Found columns: " ++ join ", " fieldnames)%string)
      | [] =>
          organisms <- lift (read_organisms fieldnames records 2 []) ;;
          (open_output ;;; write_organisms organisms source_ids)
      end
  end.

(** ** Python floats

    A [float] of the program is an IEEE 754 binary64 number; the
    operations round to nearest, ties to even.  [value] reads a float as
    the number it stands for. *)
Module PyFloat.

(** [2 ^ e] *)
Definition pow2 (e : Z) : Q :=
  match e with
  | Z0 => 1
  | Zpos p => Zpos (2 ^ p) # 1
  | Zneg p => 1 # (2 ^ p)
  end.

(** The number a finite float stands for; 0 for an infinity and for
    NaN. *)
Definition value (x : float) : Q :=
  match Prim2SF x with
  | S754_finite s m e => ((if s then Zneg m else Zpos m) # 1) * pow2 e
  | _ => 0
  end.

End PyFloat.

Definition OverflowError (msg : string) : Exn := mkExn "OverflowError" msg.

(** ** The rate limiter
    [utils/rate_limiter.py], class [RateLimiter]

    The clock of the machine is a rational number of seconds.
    [time.time()] gives a float for it, [time_time clock]: which float
    is the platform's business.  [time.sleep(secs)] returns when at
    least [secs] seconds have passed.  How much later than that, and how
    long the interpreter takes between two statements, is not decided by
    the program: a [Lag] supplies those durations for one call of
    [wait].  The lock is held for the whole body, so calls on one
    limiter happen one after the other. *)
Module RateLimiter.

Record t : Type := mk { min_interval : float; _last_call : float }.

(** [calls_per_second] is the argument as a float; an [int] argument
    compares with 0 and divides as the float it converts to. *)
Definition __init__ (calls_per_second : float) : Exn + t :=
  if (calls_per_second <=? 0)%float
  then inl (ValueError "calls_per_second must be positive")
  else inr (mk (1 / calls_per_second)%float 0%float).

Record Lag : Type := mkLag {
  (** between reading [now] and the start of the sleep *)
  before_sleep : Q;
  (** what [time.sleep] sleeps beyond its argument *)
  oversleep : Q;
  (** between the end of the sleep and the second [time.time()] *)
  before_record : Q
}.

Definition lag_ok (l : Lag) : Prop :=
  0 <= before_sleep l /\ 0 <= oversleep l /\ 0 <= before_record l.

(** [time.sleep(secs)] on the clock.  CPython converts [secs] to a
    signed 64-bit count of nanoseconds first and refuses NaN, a count
    that does not fit, and a negative duration. *)
Definition sleep (secs : float) (extra clock : Q) : Exn + Q :=
  if is_nan secs
  then inl (ValueError "Invalid value NaN (not a number)")
  else if negb ((- 0x1p63 <=? secs * 1e9)%float && (secs * 1e9 <? 0x1p63)%float)
  then inl (OverflowError "timestamp too large to convert to C PyTime_t")
  else if (secs <? 0)%float
  then inl (ValueError "sleep length must be non-negative")
  else inr (clock + PyFloat.value secs + extra).

(** A call of [wait] that returned: when it read the clock first, and
    when it read it last, which is when the call was granted. *)
Record Grant : Type := mkGrant { asked : Q; granted : Q }.

Section Clock.

Variable time_time : Q -> float.

(** [RateLimiter.wait]: the outcome, the limiter and the clock after the
    call.  An exception of [time.sleep] leaves the limiter as it was. *)
Definition wait (self : t) (l : Lag) (clock : Q) : (Exn + unit) * (t * Q) :=
  let now := time_time clock in
  let wait_time := (min_interval self - (now - _last_call self))%float in
  let clock := clock + before_sleep l in
  match (if (0 <? wait_time)%float
         then sleep wait_time (oversleep l) clock
         else inr clock) with
  | inl e => (inl e, (self, clock))
  | inr clock =>
      let clock := clock + before_record l in
      (inr tt, (mk (min_interval self) (time_time clock), clock))
  end.

(** Calls of [wait] one after the other by one caller, up to the first
    one that raises; each comes with the time the caller spends before
    it and with its lag.  The result lists the calls that were
    granted. *)
Fixpoint waits (self : t) (clock : Q) (schedule : list (Q * Lag))
  : list Grant * (Exn + unit) * (t * Q) :=
  match schedule with
  | [] => ([], inr tt, (self, clock))
  | (idle, l) :: rest =>
      match wait self l (clock + idle) with
      | (inl e, final) => ([], inl e, final)
      | (inr _, (self', clock')) =>
          let '(grants, outcome, final) := waits self' clock' rest in
          (mkGrant (clock + idle) clock' :: grants, outcome, final)
      end
  end.

(** The wait time that a call computes when it reads the clock at
    [asked] and the call before it was granted at [previous]. *)
Definition computed_wait (m : float) (previous asked : Q) : float :=
  (m - (time_time asked - time_time previous))%float.

(** By how much that falls short of the wait time in exact arithmetic
    on the clock itself: the error of the two readings of the clock and
    of the two subtractions. *)
Definition wait_error (m : float) (previous asked : Q) : Q :=
  (PyFloat.value m - (asked - previous))
  - PyFloat.value (computed_wait m previous asked).

(** Every grant comes [min_interval] after the grant before it, up to
    the error of its computed wait time; [previous] is the grant before
    the first of the list. *)
Fixpoint spaced_from (m : float) (previous : Q) (grants : list Grant) : Prop :=
  match grants with
  | [] => True
  | g :: rest =>
      previous + (PyFloat.value m - wait_error m previous (asked g))
      <= granted g /\
      spaced_from m (granted g) rest
  end.

Definition spaced_up_to_error (m : float) (grants : list Grant) : Prop :=
  match grants with
  | [] => True
  | g :: rest => spaced_from m (granted g) rest
  end.

(** No computed wait time of the calls after the first is short by more
    than [eps]. *)
Fixpoint errors_from (m : float) (eps previous : Q) (grants : list Grant)
  : Prop :=
  match grants with
  | [] => True
  | g :: rest =>
      wait_error m previous (asked g) <= eps /\
      errors_from m eps (granted g) rest
  end.

Definition errors_within (m : float) (eps : Q) (grants : list Grant) : Prop :=
  match grants with
  | [] => True
  | g :: rest => errors_from m eps (granted g) rest
  end.

End Clock.

Definition schedule_ok (schedule : list (Q * Lag)) : Prop :=
  Forall (fun '(idle, l) => 0 <= idle /\ lag_ok l) schedule.

(** Every two neighbours of the list are at least [d] apart. *)
Fixpoint spaced (d : Q) (times : list Q) : Prop :=
  match times with
  | t1 :: ((t2 :: _) as rest) => t1 + d <= t2 /\ spaced d rest
  | _ => True
  end.

End RateLimiter.

(** ** The retry policy
    [utils/rate_limiter.py], [retry_with_backoff]

    The decorator is tenacity's [retry] with the four arguments below;
    [call] is the loop tenacity runs around the decorated function, as
    the library documents it: attempt, and on an exception consult
    [retry], then [stop], then sleep for [wait] and attempt again.  (The
    library's own control exception [TryAgain], which no code of the
    repository raises, is not part of the model.) *)
Module Retry.

Record Policy : Type := mkPolicy {
  (** [stop=stop_after_attempt(n)] *)
  stop_after_attempt : Z;
  (** [wait=wait_random_exponential(min=..., max=...)] *)
  wait_min : Q;
  wait_max : Q;
  (** [retry=retry_if_exception_type(types)] *)
  retry_if_exception_type : list string;
  reraise : bool
}.

(** [retry_with_backoff(max_attempts, min_wait, max_wait, retry_on)] *)
Definition retry_with_backoff (max_attempts : Z) (min_wait max_wait : Q)
  (retry_on : list string) : Policy :=
  mkPolicy max_attempts min_wait max_wait retry_on true.

(** The defaults of the signature. *)
Definition retry_with_backoff_default : Policy :=
  retry_with_backoff 5 1 60 ["RequestException"; "HTTPError"].

(** [isinstance(e, types)] for a tuple of classes. *)
Definition isinstance `{Library} (e : Exn) (types : list string) : bool :=
  existsb (fun c => issubclass (exn_class e) c) types.

(** tenacity's [RetryError], which carries the last attempt. *)
Definition RetryError (last : Exn) : Exn :=
  mkExn "RetryError" (exn_class last ++ ": " ++ exn_msg last)%string.

Section Loop.

Context `{Library}.
Variables W A : Type.

(** The pause before the next attempt: a random exponential delay within
    the bounds of the policy, drawn and slept in the world. *)
Variable backoff : Q -> Q -> Z -> W -> W.

(** The result of a call: the outcome, the world, and how many times the
    decorated function was invoked. *)
Definition Result : Type := (Exn + A) * W * nat.

(** The [while True] loop of [Retrying.__call__], one iteration per
    attempt; [None] only if [fuel] iterations did not finish it. *)
Fixpoint attempts (fuel : nat) (policy : Policy) (fn : W -> (Exn + A) * W)
  (attempt_number : Z) (invocations : nat) (w : W) : option Result :=
  match fuel with
  | O => None
  | S fuel' =>
      let '(outcome, w) := fn w in
      let invocations := S invocations in
      match outcome with
      | inr result => Some (inr result, w, invocations)
      | inl e =>
          if negb (isinstance e (retry_if_exception_type policy))
          then Some (inl e, w, invocations)
          else if (attempt_number >=? stop_after_attempt policy)%Z
          then Some (inl (if reraise policy then e else RetryError e),
                     w, invocations)
          else attempts fuel' policy fn (attempt_number + 1) invocations
                        (backoff (wait_min policy) (wait_max policy)
                                 attempt_number w)
      end
  end.

(** Calling the decorated function.  The loop ends within
    [max 1 stop_after_attempt] iterations. *)
Definition call (policy : Policy) (fn : W -> (Exn + A) * W) (w : W)
  : option Result :=
  attempts (S (Z.to_nat (stop_after_attempt policy))) policy fn 1 0 w.

(** The world in which attempt number [k + 1] starts, when the attempts
    before it were all followed by a pause. *)
Fixpoint world_before (policy : Policy) (fn : W -> (Exn + A) * W) (w : W)
  (k : nat) : W :=
  match k with
  | O => w
  | S k' =>
      backoff (wait_min policy) (wait_max policy) (Z.of_nat k)
              (snd (fn (world_before policy fn w k')))
  end.

End Loop.

End Retry.

(** ** Construction of the source clients

    [os.environ] is a dict of strings.  A constructor is a function of
    the environment and of its arguments only: it has no access to the
    network. *)

Definition Environ : Type := list (string * string).

(** Truth value of a [str | None]. *)
Definition truthy (s : option string) : bool :=
  match s with
  | Some (String _ _) => true
  | _ => false
  end.

(** [a or b] *)
Definition or_else (a b : option string) : option string :=
  if truthy a then a else b.

(** [sources/ncbi/client.py] *)
Module NCBIClient.

Definition NCBI_API_TOOL_ID : string := "organism_tractability".

Record t : Type := mk {
  api_key : option string;
  api_email : option string;
  tool_id : option string
}.

Definition __init__ (environ : Environ) (api_key api_email tool_id : option string)
  : Exn + t :=
  let self_api_key := or_else api_key (dict_get "NCBI_API_KEY" environ) in
  let self_api_email := or_else api_email (dict_get "NCBI_API_EMAIL" environ) in
  let self_tool_id := or_else tool_id (Some NCBI_API_TOOL_ID) in
  if negb (truthy self_api_key) then
    inl (ValueError "NCBI_API_KEY must be provided")
  else if negb (truthy self_api_email) then
    inl (ValueError "NCBI_API_EMAIL must be provided")
  else inr (mk self_api_key self_api_email self_tool_id).

End NCBIClient.

(** [sources/protocols_io/client.py] *)
Module ProtocolsIOClient.

Definition PROTOCOLS_IO_BASE_URL : string := "https://www.protocols.io/api/v3".

Record t : Type := mk {
  access_token : option string;
  base_url : option string
}.

Definition __init__ (environ : Environ) (access_token base_url : option string)
  : Exn + t :=
  let self_access_token :=
    or_else access_token
            (dict_get "PROTOCOLS_IO_API_CLIENT_ACCESS_TOKEN" environ) in
  let self_base_url := or_else base_url (Some PROTOCOLS_IO_BASE_URL) in
  if negb (truthy self_access_token) then
    inl (ValueError "PROTOCOLS_IO_API_CLIENT_ACCESS_TOKEN must be provided")
  else inr (mk self_access_token self_base_url).

End ProtocolsIOClient.

(** [utils/FirecrawlClient.py] *)
Module FirecrawlClient.

Record t : Type := mk {
  api_key : option string;
  (** the key handed to [FirecrawlApp] *)
  app : option string
}.

Definition __init__ (environ : Environ) : Exn + t :=
  let self_api_key := dict_get "FIRECRAWL_API_KEY" environ in
  if negb (truthy self_api_key) then
    inl (ValueError "FIRECRAWL_API_KEY environment variable is required")
  else inr (mk self_api_key self_api_key).

End FirecrawlClient.

(** [sources/atcc/client.py] *)
Module ATCCClient.

Record t : Type := mk { firecrawl_client : FirecrawlClient.t }.

Definition __init__ (environ : Environ) : Exn + t :=
  match FirecrawlClient.__init__ environ with
  | inl e => inl e
  | inr c => inr (mk c)
  end.

End ATCCClient.

(** [utils/ExaClient.py] *)
Module ExaClient.

Record t : Type := mk {
  api_key : option string;
  headers : list (string * option string)
}.

Definition __init__ (environ : Environ) : Exn + t :=
  let self_api_key := dict_get "EXA_API_KEY" environ in
  inr (mk self_api_key [("x-api-key", self_api_key)]).

End ExaClient.

(** [sources/exa_answer/client.py] *)
Module ExaAnswerClient.

Record t : Type := mk { exa_client : ExaClient.t }.

Definition __init__ (environ : Environ) : Exn + t :=
  match ExaClient.__init__ environ with
  | inl e => inl e
  | inr c => inr (mk c)
  end.

End ExaAnswerClient.

(** [sources/nih_reporter/client.py]: a session with two fixed headers,
    no credentials. *)
Module NIHReporterClient.

Record t : Type := mk { session_headers : list (string * string) }.

Definition __init__ (environ : Environ) : Exn + t :=
  inr (mk [("Content-Type", "application/json"); ("Accept", "application/json")]).

End NIHReporterClient.

(** The clients that talk to a source, by name. *)
Inductive SourceClient : Type :=
| NCBI | ProtocolsIO | Firecrawl | ATCC | Exa | ExaAnswer | NIHReporter.

(** Construction from the environment alone (no explicit arguments), as
    the module-level [_client = ...Client()] lines do: the exception
    raised, if any. *)
Definition construct (c : SourceClient) (environ : Environ) : option Exn :=
  let raised {T : Type} (r : Exn + T) : option Exn :=
    match r with inl e => Some e | inr _ => None end in
  match c with
  | NCBI => raised (NCBIClient.__init__ environ None None None)
  | ProtocolsIO => raised (ProtocolsIOClient.__init__ environ None None)
  | Firecrawl => raised (FirecrawlClient.__init__ environ)
  | ATCC => raised (ATCCClient.__init__ environ)
  | Exa => raised (ExaClient.__init__ environ)
  | ExaAnswer => raised (ExaAnswerClient.__init__ environ)
  | NIHReporter => raised (NIHReporterClient.__init__ environ)
  end.

(** The environment variable each client takes its credentials from. *)
Definition credentials (c : SourceClient) : list string :=
  match c with
  | NCBI => ["NCBI_API_KEY"; "NCBI_API_EMAIL"]
  | ProtocolsIO => ["PROTOCOLS_IO_API_CLIENT_ACCESS_TOKEN"]
  | Firecrawl | ATCC => ["FIRECRAWL_API_KEY"]
  | Exa | ExaAnswer => ["EXA_API_KEY"]
  | NIHReporter => []
  end.

(** ** Vocabulary of the statements *)

(** The keys of [{k: ... for k in ids}]: every id once, at the place of
    its first occurrence ([seen] holds the keys already present). *)
Fixpoint first_occurrences (ids seen : list string) : list string :=
  match ids with
  | [] => []
  | sid :: rest =>
      if existsb (String.eqb sid) seen
      then first_occurrences rest seen
      else sid :: first_occurrences rest (seen ++ [sid])
  end.

(** Every entry is the one the registry holds under that key. *)
Definition from_registry `{Services} (d : list (string * SourceConfig)) : Prop :=
  Forall (fun entry => dict_get (fst entry) SOURCE_REGISTRY = Some (snd entry)) d.

(** The order in which the sources of a request are visited. *)
Definition processing_order `{Services} (source_ids : option (list string))
  : list string :=
  match source_ids with
  | None => dict_keys SOURCE_REGISTRY
  | Some ids => first_occurrences ids []
  end.

(** The catalog entries of the given sources, source by source, each
    source's entries in the order of the catalog. *)
Definition plan (catalog : list FeatureMetadata) (order : list string)
  : list FeatureMetadata :=
  flat_map (fun sid => filter (fun f => String.eqb (source_id f) sid) catalog)
           order.

(** The catalog when it loads, no entries when it does not. *)
Definition loaded_catalog `{Library} `{Services} : list FeatureMetadata :=
  match get_all_feature_metadata with
  | inr catalog => catalog
  | inl _ => []
  end.

(** The row made from one adapter result. *)
Definition row_for (organism_id : Z) (fr : FeatureMetadata * PyVal) : FeatureRow :=
  mkFeatureRow organism_id (feature_id (fst fr)) (source_id (fst fr))
               (fetched_obj_of (snd fr)).

(** The log entry of one successful adapter invocation. *)
Definition call_for (organism_id : Z) (organism_scientific_name : string)
  (fr : FeatureMetadata * PyVal) : Call :=
  mkCall organism_id organism_scientific_name (fst fr) (inr (snd fr)).

(** An adapter that raises in no circumstances. *)
Definition never_raises {W : Type} (fn : SourceFunction W) : Prop :=
  forall organism_id organism_scientific_name feature_metadata w,
    exists result w',
      fn organism_id organism_scientific_name feature_metadata w = (inr result, w').

(** Position of a source in the registry (its length for a stranger). *)
Fixpoint index_of (sid : string) (keys : list string) : nat :=
  match keys with
  | [] => O
  | k :: rest => if String.eqb sid k then O else S (index_of sid rest)
  end.

(** The source ids never step back in the registry. *)
Fixpoint registration_ordered (keys sids : list string) : bool :=
  match sids with
  | s1 :: ((s2 :: _) as rest) =>
      (index_of s1 keys <=? index_of s2 keys)%nat && registration_ordered keys rest
  | _ => true
  end.

(** A data record that the input loop refuses. *)
Definition record_refused `{Library} (fieldnames fields : list string) : bool :=
  let row := dict_row fieldnames fields in
  let name := strip (get_or_empty row "organism_scientific_name") in
  let oid_raw := strip (get_or_empty row "organism_id") in
  match fields with
  | [] => false
  | _ => is_empty name || is_empty oid_raw ||
         match py_int oid_raw with None => true | Some _ => false end
  end.

(** A data record that the input loop accepts as an organism. *)
Definition record_accepted `{Library} (fieldnames fields : list string) : bool :=
  match fields with
  | [] => false
  | _ => negb (record_refused fieldnames fields)
  end.

(** The text of the error for a refused record numbered [i]. *)
Definition record_error `{Library} (fieldnames fields : list string) (i : Z)
  : string :=
  let row := dict_row fieldnames fields in
  let name := strip (get_or_empty row "organism_scientific_name") in
  let oid_raw := strip (get_or_empty row "organism_id") in
  if is_empty name || is_empty oid_raw
  then ("Input CSV row " ++ str_of_int i ++
        " missing organism_scientific_name or organism_id: " ++
        repr_row (row_fields row) (row_rest row))%string
  else ("Input CSV row " ++ str_of_int i ++
        " organism_id must be an integer taxonomy id, got: " ++ oid_raw)%string.

Definition is_digit (c : ascii) : bool :=
  let n := nat_of_ascii c in (48 <=? n)%nat && (n <=? 57)%nat.

Definition has_digit (s : string) : bool :=
  existsb is_digit (list_ascii_of_string s).

(** An attempt that raises an exception of a retryable class. *)
Definition fails_retryably `{Library} {W A : Type} (policy : Retry.Policy)
  (fn : W -> (Exn + A) * W) (w : W) : Prop :=
  exists e, fst (fn w) = inl e /\
            Retry.isinstance e (Retry.retry_if_exception_type policy) = true.

(** ** A small deployment, for running the definitions

    The library functions restricted to ASCII text, five adapters that
    answer without a network, and a catalog of four features. *)
Module Example.

Definition is_space (c : ascii) : bool :=
  let n := nat_of_ascii c in
  (n =? 32)%nat || ((9 <=? n)%nat && (n <=? 13)%nat) ||
  ((28 <=? n)%nat && (n <=? 31)%nat).

Fixpoint lstrip (l : list ascii) : list ascii :=
  match l with
  | c :: rest => if is_space c then lstrip rest else l
  | [] => []
  end.

Definition ascii_strip (s : string) : string :=
  string_of_list_ascii (rev (lstrip (rev (lstrip (list_ascii_of_string s))))).

Fixpoint digits_value (l : list ascii) (acc : Z) : option Z :=
  match l with
  | [] => Some acc
  | c :: rest =>
      if is_digit c
      then digits_value rest (acc * 10 + Z.of_nat (nat_of_ascii c - 48))%Z
      else None
  end.

(** An optional sign and decimal digits. *)
Definition decimal_int (s : string) : option Z :=
  match list_ascii_of_string s with
  | [] => None
  | "-"%char :: ((_ :: _) as ds) => option_map Z.opp (digits_value ds 0)
  | "+"%char :: ((_ :: _) as ds) => digits_value ds 0
  | ds => digits_value ds 0
  end.

(** Scalars and the empty record only. *)
Definition small_json (v : PyVal) : Exn + string :=
  match v with
  | VNone => inr "null"
  | VBool true => inr "true"
  | VBool false => inr "false"
  | VInt z => inr (str_of_int z)
  | VDict [] => inr "{}"
  | VList [] => inr "[]"
  | _ => inl (TypeError "Object is not JSON serializable")
  end.

Definition requests_issubclass (c d : string) : bool :=
  String.eqb c d ||
  (String.eqb d "RequestException" &&
   (String.eqb c "HTTPError" || String.eqb c "ConnectionError" ||
    String.eqb c "Timeout")).

Definition field_names (fields : list (string * option string))
  (rest : option (list string)) : string :=
  ("{" ++ join ", " (dict_keys fields) ++ "}")%string.

Definition library : Library := {|
  strip := ascii_strip;
  py_int := decimal_int;
  str_as_int := decimal_int;
  json_dumps := small_json;
  issubclass := requests_issubclass;
  repr_row := field_names
|}.

(** The world counts the requests sent. *)
Definition ncbi_adapter : SourceFunction nat :=
  fun _ name _ w =>
    (inr (VModel "NCBISearchResult"
                 [("search_url", VStr name); ("count", VInt 0)]), S w).

Definition protocols_io_adapter : SourceFunction nat :=
  fun _ _ _ w => (inr VNone, S w).

Definition nih_reporter_adapter : SourceFunction nat :=
  fun _ _ _ w =>
    (inr (VModel "SearchResponse"
                 [("meta", VModel "SearchMeta" [("total", VInt 0)]);
                  ("results", VList [])]), S w).

Definition atcc_adapter : SourceFunction nat :=
  fun _ _ _ w =>
    (inr (VModel "AtccSearchAndProductResults"
                 [("search_results", VNone); ("product_details", VList [])]),
     S w).

Definition exa_answer_adapter : SourceFunction nat :=
  fun _ _ fm w => (inr (VDict [("answer", VStr (feature_id fm))]), S w).

Definition entry (fid sid : string) : Yaml :=
  YMap [("feature_id", YStr fid); ("source_id", YStr sid);
        ("display_name", YStr fid); ("category", YStr "resources");
        ("description", YStr "about the organism")].

Definition catalog_yaml : Yaml :=
  YMap [("features",
         YList [entry "protocols_count" "protocols_io";
                entry "pubmed_count" "ncbi";
                entry "genome_count" "ncbi";
                entry "atcc_products" "atcc"])].

Definition services : Services := {|
  World := nat;
  get_protocols_io := protocols_io_adapter;
  get_ncbi := ncbi_adapter;
  get_nih_reporter := nih_reporter_adapter;
  get_atcc := atcc_adapter;
  get_exa_answer := exa_answer_adapter;
  feature_metadata_yaml := catalog_yaml
|}.

Definition start : @State services := mkState (0%nat : @World services) [] None.

(** A catalog whose second entry has no description. *)
Definition no_description : list (string * Yaml) :=
  [("feature_id", YStr "pubmed_count"); ("source_id", YStr "ncbi");
   ("display_name", YStr "PubMed"); ("category", YStr "resources")].

Definition broken_entries : list Yaml :=
  [entry "protocols_count" "protocols_io"; YMap no_description].

Definition broken_yaml : Yaml := YMap [("features", YList broken_entries)].

(** A function that raises [Timeout] on its first two invocations and
    answers on the third; the world counts the invocations so far. *)
Definition flaky (w : nat) : (Exn + string) * nat :=
  if (w <? 2)%nat then (inl (mkExn "Timeout" "timed out"), S w)
  else (inr "ok", S w).

(** A function that always raises a [KeyError]. *)
Definition broken (w : nat) : (Exn + string) * nat :=
  (inl (KeyError "count"), S w).

(** A function that always raises [HTTPError], numbering the failures. *)
Definition down (w : nat) : (Exn + string) * nat :=
  (inl (mkExn "HTTPError" (str_of_int (Z.of_nat w))), S w).

(** Pauses leave this world alone. *)
Definition no_backoff (min_wait max_wait : Q) (attempt_number : Z) (w : nat) : nat := w.

End Example.

(** ** Vocabulary of the further statements *)

(** What identifies a line of the output file. *)
Definition csv_key (r : CsvRow) : Z * string * string :=
  (csv_organism_id r, csv_source_id r, csv_feature_id r).

(** The lines a complete run writes: for every organism in input order,
    the planned entries of the visited sources. *)
Definition expected_keys `{Library} `{Services} (organisms : list Organism)
  (source_ids : option (list string)) : list (Z * string * string) :=
  flat_map (fun org =>
              map (fun f => (org_id org, source_id f, feature_id f))
                  (plan loaded_catalog (processing_order source_ids)))
           organisms.

(** A row of the input that [DictReader] yields. *)
Definition nonblank (fields : list string) : bool :=
  match fields with [] => false | _ => true end.

(** A catalog entry whose source has an adapter. *)
Definition has_adapter `{Services} (f : FeatureMetadata) : bool :=
  dict_contains (source_id f) SOURCE_REGISTRY.

(** What identifies a row: the organism, the source and the feature. *)
Definition row_key (r : FeatureRow) : Z * string * string :=
  (row_organism_id r, row_source_id r, row_feature_id r).

(** The names of the fields [FeatureMetadata] declares. *)
Definition declared_fields : list string :=
  ["feature_id"; "source_id"; "display_name"; "category"; "description";
   "organism_query_type"; "answer_enum"; "query"; "max_products"; "type"].

(** ** A second deployment: a failing adapter and a stray catalog entry *)
Module Outage.

(** The NCBI adapter answers for every feature but [genome_count], for
    which the service is down. *)
Definition ncbi_adapter : SourceFunction nat :=
  fun organism_id name fm w =>
    if String.eqb (feature_id fm) "genome_count"
    then (inl (mkExn "HTTPError" "503 Server Error"), S w)
    else Example.ncbi_adapter organism_id name fm w.

(** The last entry names a source that has no adapter. *)
Definition catalog_yaml : Yaml :=
  YMap [("features",
         YList [Example.entry "pubmed_count" "ncbi";
                Example.entry "protocols_count" "protocols_io";
                Example.entry "genome_count" "ncbi";
                Example.entry "strain_count" "dsmz"])].

Definition services : Services := {|
  World := nat;
  get_protocols_io := Example.protocols_io_adapter;
  get_ncbi := ncbi_adapter;
  get_nih_reporter := Example.nih_reporter_adapter;
  get_atcc := Example.atcc_adapter;
  get_exa_answer := Example.exa_answer_adapter;
  feature_metadata_yaml := catalog_yaml
|}.

Definition start : @State services := mkState (0%nat : @World services) [] None.

(** The example deployment with a catalog file that does not load. *)
Definition unloadable : Services := {|
  World := nat;
  get_protocols_io := Example.protocols_io_adapter;
  get_ncbi := Example.ncbi_adapter;
  get_nih_reporter := Example.nih_reporter_adapter;
  get_atcc := Example.atcc_adapter;
  get_exa_answer := Example.exa_answer_adapter;
  feature_metadata_yaml := Example.broken_yaml
|}.

(** The deployment with the stray catalog entry, all adapters up. *)
Definition recovered : Services := {|
  World := nat;
  get_protocols_io := Example.protocols_io_adapter;
  get_ncbi := Example.ncbi_adapter;
  get_nih_reporter := Example.nih_reporter_adapter;
  get_atcc := Example.atcc_adapter;
  get_exa_answer := Example.exa_answer_adapter;
  feature_metadata_yaml := catalog_yaml
|}.

(** protocols.io cannot be reached for the organism 562. *)
Definition protocols_io_adapter : SourceFunction nat :=
  fun organism_id name fm w =>
    if (organism_id =? 562)%Z
    then (inl (mkExn "ConnectionError" "Connection refused"), S w)
    else Example.protocols_io_adapter organism_id name fm w.

Definition unreachable : Services := {|
  World := nat;
  get_protocols_io := protocols_io_adapter;
  get_ncbi := Example.ncbi_adapter;
  get_nih_reporter := Example.nih_reporter_adapter;
  get_atcc := Example.atcc_adapter;
  get_exa_answer := Example.exa_answer_adapter;
  feature_metadata_yaml := Example.catalog_yaml
|}.

End Outage.

(** ** The concurrency limiter
    [utils/rate_limiter.py], class [ConcurrencyLimiter]

    The limiter is a [threading.Semaphore]; its state is the counter of
    the semaphore.  [acquire] and [release] are atomic, so what several
    threads do to one limiter is a sequence of events. *)
Module ConcurrencyLimiter.

Record t : Type := mk { _semaphore : Z }.

Definition __init__ (max_concurrent : Z) : Exn + t :=
  if (max_concurrent <=? 0)%Z
  then inl (ValueError "max_concurrent must be positive")
  else inr (mk max_concurrent).

(** [self._semaphore.acquire()]: [None] when the counter is zero and the
    caller has to wait. *)
Definition __enter__ (self : t) : option t :=
  if (0 <? _semaphore self)%Z then Some (mk (_semaphore self - 1)) else None.

(** [self._semaphore.release()] *)
Definition __exit__ (self : t) : t := mk (_semaphore self + 1).

Inductive Event : Type := Enter | Exit.

(** The limiter after the events, in the order in which they took
    place; [None] if one of the [Enter] events could not have taken
    place then. *)
Fixpoint run (self : t) (events : list Event) : option t :=
  match events with
  | [] => Some self
  | Enter :: rest =>
      match __enter__ self with
      | Some self' => run self' rest
      | None => None
      end
  | Exit :: rest => run (__exit__ self) rest
  end.

(** The events are those of [with limiter:] blocks: every [Exit] closes
    a block that is open; [open] blocks are open at the start. *)
Fixpoint scoped (open : nat) (events : list Event) : bool :=
  match events with
  | [] => true
  | Enter :: rest => scoped (S open) rest
  | Exit :: rest =>
      match open with
      | O => false
      | S open' => scoped open' rest
      end
  end.

(** The number of blocks open after the events. *)
Fixpoint holders (open : Z) (events : list Event) : Z :=
  match events with
  | [] => open
  | Enter :: rest => holders (open + 1) rest
  | Exit :: rest => holders (open - 1) rest
  end.

End ConcurrencyLimiter.

(** ** The Firecrawl client at work
    [utils/FirecrawlClient.py], [extract] and [scrape_with_json_mode] *)
Module Firecrawl.

Definition FirecrawlExtractionError (msg : string) : Exn :=
  mkExn "FirecrawlExtractionError" msg.

(** What [FirecrawlApp.extract] or [FirecrawlApp.scrape] returns, as far
    as the client inspects it. *)
Inductive Response : Type :=
| Falsy                        (** [None], or an object that is false *)
| Bare                         (** a true object without the attribute *)
| Carrying (payload : PyVal).  (** the attribute; [VNone] for [None] *)

(** Truth value of a [dict | None]. *)
Definition truthy_dict (d : option (list (string * PyVal))) : bool :=
  match d with
  | Some (_ :: _) => true
  | _ => false
  end.

Section Client.

Variable W : Type.

(** [self.app.extract(urls, prompt, schema, timeout, scrape_options)],
    the options given as [store_in_cache] and [wait_for]. *)
Variable app_extract :
  list string -> string -> option (list (string * PyVal)) -> Z -> bool -> Z ->
  W -> (Exn + Response) * W.

(** [self.app.scrape(url, formats, only_main_content, timeout,
    store_in_cache)] *)
Variable app_scrape :
  string -> list (list (string * PyVal)) -> bool -> Z -> bool ->
  W -> (Exn + Response) * W.

(** The module-level limiter and the rest of the world. *)
Definition State : Type := ConcurrencyLimiter.t * W.

(** [FirecrawlClient.extract]; [None] when the limiter makes the caller
    wait. *)
Definition extract (url prompt : string)
  (schema : option (list (string * PyVal))) (timeout_ms : Z)
  (store_in_cache : bool) (s : State) : option ((Exn + PyVal) * State) :=
  match ConcurrencyLimiter.__enter__ (fst s) with
  | None => None
  | Some held =>
      let '(result, w) :=
        app_extract [url] prompt schema timeout_ms store_in_cache 5000 (snd s) in
      let outcome :=
        match result with
        | inl e => inl e
        | inr Falsy | inr Bare =>
            inl (FirecrawlExtractionError "Firecrawl extract returned no data")
        | inr (Carrying VNone) =>
            inl (FirecrawlExtractionError "Firecrawl extract returned data=None")
        | inr (Carrying data) => inr data
        end in
      Some (outcome, (ConcurrencyLimiter.__exit__ held, w))
  end.

(** [FirecrawlClient.scrape_with_json_mode] *)
Definition scrape_with_json_mode (url : string)
  (schema : option (list (string * PyVal))) (prompt : option string)
  (timeout_ms : Z) (only_main_content store_in_cache : bool) (s : State)
  : option ((Exn + PyVal) * State) :=
  if negb (truthy_dict schema) && negb (truthy prompt) then
    Some (inl (ValueError "Either 'schema' or 'prompt' must be provided"), s)
  else
    let json_format := [("type", VStr "json")] in
    let json_format :=
      match schema with
      | Some ((_ :: _) as fields) => dict_set "schema" (VDict fields) json_format
      | _ => json_format
      end in
    let json_format :=
      match prompt with
      | Some ((String _ _) as text) => dict_set "prompt" (VStr text) json_format
      | _ => json_format
      end in
    match ConcurrencyLimiter.__enter__ (fst s) with
    | None => None
    | Some held =>
        let '(result, w) :=
          app_scrape url [json_format] only_main_content timeout_ms
                     store_in_cache (snd s) in
        let outcome :=
          match result with
          | inl e => inl e
          | inr Falsy | inr Bare =>
              inl (FirecrawlExtractionError "Firecrawl scrape returned no json")
          | inr (Carrying VNone) =>
              inl (FirecrawlExtractionError "Firecrawl scrape returned json=None")
          | inr (Carrying data) => inr data
          end in
        Some (outcome, (ConcurrencyLimiter.__exit__ held, w))
    end.

End Client.

End Firecrawl.

(** ** The ATCC adapter
    [sources/atcc/atcc.py] *)
Module ATCC.

Record AtccProduct : Type := mkProduct { product_url : option string }.

Record AtccSearchResults : Type := mkSearchResults {
  results_url : option string;
  products : list AtccProduct;
  total_results : option Z
}.

(** The product pages of a list of products: their urls that are
    non-empty strings, in the order of the products. *)
Definition pages (items : list AtccProduct) : list string :=
  flat_map (fun product =>
              match product_url product with
              | Some ((String _ _) as url) => [url]
              | _ => []
              end) items.

Section Adapter.

Variable W : Type.

(** [AtccProductDetail], whose fields the adapter does not look at. *)
Variable Detail : Type.

(** [_client.search_products(query=...)] and [_client.get_product(url)],
    which go to the network. *)
Variable search_products : string -> W -> (Exn + option AtccSearchResults) * W.
Variable get_product : string -> W -> (Exn + option Detail) * W.

Record AtccSearchAndProductResults : Type := mkResults {
  search_results : option AtccSearchResults;
  product_details : list Detail
}.

(** The world and the product pages asked for so far. *)
Definition State : Type := W * list string.

(** The loop [for product in products[:max_products]].  A product is a
    model instance, hence true; its url counts when it is a non-empty
    string; a detail counts when it is not [None]. *)
Fixpoint get_details (products : list AtccProduct)
  (product_details : list Detail) (s : State) : (Exn + list Detail) * State :=
  match products with
  | [] => (inr product_details, s)
  | product :: rest =>
      match product_url product with
      | Some ((String _ _) as url) =>
          let '(r, w) := get_product url (fst s) in
          let s' := (w, snd s ++ [url]) in
          match r with
          | inl e => (inl e, s')
          | inr (Some product_detail) =>
              get_details rest (product_details ++ [product_detail]) s'
          | inr None => get_details rest product_details s'
          end
      | _ => get_details rest product_details s
      end
  end.

(** [search_and_get_atcc_products] *)
Definition search_and_get_atcc_products (organism_scientific_name : string)
  (max_products : Z) (s : State)
  : (Exn + AtccSearchAndProductResults) * State :=
  let '(r, w) := search_products organism_scientific_name (fst s) in
  let s := (w, snd s) in
  match r with
  | inl e => (inl e, s)
  | inr None => (inr (mkResults None []), s)
  | inr (Some found) =>
      match products found with
      | _ :: _ =>
          if (0 <? max_products)%Z then
            match get_details (firstn (Z.to_nat max_products) (products found))
                              [] s with
            | (inl e, s') => (inl e, s')
            | (inr details, s') => (inr (mkResults (Some found) details), s')
            end
          else (inr (mkResults (Some found) []), s)
      | [] => (inr (mkResults (Some found) []), s)
      end
  end.

(** [get_atcc]: the [SourceFunction] of the registry. *)
Definition get_atcc (organism_id : Z) (organism_scientific_name : string)
  (feature_metadata : FeatureMetadata) (s : State)
  : (Exn + AtccSearchAndProductResults) * State :=
  search_and_get_atcc_products organism_scientific_name
    (match max_products feature_metadata with
     | Some n => if (n =? 0)%Z then 0%Z else n
     | None => 0%Z
     end) s.

End Adapter.

End ATCC.

(** A search that finds three products, the second without a url, and
    product pages that all load; a detail is the page's url. *)
Module ATCCExample.

Definition found : ATCC.AtccSearchResults :=
  ATCC.mkSearchResults
    (Some "https://www.atcc.org/search#q=Chlorella")
    [ATCC.mkProduct (Some "https://www.atcc.org/products/9765");
     ATCC.mkProduct None;
     ATCC.mkProduct (Some "https://www.atcc.org/products/30581")]
    (Some 3%Z).

Definition search_products (query : string) (w : nat)
  : (Exn + option ATCC.AtccSearchResults) * nat :=
  (inr (Some found), S w).

Definition get_product (url : string) (w : nat) : (Exn + option string) * nat :=
  (inr (Some url), S w).

End ATCCExample.

(** ** A throttled request under the retry policy
    [sources/ncbi/client.py], [NCBIClient._throttled_get]
    ([ProtocolsIOClient._throttled_request] has the same shape)

    The function waits on the module's rate limiter, sends the request,
    and raises for an error status; the decorator retries it.  How long
    things take is not decided by the program: the lag of each wait,
    the time between the grant and the sending of the request, the
    duration of each request and the length of each pause are given
    from outside. *)
Module Throttled.

Record Response : Type := mkResponse { status_code : Z; body : PyVal }.

(** [resp.raise_for_status()]: an [HTTPError] for the statuses 400 to
    599 (the library's message is longer). *)
Definition raise_for_status (resp : Response) : Exn + Response :=
  if (400 <=? status_code resp)%Z && (status_code resp <? 600)%Z
  then inl (mkExn "HTTPError" (str_of_int (status_code resp)))
  else inr resp.

(** What an attempt did: the limiter raised, or it granted the call and
    the request was sent at [sent_at]. *)
Inductive Attempt : Type :=
| Refused (e : Exn)
| Sent (grant : RateLimiter.Grant) (sent_at : Q).

(** The grants of the limiter in a log of attempts. *)
Definition grants_of (log : list Attempt) : list RateLimiter.Grant :=
  flat_map (fun a => match a with Sent g _ => [g] | Refused _ => [] end) log.

(** A request is sent after its grant. *)
Definition in_order (a : Attempt) : Prop :=
  match a with
  | Sent g sent_at => RateLimiter.granted g <= sent_at
  | Refused _ => True
  end.

Section Get.

(** The service at the other end. *)
Variable R : Type.

(** [requests.get(url, params=params, timeout=timeout)] *)
Variable requests_get :
  string -> list (string * PyVal) -> Z -> R -> (Exn + Response) * R.

Variable time_time : Q -> float.
Variable lag_of : nat -> RateLimiter.Lag.
Variable start_of : nat -> Q.
Variable duration_of : nat -> Q.
Variable pause_of : Q -> Q -> Z -> Q.

(** The limiter of the module, the clock, the attempts made so far, and
    the service. *)
Record Net : Type := mkNet {
  limiter : RateLimiter.t;
  clock : Q;
  log : list Attempt;
  remote : R
}.

(** The body of [_throttled_get]. *)
Definition _throttled_get (url : string) (params : list (string * PyVal))
  (timeout : Z) (net : Net) : (Exn + Response) * Net :=
  let n := List.length (log net) in
  match RateLimiter.wait time_time (limiter net) (lag_of n) (clock net) with
  | (inl e, (limiter', clock')) =>
      (inl e, mkNet limiter' clock' (log net ++ [Refused e]) (remote net))
  | (inr _, (limiter', granted)) =>
      let sent_at := granted + start_of n in
      let '(r, remote') := requests_get url params timeout (remote net) in
      let outcome :=
        match r with
        | inl e => inl e
        | inr resp => raise_for_status resp
        end in
      (outcome,
       mkNet limiter' (sent_at + duration_of n)
             (log net ++ [Sent (RateLimiter.mkGrant (clock net) granted) sent_at])
             remote')
  end.

(** The pause between two attempts. *)
Definition backoff (min_wait max_wait : Q) (attempt_number : Z) (net : Net)
  : Net :=
  mkNet (limiter net) (clock net + pause_of min_wait max_wait attempt_number)
        (log net) (remote net).

(** [@retry_with_backoff(max_attempts=5, min_wait=1.0, max_wait=60.0)] *)
Definition policy : Retry.Policy :=
  Retry.retry_with_backoff 5 1 60 ["RequestException"; "HTTPError"].

(** The decorated function. *)
Definition throttled_get `{Library} (url : string)
  (params : list (string * PyVal)) (timeout : Z) (net : Net)
  : option (Retry.Result Net Response) :=
  Retry.call Net Response backoff policy (_throttled_get url params timeout) net.

(** The grants in the log are spaced, and the limiter remembers the
    reading of the clock at the last of them. *)
Definition coherent (net : Net) : Prop :=
  RateLimiter.spaced_up_to_error time_time
    (RateLimiter.min_interval (limiter net)) (grants_of (log net)) /\
  RateLimiter._last_call (limiter net)
  = last (map time_time (map RateLimiter.granted (grants_of (log net))))
         (RateLimiter._last_call (limiter net)).

End Get.

End Throttled.

(** ** Request parameters *)

(** [{**base, **extra}]: the keys of [extra] are set one after the other. *)
Definition dict_update {V : Type} (base extra : list (string * V))
  : list (string * V) :=
  fold_left (fun d kv => dict_set (fst kv) (snd kv) d) extra base.

(** A [str | None] as a value. *)
Definition opt_str (s : option string) : PyVal :=
  match s with Some text => VStr text | None => VNone end.

(** [NCBIClient._params] *)
Definition ncbi_params (self : NCBIClient.t) (extra : list (string * PyVal))
  : list (string * PyVal) :=
  dict_update [("tool", opt_str (NCBIClient.tool_id self));
               ("email", opt_str (NCBIClient.api_email self));
               ("api_key", opt_str (NCBIClient.api_key self))]
              extra.

(** The [params] of [ProtocolsIOClient.search_protocols]. *)
Definition protocols_io_params (key : string) (page_size page_id : Z)
  (order_field order_dir filter : string) : list (string * PyVal) :=
  [("key", VStr key);
   ("page_size", VInt (Z.min (Z.max page_size 1) 100));
   ("page_id", VInt (Z.max page_id 0));
   ("order_field", VStr order_field);
   ("order_dir", VStr order_dir);
   ("filter", VStr filter)].

(** ** The output schema of a web-answer query
    [sources/exa_answer/client.py] *)
Module ExaSchema.

Definition BASE_OUTPUT_SCHEMA : list (string * PyVal) :=
  [("type", VStr "object");
   ("required", VList [VStr "answer"; VStr "reasoning"; VStr "confidence"]);
   ("additionalProperties", VBool false);
   ("properties",
    VDict
      [("reasoning",
        VDict [("type", VStr "string");
               ("description",
                VStr "Scientific reasoning and evidence for the answer")]);
       ("confidence",
        VDict [("type", VStr "string");
               ("enum", VList [VStr "low"; VStr "medium"; VStr "high"]);
               ("description",
                VStr "Confidence level in the answer based on available evidence")])])].

(** [d[k]] for a value that should be a dict with that key. *)
Definition item (k : string) (d : list (string * PyVal)) : Exn + list (string * PyVal) :=
  match dict_get k d with
  | Some (VDict fields) => inr fields
  | Some _ => inl (TypeError "object does not support item assignment")
  | None => inl (KeyError k)
  end.

(** [ExaAnswerClient._create_query_output_schema] *)
Definition _create_query_output_schema (query : string)
  (answer_enum : option (list string)) : Exn + list (string * PyVal) :=
  let answer_field :=
    match answer_enum with
    | Some ((_ :: _) as values) =>
        [("type", VStr "string");
         ("enum", VList (map VStr values));
         ("description", VStr ("Answer to: " ++ query)%string)]
    | _ =>
        [("type", VStr "string");
         ("description", VStr ("Answer to: " ++ query)%string)]
    end in
  let output_schema := BASE_OUTPUT_SCHEMA in
  match item "properties" output_schema with
  | inl e => inl e
  | inr properties =>
      inr (dict_set "properties"
                    (VDict (dict_set "answer" (VDict answer_field) properties))
                    output_schema)
  end.

(** The names a schema requires. *)
Definition required_names (schema : list (string * PyVal)) : list string :=
  match dict_get "required" schema with
  | Some (VList names) =>
      flat_map (fun v => match v with VStr name => [name] | _ => [] end) names
  | _ => []
  end.

(** The names a schema describes. *)
Definition property_names (schema : list (string * PyVal)) : list string :=
  match dict_get "properties" schema with
  | Some (VDict properties) => dict_keys properties
  | _ => []
  end.

End ExaSchema.

(** ** The command line of a single source
    [sources/cli.py], [get_ncbi_cli] *)

Definition IndexError : Exn := mkExn "IndexError" "list index out of range".

(** [get-ncbi]: the result that is echoed as JSON. *)
Definition get_ncbi_cli `{Library} `{Services} (organism_scientific_name : string)
  (organism_id : Z) : M PyVal :=
  bind (lift (get_feature_metadata_by_source "ncbi"))
       (fun ncbi_features =>
          match ncbi_features with
          | [] => raise IndexError
          | default_feature_metadata :: _ =>
              invoke get_ncbi organism_id organism_scientific_name
                     default_feature_metadata
          end).

(** A clock that is read as exactly as the float format allows. *)
Module ClockExample.

(** The float nearest to a rational number, ties to even: the quotient
    is taken with more than 60 bits and a sticky bit, and rounded. *)
Definition nearest (q : Q) : float :=
  let n := Z.abs (Qnum q) in
  let d := Zpos (Qden q) in
  let k := Z.max 0 (64 + Z.log2 d - Z.log2 n) in
  let a := (n * 2 ^ k)%Z in
  let m := (2 * (a / d) + (if (a mod d =? 0)%Z then 0 else 1))%Z in
  SF2Prim (binary_normalize 53 1024
             (if (Qnum q <? 0)%Z then (- m)%Z else m) (- k - 1) false).

Definition time_time (clock : Q) : float := nearest clock.

Definition no_lag : RateLimiter.Lag := RateLimiter.mkLag 0 0 0.

End ClockExample.

(** A service that answers 503 twice and then 200, on a machine without
    lag; requests of a tenth of a second, pauses of one second; a
    limiter of 10 calls per second. *)
Module ThrottledExample.

Definition requests_get (url : string) (params : list (string * PyVal))
  (timeout : Z) (r : nat) : (Exn + Throttled.Response) * nat :=
  (inr (Throttled.mkResponse (if (r <? 2)%nat then 503 else 200) VNone), S r).

Definition lag_of (n : nat) : RateLimiter.Lag := ClockExample.no_lag.

Definition start_of (n : nat) : Q := 0.

Definition duration_of (n : nat) : Q := 1 # 10.

Definition pause_of (min_wait max_wait : Q) (attempt_number : Z) : Q := 1.

Definition start : Throttled.Net nat :=
  Throttled.mkNet nat (RateLimiter.mk (1 / 10)%float 0%float) 100 [] 0%nat.

End ThrottledExample.

(** * Properties *)

(** ** The definitions at work *)

Example join_three : join ", " ["a"; "b"; "c"] = "a, b, c".
Proof. reflexivity. Qed.

Example str_of_int_row : str_of_int 12 = "12" /\ str_of_int (-3) = "-3".
Proof. split; reflexivity. Qed.

Example dict_set_keeps_place :
  dict_set "a" 3%nat [("a", 1%nat); ("b", 2%nat)] = [("a", 3%nat); ("b", 2%nat)] /\
  dict_set "c" 3%nat [("a", 1%nat); ("b", 2%nat)] =
  [("a", 1%nat); ("b", 2%nat); ("c", 3%nat)].
Proof. split; reflexivity. Qed.

Example first_occurrences_run :
  first_occurrences ["ncbi"; "atcc"; "ncbi"; "atcc"; "exa_answer"] [] =
  ["ncbi"; "atcc"; "exa_answer"].
Proof. reflexivity. Qed.

Example dict_row_short_and_long :
  dict_row ["a"; "b"] ["1"] = mkDictRow [("a", Some "1"); ("b", None)] None /\
  dict_row ["a"] ["1"; "2"] = mkDictRow [("a", Some "1")] (Some ["2"]).
Proof. split; reflexivity. Qed.

Example dump_nested :
  model_dump (VModel "SearchMeta"
                     [("total", VInt 3);
                      ("properties", VModel "SearchMetaProperties"
                                            [("URL", VNone)])]) =
  VDict [("total", VInt 3); ("properties", VDict [("URL", VNone)])].
Proof. reflexivity. Qed.

Example ascii_strip_run : Example.ascii_strip "  3077 " = "3077".
Proof. reflexivity. Qed.

Example decimal_int_run :
  Example.decimal_int "3077" = Some 3077%Z /\
  Example.decimal_int "-12" = Some (-12)%Z /\
  Example.decimal_int "12.5" = None /\ Example.decimal_int "" = None.
Proof. repeat split; reflexivity. Qed.

Example example_catalog_loads :
  option_map (map feature_id)
    (match @get_all_feature_metadata Example.library Example.services with
     | inr catalog => Some catalog
     | inl _ => None
     end) =
  Some ["protocols_count"; "pubmed_count"; "genome_count"; "atcc_products"].
Proof. reflexivity. Qed.

Example example_run_writes_rows :
  output_csv
    (snd (@run_csv Example.library Example.services
            [["organism_scientific_name"; "organism_id"];
             ["Chlorella vulgaris"; " 3077 "]]
            (Some ["protocols_io"]) Example.start)) =
  Some [mkCsvRow 3077 "protocols_count" "protocols_io" "{}"].
Proof. reflexivity. Qed.

(** ** Normalisation of adapter results *)

Lemma forallb_plain_dump_items (items : list PyVal) :
  list_all PyVal (fun v => plain (dump v) = true) items ->
  forallb plain (map dump items) = true.
Proof.
  intros IH.
  induction IH as [ | x Hx rest _ IHrest ]; simpl; [ reflexivity | ].
  now rewrite Hx, IHrest.
Qed.

Lemma forallb_plain_dump_fields (fields : list (string * PyVal)) :
  list_all (string * PyVal)
           (prod_all string (fun _ => unit) PyVal
                     (fun v => plain (dump v) = true)) fields ->
  forallb (fun '(_, x) => plain x) (map (fun '(k, x) => (k, dump x)) fields)
  = true.
Proof.
  intros IH.
  induction IH as [ | [k x] Hx rest _ IHrest ]; simpl; [ reflexivity | ].
  inversion Hx; subst.
  now rewrite IHrest, andb_true_r.
Qed.

(** [model_dump] leaves no model instance behind. *)
Lemma dump_plain (v : PyVal) : plain (dump v) = true.
Proof.
  induction v as [ | | | | | items IH | items IH | cls fields IH ];
    simpl; try reflexivity.
  - now apply forallb_plain_dump_items.
  - now apply forallb_plain_dump_fields.
  - now apply forallb_plain_dump_fields.
Qed.

Lemma fetch_features_cons `{Services} (fm : FeatureMetadata)
  (rest : list FeatureMetadata) (config : SourceConfig) (organism_id : Z)
  (name : string) (rows : list FeatureRow) (st : State) :
  fetch_features (fm :: rest) config organism_id name rows st =
  match function config organism_id name fm (world st) with
  | (inl e, w) =>
      (inl e, mkState w (calls st ++ [mkCall organism_id name fm (inl e)])
                      (output_csv st))
  | (inr result, w) =>
      fetch_features rest config organism_id name
        (rows ++ [row_for organism_id (fm, result)])
        (mkState w (calls st ++ [call_for organism_id name (fm, result)])
                 (output_csv st))
  end.
Proof.
  simpl. unfold bind, invoke.
  destruct (function config organism_id name fm (world st)) as [[e | result] w];
    reflexivity.
Qed.



(** ** Dictionaries and the selection of sources *)

Lemma dict_keys_set {V : Type} (k : string) (v : V) (d : list (string * V)) :
  dict_keys (dict_set k v d) =
  if existsb (String.eqb k) (dict_keys d) then dict_keys d
  else dict_keys d ++ [k].
Proof.
  unfold dict_keys.
  induction d as [ | [k' v'] rest IH ]; simpl; [ reflexivity | ].
  destruct (String.eqb k k') eqn:E; simpl; [ reflexivity | ].
  rewrite IH.
  destruct (existsb (String.eqb k) (map fst rest)); reflexivity.
Qed.

Lemma existsb_eqb_In (x : string) (l : list string) :
  existsb (String.eqb x) l = true <-> In x l.
Proof.
  rewrite existsb_exists. split.
  - intros [y [Hy E]]. apply String.eqb_eq in E. now subst.
  - intros Hx. exists x. split; [ assumption | apply String.eqb_refl ].
Qed.

Lemma existsb_eqb_not_In (x : string) (l : list string) :
  existsb (String.eqb x) l = false <-> ~ In x l.
Proof.
  rewrite <- existsb_eqb_In.
  destruct (existsb (String.eqb x) l); split; intros Hx;
    try discriminate; try reflexivity; try congruence.
Qed.

Lemma dict_contains_In {V : Type} (k : string) (d : list (string * V)) :
  dict_contains k d = true <-> In k (dict_keys d).
Proof.
  unfold dict_contains.
  induction d as [ | [k' v'] rest IH ]; simpl.
  - split; [ discriminate | contradiction ].
  - destruct (String.eqb_spec k k') as [-> | Hne].
    + split; auto.
    + rewrite IH. split; [ auto | intros [E | Hin]; [ congruence | assumption ] ].
Qed.

Lemma from_registry_set `{Services} (k : string) (config : SourceConfig)
  (d : list (string * SourceConfig)) :
  dict_get k SOURCE_REGISTRY = Some config ->
  from_registry d -> from_registry (dict_set k config d).
Proof.
  intros Hk Hd. induction Hd as [ | [k' v'] rest Hentry Hrest IH ]; simpl.
  - constructor; [ exact Hk | constructor ].
  - destruct (String.eqb_spec k k') as [-> | Hne].
    + constructor; [ exact Hk | exact Hrest ].
    + constructor; [ exact Hentry | exact IH ].
Qed.

Lemma from_registry_unique `{Services} (d1 d2 : list (string * SourceConfig)) :
  from_registry d1 -> from_registry d2 -> dict_keys d1 = dict_keys d2 -> d1 = d2.
Proof.
  intros H1. revert d2.
  induction H1 as [ | [k1 v1] rest1 He1 _ IH ]; intros d2 H2 Hkeys.
  - destruct d2; [ reflexivity | discriminate ].
  - destruct H2 as [ | [k2 v2] rest2 He2 Hrest2 ]; [ discriminate | ].
    simpl in *. injection Hkeys as -> Hkeys.
    rewrite He1 in He2. injection He2 as ->.
    f_equal. now apply IH.
Qed.

Lemma from_registry_self `{Services} : from_registry SOURCE_REGISTRY.
Proof. repeat constructor. Qed.

Lemma select_sources_spec `{Services} (ids : list string) :
  Forall (fun sid => dict_contains sid SOURCE_REGISTRY = true) ids ->
  forall acc, from_registry acc ->
  exists srcs,
    select_sources ids acc = inr srcs /\
    from_registry srcs /\
    dict_keys srcs = dict_keys acc ++ first_occurrences ids (dict_keys acc).
Proof.
  induction 1 as [ | sid rest Hsid _ IH ]; intros acc Hacc.
  - exists acc. simpl. rewrite app_nil_r. auto.
  - cbn [select_sources first_occurrences].
    unfold dict_contains in Hsid.
    destruct (dict_get sid SOURCE_REGISTRY) as [config | ] eqn:Hget;
      [ clear Hsid | discriminate ].
    destruct (IH (dict_set sid config acc)) as [srcs [Hsel [Hfrom Hkeys]]].
    { now apply from_registry_set. }
    exists srcs. split; [ exact Hsel | split; [ exact Hfrom | ] ].
    rewrite Hkeys, dict_keys_set.
    destruct (existsb (String.eqb sid) (dict_keys acc)); [ reflexivity | ].
    now rewrite <- app_assoc.
Qed.

Lemma no_invalid_sources `{Services} (ids : list string) :
  filter (fun sid => negb (dict_contains sid SOURCE_REGISTRY)) ids = [] <->
  Forall (fun sid => dict_contains sid SOURCE_REGISTRY = true) ids.
Proof.
  induction ids as [ | sid rest IH ]; simpl.
  - split; constructor.
  - destruct (dict_contains sid SOURCE_REGISTRY) eqn:E; simpl.
    + rewrite IH. split; [ now constructor | now inversion 1 ].
    + split; [ discriminate | inversion 1; congruence ].
Qed.

(** The sources selected by a list of registered ids. *)
Lemma get_sources_registered `{Services} (ids : list string) :
  Forall (fun sid => dict_contains sid SOURCE_REGISTRY = true) ids ->
  exists srcs,
    _get_sources_to_process (Some ids) = inr srcs /\
    from_registry srcs /\
    dict_keys srcs = first_occurrences ids [].
Proof.
  intros Hreg. unfold _get_sources_to_process.
  rewrite (proj2 (no_invalid_sources ids) Hreg).
  destruct (select_sources_spec ids Hreg [] (Forall_nil _))
    as [srcs [Hsel [Hfrom Hkeys]]].
  exists srcs. auto.
Qed.

Lemma get_sources_keys `{Services} (source_ids : option (list string))
  (srcs : list (string * SourceConfig)) :
  _get_sources_to_process source_ids = inr srcs ->
  from_registry srcs /\ dict_keys srcs = processing_order source_ids.
Proof.
  destruct source_ids as [ids | ]; simpl.
  - intros Hsel.
    destruct (filter (fun sid => negb (dict_contains sid SOURCE_REGISTRY)) ids)
      eqn:Hinvalid; [ | discriminate ].
    apply no_invalid_sources in Hinvalid.
    destruct (get_sources_registered ids Hinvalid) as [srcs' [Hsel' [Hfrom Hkeys]]].
    unfold _get_sources_to_process in Hsel'.
    rewrite (proj2 (no_invalid_sources ids) Hinvalid) in Hsel'.
    rewrite Hsel in Hsel'. injection Hsel' as <-. auto.
  - intros [= <-]. split; [ apply from_registry_self | reflexivity ].
Qed.

Lemma first_occurrences_In (ids seen : list string) (x : string) :
  In x (first_occurrences ids seen) <-> In x ids /\ ~ In x seen.
Proof.
  revert seen. induction ids as [ | sid rest IH ]; intros seen; simpl.
  - tauto.
  - destruct (existsb (String.eqb sid) seen) eqn:E.
    + apply existsb_eqb_In in E. rewrite IH. split.
      * tauto.
      * intros [[-> | Hin] Hno]; [ contradiction | tauto ].
    + apply existsb_eqb_not_In in E. simpl. rewrite IH, in_app_iff. simpl.
      split.
      * intros [-> | [Hin Hno]]; [ tauto | tauto ].
      * intros [[-> | Hin] Hno]; [ tauto | ].
        destruct (string_dec sid x) as [-> | Hne]; [ tauto | ].
        right. split; [ assumption | ]. intros [? | [? | []]]; tauto.
Qed.

Lemma first_occurrences_NoDup (ids seen : list string) :
  NoDup (first_occurrences ids seen).
Proof.
  revert seen. induction ids as [ | sid rest IH ]; intros seen; simpl.
  - constructor.
  - destruct (existsb (String.eqb sid) seen); [ apply IH | ].
    constructor; [ | apply IH ].
    rewrite first_occurrences_In, in_app_iff. simpl. tauto.
Qed.

Lemma first_occurrences_fixed (l seen : list string) :
  NoDup l -> (forall x, In x l -> ~ In x seen) ->
  first_occurrences l seen = l.
Proof.
  intros Hnd. revert seen.
  induction Hnd as [ | x rest Hx _ IH ]; intros seen Hseen; simpl.
  - reflexivity.
  - rewrite (proj2 (existsb_eqb_not_In x seen)) by (apply Hseen; now left).
    f_equal. apply IH. intros y Hy. rewrite in_app_iff. simpl.
    intros [Hin | [-> | []]].
    + now apply (Hseen y (or_intror Hy)).
    + contradiction.
Qed.

Lemma first_occurrences_idempotent (ids : list string) :
  first_occurrences (first_occurrences ids []) [] = first_occurrences ids [].
Proof.
  apply first_occurrences_fixed.
  - apply first_occurrences_NoDup.
  - intros x _ [].
Qed.

(** ** The fetch loops *)

Lemma combine_app {A B : Type} (l1 l2 : list A) (r1 r2 : list B) :
  List.length l1 = List.length r1 ->
  combine (l1 ++ l2) (r1 ++ r2) = combine l1 r1 ++ combine l2 r2.
Proof.
  revert r1. induction l1 as [ | a l1 IH ]; intros [ | b r1 ] Hlen;
    simpl in *; try discriminate; [ reflexivity | ].
  f_equal. apply IH. now injection Hlen.
Qed.

(** A successful inner loop made one call and one row per entry. *)
Lemma fetch_features_ok `{Services} (fms : list FeatureMetadata)
  (config : SourceConfig) (organism_id : Z) (name : string) :
  forall rows st rows' st',
    fetch_features fms config organism_id name rows st = (inr rows', st') ->
    exists results,
      List.length results = List.length fms /\
      rows' = rows ++ map (row_for organism_id) (combine fms results) /\
      calls st' = calls st ++
                  map (call_for organism_id name) (combine fms results) /\
      output_csv st' = output_csv st.
Proof.
  induction fms as [ | fm rest IH ]; intros rows st rows' st' Hrun.
  - injection Hrun as <- <-. exists []. simpl. now rewrite !app_nil_r.
  - rewrite fetch_features_cons in Hrun.
    destruct (function config organism_id name fm (world st))
      as [[e | result] w]; [ discriminate | ].
    apply IH in Hrun. destruct Hrun as [results [Hlen [Hrows [Hcalls Hout]]]].
    exists (result :: results). simpl in *.
    rewrite Hrows, Hcalls, <- !app_assoc. auto.
Qed.

Lemma fetch_features_total `{Services} (fms : list FeatureMetadata)
  (config : SourceConfig) (organism_id : Z) (name : string) :
  never_raises (function config) ->
  forall rows st, exists rows' st',
    fetch_features fms config organism_id name rows st = (inr rows', st').
Proof.
  intros Hsafe. induction fms as [ | fm rest IH ]; intros rows st.
  - now exists rows, st.
  - rewrite fetch_features_cons.
    destruct (Hsafe organism_id name fm (world st)) as [result [w ->]].
    apply IH.
Qed.

Lemma fetch_sources_cons `{Library} `{Services} (sid : string)
  (config : SourceConfig) (rest : list (string * SourceConfig))
  (organism_id : Z) (name : string) (rows : list FeatureRow) (st : State) :
  fetch_sources ((sid, config) :: rest) organism_id name rows st =
  match get_feature_metadata_by_source sid with
  | inl e => (inl e, st)
  | inr fms =>
      match fetch_features fms config organism_id name rows st with
      | (inl e, st') => (inl e, st')
      | (inr rows', st') => fetch_sources rest organism_id name rows' st'
      end
  end.
Proof.
  simpl. unfold bind, lift.
  destruct (get_feature_metadata_by_source sid); reflexivity.
Qed.

Lemma by_source_loaded `{Library} `{Services} (sid : string)
  (fms : list FeatureMetadata) :
  get_feature_metadata_by_source sid = inr fms ->
  get_all_feature_metadata = inr loaded_catalog /\
  fms = filter (fun f => String.eqb (source_id f) sid) loaded_catalog.
Proof.
  unfold get_feature_metadata_by_source, get_feature_metadata_by_source_of,
    loaded_catalog, get_all_feature_metadata.
  destruct (get_all_feature_metadata_of feature_metadata_yaml);
    [ discriminate | ].
  intros [= <-]. auto.
Qed.

(** A successful outer loop made one call and one row per planned
    entry, in the order of the plan. *)
Lemma fetch_sources_ok `{Library} `{Services}
  (srcs : list (string * SourceConfig)) (organism_id : Z) (name : string) :
  forall rows st rows' st',
    fetch_sources srcs organism_id name rows st = (inr rows', st') ->
    exists results,
      let fms := plan loaded_catalog (dict_keys srcs) in
      List.length results = List.length fms /\
      rows' = rows ++ map (row_for organism_id) (combine fms results) /\
      calls st' = calls st ++
                  map (call_for organism_id name) (combine fms results) /\
      output_csv st' = output_csv st.
Proof.
  induction srcs as [ | [sid config] rest IH ]; intros rows st rows' st' Hrun.
  - injection Hrun as <- <-. exists []. simpl. now rewrite !app_nil_r.
  - rewrite fetch_sources_cons in Hrun.
    destruct (get_feature_metadata_by_source sid) as [e | fms] eqn:Hfms;
      [ discriminate | ].
    apply by_source_loaded in Hfms. destruct Hfms as [_ ->].
    destruct (fetch_features _ config organism_id name rows st)
      as [[e | rows1] st1] eqn:Hinner; [ discriminate | ].
    apply fetch_features_ok in Hinner.
    destruct Hinner as [res1 [Hlen1 [Hrows1 [Hcalls1 Hout1]]]].
    apply IH in Hrun. destruct Hrun as [res2 [Hlen2 [Hrows2 [Hcalls2 Hout2]]]].
    exists (res1 ++ res2). cbn zeta in *. simpl plan.
    unfold plan in *. simpl flat_map.
    rewrite combine_app by (symmetry; exact Hlen1).
    rewrite !map_app, !length_app, Hlen1, Hlen2.
    rewrite Hrows2, Hrows1, Hcalls2, Hcalls1, Hout2, Hout1, <- !app_assoc.
    auto.
Qed.

Lemma fetch_sources_total `{Library} `{Services}
  (srcs : list (string * SourceConfig)) (organism_id : Z) (name : string)
  (catalog : list FeatureMetadata) :
  get_all_feature_metadata = inr catalog ->
  Forall (fun entry => never_raises (function (snd entry))) srcs ->
  forall rows st, exists rows' st',
    fetch_sources srcs organism_id name rows st = (inr rows', st').
Proof.
  intros Hcat Hsafe.
  induction Hsafe as [ | [sid config] rest Hconfig _ IH ]; intros rows st.
  - now exists rows, st.
  - rewrite fetch_sources_cons.
    unfold get_feature_metadata_by_source, get_feature_metadata_by_source_of.
    unfold get_all_feature_metadata in Hcat. rewrite Hcat.
    destruct (fetch_features_total
                (filter (fun f => String.eqb (source_id f) sid) catalog)
                config organism_id name Hconfig rows st) as [rows1 [st1 ->]].
    apply IH.
Qed.

(** A failing inner loop failed at the first adapter that raised. *)
Lemma fetch_features_err `{Services} (fms : list FeatureMetadata)
  (config : SourceConfig) (organism_id : Z) (name : string) :
  forall rows st e st',
    fetch_features fms config organism_id name rows st = (inl e, st') ->
    exists done fm rest results,
      fms = done ++ fm :: rest /\
      List.length results = List.length done /\
      calls st' = calls st ++
                  map (call_for organism_id name) (combine done results) ++
                  [mkCall organism_id name fm (inl e)] /\
      output_csv st' = output_csv st.
Proof.
  induction fms as [ | fm0 fms IH ]; intros rows st e st' Hrun.
  - discriminate.
  - rewrite fetch_features_cons in Hrun.
    destruct (function config organism_id name fm0 (world st))
      as [[e0 | result] w0].
    + injection Hrun as <- <-.
      exists [], fm0, fms, []. simpl. auto.
    + apply IH in Hrun.
      destruct Hrun as [done [fm [rest [results [-> [Hlen [Hcalls Hout]]]]]]].
      exists (fm0 :: done), fm, rest, (result :: results).
      simpl in *. rewrite Hcalls, <- !app_assoc. simpl. auto.
Qed.

(** A failing outer loop failed either on the catalog, before its first
    call, or at the first adapter that raised. *)
Lemma fetch_sources_err `{Library} `{Services}
  (srcs : list (string * SourceConfig)) (organism_id : Z) (name : string) :
  forall rows st e st',
    fetch_sources srcs organism_id name rows st = (inl e, st') ->
    (get_all_feature_metadata = inl e /\ st' = st) \/
    (exists done fm rest results,
       plan loaded_catalog (dict_keys srcs) = done ++ fm :: rest /\
       List.length results = List.length done /\
       calls st' = calls st ++
                   map (call_for organism_id name) (combine done results) ++
                   [mkCall organism_id name fm (inl e)] /\
       output_csv st' = output_csv st).
Proof.
  induction srcs as [ | [sid config] srcs IH ]; intros rows st e st' Hrun.
  - discriminate.
  - rewrite fetch_sources_cons in Hrun.
    destruct (get_feature_metadata_by_source sid) as [e0 | fms] eqn:Hfms.
    + injection Hrun as <- <-. left. split; [ | reflexivity ].
      unfold get_feature_metadata_by_source, get_feature_metadata_by_source_of in Hfms.
      unfold get_all_feature_metadata.
      destruct (get_all_feature_metadata_of feature_metadata_yaml);
        congruence.
    + apply by_source_loaded in Hfms. destruct Hfms as [Hload ->].
      right. unfold plan. simpl flat_map.
      destruct (fetch_features _ config organism_id name rows st)
        as [[e1 | rows1] st1] eqn:Hinner.
      * injection Hrun as <- <-. apply fetch_features_err in Hinner.
        destruct Hinner as [done [fm [rest [results [Hfms [Hlen [Hcalls Hout]]]]]]].
        exists done, fm, (rest ++ plan loaded_catalog (dict_keys srcs)), results.
        unfold plan. rewrite Hfms, <- app_assoc. simpl. auto.
      * apply fetch_features_ok in Hinner.
        destruct Hinner as [res1 [Hlen1 [_ [Hcalls1 Hout1]]]].
        apply IH in Hrun. destruct Hrun as [[Hbad _] | Hrun]; [ congruence | ].
        destruct Hrun as [done [fm [rest [results [Hplan [Hlen [Hcalls Hout]]]]]]].
        exists (filter (fun f => String.eqb (source_id f) sid) loaded_catalog
                ++ done), fm, rest, (res1 ++ results).
        unfold plan in Hplan. rewrite Hplan, <- app_assoc.
        rewrite combine_app by (symmetry; exact Hlen1).
        rewrite !length_app, map_app, Hlen1, Hlen, Hcalls, Hcalls1, Hout, Hout1.
        rewrite <- !app_assoc. auto.
Qed.

(** What a returning call of [fetch_features_for_organism] did. *)
Lemma fetch_ok `{Library} `{Services} (organism_id : Z) (name : string)
  (source_ids : option (list string)) (st : State) (rows : list FeatureRow)
  (st' : State) :
  fetch_features_for_organism organism_id name source_ids st = (inr rows, st') ->
  exists results,
    let fms := plan loaded_catalog (processing_order source_ids) in
    List.length results = List.length fms /\
    rows = map (row_for organism_id) (combine fms results) /\
    calls st' = calls st ++
                map (call_for organism_id name) (combine fms results) /\
    output_csv st' = output_csv st.
Proof.
  unfold fetch_features_for_organism, bind, lift.
  destruct (_get_sources_to_process source_ids) as [e | srcs] eqn:Hsel;
    [ discriminate | ].
  apply get_sources_keys in Hsel. destruct Hsel as [_ <-].
  intros Hrun. apply fetch_sources_ok in Hrun. exact Hrun.
Qed.

Lemma map_combine_fst {A B C : Type} (f : A -> C) (l : list A) (r : list B) :
  List.length r = List.length l ->
  map (fun p => f (fst p)) (combine l r) = map f l.
Proof.
  revert r. induction l as [ | a l IH ]; intros [ | b r ] Hlen;
    simpl in *; try discriminate; [ reflexivity | ].
  f_equal. apply IH. now injection Hlen.
Qed.

Lemma registry_entries_safe `{Services} (srcs : list (string * SourceConfig)) :
  from_registry srcs ->
  (forall sid config, In sid (dict_keys srcs) ->
                      dict_get sid SOURCE_REGISTRY = Some config ->
                      never_raises (function config)) ->
  Forall (fun entry => never_raises (function (snd entry))) srcs.
Proof.
  intros Hfrom Hsafe.
  induction Hfrom as [ | [sid config] rest Hentry _ IH ]; constructor.
  - apply (Hsafe sid config); [ now left | exact Hentry ].
  - apply IH. intros sid' config' Hin. apply Hsafe. now right.
Qed.

(** ** Text of the error messages *)

Lemma append_assoc (a b c : string) : ((a ++ b) ++ c = a ++ (b ++ c))%string.
Proof. induction a as [ | ch a IH ]; simpl; [ reflexivity | now rewrite IH ]. Qed.

Lemma append_empty_r (a : string) : (a ++ "" = a)%string.
Proof. induction a as [ | ch a IH ]; simpl; [ reflexivity | now rewrite IH ]. Qed.

Lemma occurs_in_self (s : string) : occurs_in s s.
Proof. exists "", "". simpl. now rewrite append_empty_r. Qed.

Lemma occurs_in_context (x s a b : string) :
  occurs_in x s -> occurs_in x (a ++ s ++ b)%string.
Proof.
  intros [pre [post ->]]. exists (a ++ pre)%string, (post ++ b)%string.
  now rewrite !append_assoc.
Qed.

Lemma occurs_in_prefix (x s b : string) :
  occurs_in x s -> occurs_in x (s ++ b)%string.
Proof. intros Hx. apply (occurs_in_context x s "" b Hx). Qed.

Lemma occurs_in_suffix (x s a : string) :
  occurs_in x s -> occurs_in x (a ++ s)%string.
Proof.
  intros Hx. pose proof (occurs_in_context x s a "" Hx) as Hc.
  now rewrite append_empty_r in Hc.
Qed.

(** Every joined item can be read in the result. *)
Lemma join_occurs (sep x : string) (xs : list string) :
  In x xs -> occurs_in x (join sep xs).
Proof.
  induction xs as [ | y rest IH ]; intros Hx; [ contradiction | ].
  destruct rest as [ | z rest ].
  - destruct Hx as [-> | []]. apply occurs_in_self.
  - change (join sep (y :: z :: rest))
      with (y ++ sep ++ join sep (z :: rest))%string.
    destruct Hx as [-> | Hx].
    + apply occurs_in_prefix, occurs_in_self.
    + apply occurs_in_suffix, occurs_in_suffix, IH, Hx.
Qed.

(** ** Order of the rows *)

Lemma registration_ordered_app (keys a b : list string) (n : nat) :
  (forall x, In x a -> index_of x keys = n) ->
  (forall y, In y b -> (n <= index_of y keys)%nat) ->
  registration_ordered keys b = true ->
  registration_ordered keys (a ++ b) = true.
Proof.
  intros Ha Hb Hord. induction a as [ | x a IH ]; [ exact Hord | ].
  assert (IHa : registration_ordered keys (a ++ b) = true).
  { apply IH. intros y Hy. apply Ha. now right. }
  simpl. destruct (a ++ b) as [ | y rest ] eqn:E; [ reflexivity | ].
  rewrite IHa, andb_true_r. apply Nat.leb_le.
  rewrite (Ha x (or_introl eq_refl)).
  destruct a as [ | x' a' ]; simpl in E.
  - subst b. apply Hb. now left.
  - injection E as <- _. rewrite (Ha x') by (right; now left). constructor.
Qed.

Lemma index_of_app_fresh (sid : string) (pre post : list string) :
  ~ In sid pre ->
  index_of sid (pre ++ post) = (List.length pre + index_of sid post)%nat.
Proof.
  induction pre as [ | k pre IH ]; intros Hfresh; simpl; [ reflexivity | ].
  destruct (String.eqb_spec sid k) as [-> | Hne].
  - exfalso. apply Hfresh. now left.
  - rewrite IH; [ reflexivity | ]. intros Hin. apply Hfresh. now right.
Qed.

(** Visiting the sources in the order of the registry yields source ids
    that never step back in the registry. *)
Lemma plan_registration_ordered (catalog : list FeatureMetadata)
  (order pre : list string) :
  NoDup (pre ++ order) ->
  registration_ordered (pre ++ order) (map source_id (plan catalog order)) = true
  /\ forall y, In y (map source_id (plan catalog order)) ->
               (List.length pre <= index_of y (pre ++ order))%nat.
Proof.
  revert pre. induction order as [ | sid rest IH ]; intros pre Hnd.
  - split; [ reflexivity | intros y [] ].
  - assert (Hsplit : pre ++ sid :: rest = (pre ++ [sid]) ++ rest)
      by now rewrite <- app_assoc.
    rewrite Hsplit in Hnd |- *.
    destruct (IH (pre ++ [sid]) Hnd) as [Hord Hlow].
    assert (Hfresh : ~ In sid pre).
    { rewrite <- app_assoc in Hnd. simpl in Hnd.
      apply NoDup_remove_2 in Hnd. intros Hin. apply Hnd.
      apply in_or_app. now left. }
    assert (Hidx : index_of sid ((pre ++ [sid]) ++ rest) = List.length pre).
    { rewrite <- app_assoc. rewrite index_of_app_fresh by exact Hfresh.
      simpl. rewrite String.eqb_refl. lia. }
    assert (Hchunk : forall x,
               In x (map source_id
                         (filter (fun f => String.eqb (source_id f) sid) catalog)) ->
               x = sid).
    { intros x Hx. apply in_map_iff in Hx. destruct Hx as [f [<- Hf]].
      apply filter_In in Hf. destruct Hf as [_ Hf].
      now apply String.eqb_eq in Hf. }
    unfold plan in *. simpl flat_map. rewrite map_app. split.
    + apply registration_ordered_app with (n := List.length pre).
      * intros x Hx. rewrite (Hchunk x Hx). exact Hidx.
      * intros y Hy. apply Hlow in Hy. rewrite length_app in Hy. simpl in Hy. lia.
      * exact Hord.
    + intros y Hy. apply in_app_or in Hy. destruct Hy as [Hy | Hy].
      * rewrite (Hchunk y Hy), Hidx. constructor.
      * apply Hlow in Hy. rewrite length_app in Hy. simpl in Hy. lia.
Qed.

Lemma registry_keys_NoDup `{Services} : NoDup (dict_keys SOURCE_REGISTRY).
Proof.
  simpl. repeat constructor; simpl; intros Hin;
    repeat (destruct Hin as [Hin | Hin]; [ discriminate | ]); exact Hin.
Qed.

Lemma rows_keys `{Library} `{Services} (organism_id : Z)
  (fms : list FeatureMetadata) (results : list PyVal) :
  List.length results = List.length fms ->
  map (fun r => (row_source_id r, row_feature_id r))
      (map (row_for organism_id) (combine fms results)) =
  map (fun f => (source_id f, feature_id f)) fms.
Proof.
  intros Hlen. rewrite map_map. simpl.
  apply (map_combine_fst (fun f => (source_id f, feature_id f)) fms results Hlen).
Qed.

(** The (source, feature) pairs of the rows of a returning call. *)
Lemma fetch_row_keys `{Library} `{Services} (organism_id : Z) (name : string)
  (source_ids : option (list string)) (st : State) (rows : list FeatureRow)
  (st' : State) :
  fetch_features_for_organism organism_id name source_ids st = (inr rows, st') ->
  map (fun r => (row_source_id r, row_feature_id r)) rows =
  map (fun f => (source_id f, feature_id f))
      (plan loaded_catalog (processing_order source_ids)).
Proof.
  intros Hrun. apply fetch_ok in Hrun.
  destruct Hrun as [results [Hlen [Hrows _]]]. cbn zeta in *.
  rewrite Hrows. now apply rows_keys.
Qed.

(** C1 (as amended). The rows of a returning call follow the sources in
    the order in which they are visited and, within one source, the
    order of the catalog.  The sources are visited in registry order when
    [source_ids] is omitted, and in the order of their first occurrence
    in [source_ids] when it is given; in the first case the source ids of
    the rows never step back in the registry. *)
Theorem C1_row_order `{Library} `{Services} (organism_id : Z) (name : string)
  (source_ids : option (list string)) (st : State) (rows : list FeatureRow)
  (st' : State) :
  fetch_features_for_organism organism_id name source_ids st = (inr rows, st') ->
  map (fun r => (row_source_id r, row_feature_id r)) rows =
  map (fun f => (source_id f, feature_id f))
      (plan loaded_catalog
            (match source_ids with
             | None => dict_keys SOURCE_REGISTRY
             | Some ids => first_occurrences ids []
             end)) /\
  (source_ids = None ->
   registration_ordered (dict_keys SOURCE_REGISTRY) (map row_source_id rows)
   = true).
Proof.
  intros Hrun. apply fetch_row_keys in Hrun. rename Hrun into Hkeys.
  split.
  - rewrite Hkeys. destruct source_ids; reflexivity.
  - intros ->.
    assert (Hsids : map row_source_id rows =
                    map source_id (plan loaded_catalog (dict_keys SOURCE_REGISTRY))).
    { apply (f_equal (map fst)) in Hkeys. rewrite !map_map in Hkeys.
      exact Hkeys. }
    rewrite Hsids.
    apply (plan_registration_ordered loaded_catalog (dict_keys SOURCE_REGISTRY) []).
    apply registry_keys_NoDup.
Qed.

(** A run of C1 on the example deployment, [source_ids] listing ncbi
    before protocols_io (and ncbi twice). *)
Lemma C1_row_order_witness :
  exists rows st',
    @fetch_features_for_organism Example.library Example.services
      3077%Z "Chlorella vulgaris" (Some ["ncbi"; "protocols_io"; "ncbi"])
      Example.start = (inr rows, st') /\
    map (fun r => (row_source_id r, row_feature_id r)) rows =
    [("ncbi", "pubmed_count"); ("ncbi", "genome_count");
     ("protocols_io", "protocols_count")].
Proof.
  eexists. eexists. split.
  - vm_compute. reflexivity.
  - exact (proj1 (@C1_row_order Example.library Example.services
                    3077%Z "Chlorella vulgaris"
                    (Some ["ncbi"; "protocols_io"; "ncbi"])
                    Example.start _ _ eq_refl)).
Defined.

(** C1 as stated fails: with [source_ids = ["ncbi", "protocols_io"]] the
    rows of ncbi come before the row of protocols_io, although
    protocols_io is registered before ncbi. *)
Lemma C1_counterexample :
  exists rows st',
    @fetch_features_for_organism Example.library Example.services
      3077%Z "Chlorella vulgaris" (Some ["ncbi"; "protocols_io"])
      Example.start = (inr rows, st') /\
    map row_source_id rows = ["ncbi"; "ncbi"; "protocols_io"] /\
    dict_keys (@SOURCE_REGISTRY Example.services) =
    ["protocols_io"; "ncbi"; "nih_reporter"; "atcc"; "exa_answer"] /\
    registration_ordered (dict_keys (@SOURCE_REGISTRY Example.services))
                         (map row_source_id rows) = false.
Proof.
  eexists. eexists. split; [ vm_compute; reflexivity | ].
  repeat split.
Qed.

(** ** One source, unknown sources, repeated sources *)

(** A planned entry belongs to one of the sources of the plan. *)
Lemma plan_sources (catalog : list FeatureMetadata) (order : list string)
  (fm : FeatureMetadata) :
  In fm (plan catalog order) -> In (source_id fm) order /\ In fm catalog.
Proof.
  unfold plan. intros Hin. apply in_flat_map in Hin.
  destruct Hin as [sid [Hsid Hfm]]. apply filter_In in Hfm.
  destruct Hfm as [Hcat Heq]. apply String.eqb_eq in Heq.
  split; [ now rewrite Heq | exact Hcat ].
Qed.

Lemma fetch_registered `{Library} `{Services} (organism_id : Z) (name : string)
  (ids : list string) (st : State) :
  Forall (fun sid => dict_contains sid SOURCE_REGISTRY = true) ids ->
  exists srcs,
    _get_sources_to_process (Some ids) = inr srcs /\
    from_registry srcs /\
    dict_keys srcs = first_occurrences ids [] /\
    fetch_features_for_organism organism_id name (Some ids) st =
    fetch_sources srcs organism_id name [] st.
Proof.
  intros Hreg.
  destruct (get_sources_registered ids Hreg) as [srcs [Hsel [Hfrom Hkeys]]].
  exists srcs. repeat split; try assumption.
  unfold fetch_features_for_organism, bind, lift. now rewrite Hsel.
Qed.

(** C2. For a registered source [s], a call with [source_ids = [s]] that
    returns has loaded the catalog and returns one row per catalog entry
    of [s], in catalog order, every row carrying [source_id = s]; each
    row comes from one adapter call, whatever that call returned ([None]
    included).  The call does return when the catalog loads and the
    adapter of [s] does not raise. *)
Theorem C2_single_source `{Library} `{Services} (s : string) (organism_id : Z)
  (name : string) (st : State) :
  dict_contains s SOURCE_REGISTRY = true ->
  (forall rows st',
     fetch_features_for_organism organism_id name (Some [s]) st = (inr rows, st') ->
     exists catalog results,
       let entries := filter (fun f => String.eqb (source_id f) s) catalog in
       get_all_feature_metadata = inr catalog /\
       Forall (fun r => row_source_id r = s) rows /\
       List.length rows = List.length entries /\
       List.length results = List.length entries /\
       rows = map (row_for organism_id) (combine entries results) /\
       calls st' = calls st ++
                   map (call_for organism_id name) (combine entries results)) /\
  (forall catalog config,
     get_all_feature_metadata = inr catalog ->
     dict_get s SOURCE_REGISTRY = Some config ->
     never_raises (function config) ->
     exists rows st',
       fetch_features_for_organism organism_id name (Some [s]) st = (inr rows, st')).
Proof.
  intros Hreg.
  destruct (fetch_registered organism_id name [s] st
              (Forall_cons s Hreg (Forall_nil _)))
    as [srcs [Hsel [Hfrom [Hkeys Hfetch]]]].
  simpl in Hkeys.
  destruct srcs as [ | [s' config'] [ | ? ? ] ]; try discriminate.
  simpl in Hkeys. injection Hkeys as ->.
  split.
  - intros rows st' Hrun.
    pose proof Hrun as Hrun'. rewrite Hfetch, fetch_sources_cons in Hrun'.
    destruct (get_feature_metadata_by_source s) as [e | fms] eqn:Hfms;
      [ discriminate | ].
    apply by_source_loaded in Hfms. destruct Hfms as [Hload _].
    apply fetch_ok in Hrun. destruct Hrun as [results [Hlen [Hrows [Hcalls _]]]].
    cbn zeta in *. unfold plan in *. simpl in Hlen, Hrows, Hcalls.
    rewrite app_nil_r in Hlen, Hrows, Hcalls.
    exists loaded_catalog, results. cbn zeta.
    split; [ exact Hload | ].
    assert (Hcomb : List.length rows =
                    List.length (filter (fun f => String.eqb (source_id f) s)
                                        loaded_catalog)).
    { rewrite Hrows, length_map, length_combine, Hlen. apply Nat.min_id. }
    repeat split; try assumption.
    rewrite Hrows. apply Forall_forall. intros r Hr.
    apply in_map_iff in Hr. destruct Hr as [[f result] [<- Hin]].
    apply in_combine_l, filter_In in Hin. destruct Hin as [_ Hs].
    simpl. now apply String.eqb_eq.
  - intros catalog config Hload Hget Hsafe. rewrite Hfetch.
    apply (fetch_sources_total _ organism_id name catalog Hload).
    apply Forall_inv in Hfrom. cbn [fst snd] in Hfrom.
    assert (config' = config) as -> by congruence.
    constructor; [ exact Hsafe | constructor ].
Qed.

(** A run of C2 on the example deployment for [source_ids = ["ncbi"]]:
    two rows, as many as the catalog has entries for ncbi. *)
Lemma C2_single_source_witness :
  exists rows st',
    @fetch_features_for_organism Example.library Example.services
      3077%Z "Chlorella vulgaris" (Some ["ncbi"]) Example.start
    = (inr rows, st') /\
    Forall (fun r => row_source_id r = "ncbi") rows /\
    List.length rows = 2%nat.
Proof.
  destruct (@C2_single_source Example.library Example.services "ncbi"
              3077%Z "Chlorella vulgaris" Example.start eq_refl)
    as [Hrows Hreturns].
  destruct (Hreturns _ (mkSourceConfig (@get_ncbi Example.services))
                     eq_refl eq_refl) as [rows [st' Hrun]].
  { intros o n fm w. eexists. eexists. reflexivity. }
  exists rows, st'. split; [ exact Hrun | ].
  destruct (Hrows rows st' Hrun)
    as [catalog [results [Hload [Hall [Hlen _]]]]].
  split; [ exact Hall | ].
  rewrite Hlen. injection Hload as <-. reflexivity.
Defined.

Lemma plan_nil (order : list string) : plan [] order = [].
Proof. unfold plan. induction order; simpl; auto. Qed.

Lemma plan_complete (catalog : list FeatureMetadata) (order : list string)
  (fm : FeatureMetadata) :
  In fm catalog -> In (source_id fm) order -> In fm (plan catalog order).
Proof.
  intros Hcat Hsid. unfold plan. apply in_flat_map.
  exists (source_id fm). split; [ exact Hsid | ].
  apply filter_In. split; [ exact Hcat | apply String.eqb_refl ].
Qed.

Lemma calls_of_results (organism_id : Z) (name : string)
  (fms : list FeatureMetadata) (results : list PyVal) :
  List.length results = List.length fms ->
  map call_feature_metadata
      (map (call_for organism_id name) (combine fms results)) = fms.
Proof.
  intros Hlen. rewrite map_map. unfold call_for. cbn [call_feature_metadata].
  apply (map_combine_fst (fun f => f) fms results) in Hlen.
  rewrite map_id in Hlen. exact Hlen.
Qed.

(** C3. If [source_ids] holds an id that is not registered, the call
    raises a [ValueError] whose text names every such id and every
    registered source, and leaves the state as it was: no adapter was
    invoked.  If all ids are registered, the selection succeeds and
    selects exactly the ids given, and the sources processed are exactly
    those: the entries to fetch are the catalog entries whose source is
    one of the ids; however the call ends, the adapters it invoked are
    those of the first of these entries, in order, each once; when it
    returns it invoked them for all of them and has a row for each; when
    it raises, the error is the catalog's or the one of the last adapter
    invoked, never the error of the selection; and it does return when
    the catalog loads and the adapters of the ids do not raise. *)
Theorem C3_source_id_validation `{Library} `{Services} (organism_id : Z)
  (name : string) (ids : list string) (st : State) :
  ((exists sid, In sid ids /\ dict_contains sid SOURCE_REGISTRY = false) ->
   exists msg,
     fetch_features_for_organism organism_id name (Some ids) st =
     (inl (ValueError msg), st) /\
     _get_sources_to_process (Some ids) = inl (ValueError msg) /\
     (forall sid, In sid ids -> dict_contains sid SOURCE_REGISTRY = false ->
                  occurs_in sid msg) /\
     (forall sid, In sid (dict_keys SOURCE_REGISTRY) -> occurs_in sid msg)) /\
  (Forall (fun sid => dict_contains sid SOURCE_REGISTRY = true) ids ->
   let run := fetch_features_for_organism organism_id name (Some ids) st in
   let fms := plan loaded_catalog (first_occurrences ids []) in
   (exists srcs,
      _get_sources_to_process (Some ids) = inr srcs /\
      from_registry srcs /\
      (forall sid, In sid (dict_keys srcs) <-> In sid ids) /\
      run = fetch_sources srcs organism_id name [] st) /\
   (forall fm, In fm fms <-> In fm loaded_catalog /\ In (source_id fm) ids) /\
   (exists invoked later,
      calls (snd run) = calls st ++ invoked /\
      fms = map call_feature_metadata invoked ++ later /\
      Forall (fun c => call_organism_id c = organism_id /\
                       call_organism_scientific_name c = name) invoked /\
      (forall rows,
         fst run = inr rows ->
         later = [] /\
         map (fun r => (row_source_id r, row_feature_id r)) rows
         = map (fun f => (source_id f, feature_id f)) fms) /\
      (forall e,
         fst run = inl e ->
         (get_all_feature_metadata = inl e /\ invoked = []) \/
         (exists before c, invoked = before ++ [c] /\ call_outcome c = inl e))) /\
   (forall catalog,
      get_all_feature_metadata = inr catalog ->
      (forall sid config,
         In sid ids -> dict_get sid SOURCE_REGISTRY = Some config ->
         never_raises (function config)) ->
      exists rows st', run = (inr rows, st'))).
Proof.
  split.
  - intros [bad [Hin Hbad]].
    set (invalid := filter (fun sid => negb (dict_contains sid SOURCE_REGISTRY)) ids).
    assert (Hinvalid : forall sid, In sid ids ->
                                   dict_contains sid SOURCE_REGISTRY = false ->
                                   In sid invalid).
    { intros sid Hsid Hno. apply filter_In. split; [ exact Hsid | ].
      now rewrite Hno. }
    exists ("Invalid source IDs: " ++ join ", " invalid ++
            ". Available sources: " ++ join ", " (dict_keys SOURCE_REGISTRY))%string.
    assert (Hsel : _get_sources_to_process (Some ids) =
                   inl (ValueError
                          ("Invalid source IDs: " ++ join ", " invalid ++
                           ". Available sources: " ++
                           join ", " (dict_keys SOURCE_REGISTRY))%string)).
    { unfold _get_sources_to_process. fold invalid.
      destruct invalid as [ | x rest ] eqn:E; [ | reflexivity ].
      destruct (Hinvalid bad Hin Hbad). }
    split; [ | split; [ exact Hsel | split ] ].
    + unfold fetch_features_for_organism, bind, lift. now rewrite Hsel.
    + intros sid Hsid Hno.
      apply occurs_in_suffix, occurs_in_prefix, join_occurs.
      now apply Hinvalid.
    + intros sid Hsid.
      apply occurs_in_suffix, occurs_in_suffix, occurs_in_suffix, join_occurs.
      exact Hsid.
  - intros Hreg. cbv zeta.
    destruct (fetch_registered organism_id name ids st Hreg)
      as [srcs [Hsel [Hfrom [Hkeys Hfetch]]]].
    assert (Hsame : forall sid, In sid (dict_keys srcs) <-> In sid ids).
    { intros sid. rewrite Hkeys, first_occurrences_In. tauto. }
    split; [ exists srcs; auto | ].
    split.
    { intros fm. split.
      - intros Hfm. apply plan_sources in Hfm. destruct Hfm as [Hsid Hcat].
        split; [ exact Hcat | ]. apply Hsame. now rewrite Hkeys.
      - intros [Hcat Hsid]. apply plan_complete; [ exact Hcat | ].
        rewrite <- Hkeys. now apply Hsame. }
    split.
    { destruct (fetch_features_for_organism organism_id name (Some ids) st)
        as [[e | rows] st'] eqn:Hrun; cbn [fst snd].
      - clear Hrun. symmetry in Hfetch. rename Hfetch into Hrun.
        apply fetch_sources_err in Hrun. rewrite Hkeys in Hrun.
        destruct Hrun as [[Hbad ->] | [done [fm [rest [results Hrun]]]]].
        + exists [], (plan loaded_catalog (first_occurrences ids [])).
          rewrite app_nil_r. repeat split; [ constructor | discriminate | discriminate | ].
          intros e' [= <-]. left. auto.
        + destruct Hrun as [Hplan [Hlen [Hcalls _]]].
          exists (map (call_for organism_id name) (combine done results)
                  ++ [mkCall organism_id name fm (inl e)]), rest.
          split; [ exact Hcalls | ].
          split; [ rewrite map_app, (calls_of_results _ _ _ _ Hlen), Hplan,
                     <- app_assoc; reflexivity | ].
          split.
          { apply Forall_app. split; [ | repeat constructor ].
            apply Forall_forall. intros c Hc. apply in_map_iff in Hc.
            destruct Hc as [fr [<- _]]. split; reflexivity. }
          split; [ discriminate | ].
          intros e' [= <-]. right.
          exists (map (call_for organism_id name) (combine done results)),
                 (mkCall organism_id name fm (inl e)).
          split; reflexivity.
      - pose proof (fetch_row_keys _ _ _ _ _ _ Hrun) as Hrowkeys.
        apply fetch_ok in Hrun. cbn [processing_order] in *.
        destruct Hrun as [results [Hlen [_ [Hcalls _]]]]. cbv zeta in *.
        exists (map (call_for organism_id name)
                    (combine (plan loaded_catalog (first_occurrences ids []))
                             results)), [].
        split; [ exact Hcalls | ].
        split; [ rewrite (calls_of_results _ _ _ _ Hlen), app_nil_r; reflexivity | ].
        split.
        { apply Forall_forall. intros c Hc. apply in_map_iff in Hc.
          destruct Hc as [fr [<- _]]. split; reflexivity. }
        split; [ | discriminate ].
        intros rows' [= <-]. split; [ reflexivity | exact Hrowkeys ]. }
    intros catalog Hload Hsafe. rewrite Hfetch.
    apply (fetch_sources_total _ organism_id name catalog Hload).
    apply registry_entries_safe; [ exact Hfrom | ].
    intros sid config Hin. apply Hsafe. now apply Hsame.
Qed.

(** Runs of C3 on the example deployment: an unknown id next to a known
    one raises before any call; two known ids are both processed, with
    one call per catalog entry of theirs. *)
Lemma C3_source_id_validation_witness :
  (exists msg,
     @fetch_features_for_organism Example.library Example.services
       3077%Z "Chlorella vulgaris" (Some ["ncbi"; "not_a_real_source"])
       Example.start = (inl (ValueError msg), Example.start) /\
     occurs_in "not_a_real_source" msg /\ occurs_in "exa_answer" msg) /\
  (exists rows st',
     @fetch_features_for_organism Example.library Example.services
       3077%Z "Chlorella vulgaris" (Some ["atcc"; "ncbi"]) Example.start
     = (inr rows, st') /\
     map (fun c => source_id (call_feature_metadata c)) (calls st')
     = ["atcc"; "ncbi"; "ncbi"]).
Proof.
  split.
  - destruct (proj1 (@C3_source_id_validation Example.library Example.services
                       3077%Z "Chlorella vulgaris"
                       ["ncbi"; "not_a_real_source"] Example.start))
      as [msg [Hrun [_ [Hbad Hall]]]].
    { exists "not_a_real_source". split; [ simpl; auto | reflexivity ]. }
    exists msg. split; [ exact Hrun | split ].
    + apply Hbad; [ simpl; auto | reflexivity ].
    + apply Hall. simpl. auto 10.
  - destruct (proj2 (@C3_source_id_validation Example.library Example.services
                       3077%Z "Chlorella vulgaris" ["atcc"; "ncbi"]
                       Example.start))
      as [_ [_ [[invoked [later [Hcalls [Hplan [_ [Hrows _]]]]]] Hreturns]]].
    { repeat constructor. }
    destruct (Hreturns _ eq_refl) as [rows [st' Hrun]].
    { intros sid config [<- | [<- | []]] [= <-];
        intros o n fm w; eexists; eexists; reflexivity. }
    exists rows, st'. split; [ exact Hrun | ].
    rewrite Hrun in Hcalls, Hrows. cbn [fst snd] in Hcalls, Hrows.
    destruct (Hrows rows eq_refl) as [-> _].
    rewrite app_nil_r in Hplan.
    rewrite Hcalls. cbn [calls Example.start app].
    rewrite <- (map_map call_feature_metadata source_id), <- Hplan.
    reflexivity.
Defined.

(** C10. An empty [source_ids] list gives no rows, no error and no
    adapter call.  A list of registered ids selects every distinct id
    once: the selection has no repeated key, holds exactly the ids
    given, and the call behaves as the call on the list without its
    repetitions; when it returns, its rows are those of the plan over the
    distinct ids. *)
Theorem C10_duplicate_ids_collapse `{Library} `{Services} (organism_id : Z)
  (name : string) (ids : list string) (st : State) :
  fetch_features_for_organism organism_id name (Some []) st = (inr [], st) /\
  (Forall (fun sid => dict_contains sid SOURCE_REGISTRY = true) ids ->
   (exists srcs,
      _get_sources_to_process (Some ids) = inr srcs /\
      NoDup (dict_keys srcs) /\
      (forall sid, In sid (dict_keys srcs) <-> In sid ids) /\
      fetch_features_for_organism organism_id name (Some ids) st =
      fetch_sources srcs organism_id name [] st) /\
   fetch_features_for_organism organism_id name (Some ids) st =
   fetch_features_for_organism organism_id name
     (Some (first_occurrences ids [])) st /\
   forall rows st',
     fetch_features_for_organism organism_id name (Some ids) st = (inr rows, st') ->
     NoDup (first_occurrences ids []) /\
     map (fun r => (row_source_id r, row_feature_id r)) rows =
     map (fun f => (source_id f, feature_id f))
         (plan loaded_catalog (first_occurrences ids []))).
Proof.
  split; [ reflexivity | ].
  intros Hreg.
  destruct (fetch_registered organism_id name ids st Hreg)
    as [srcs [Hsel [Hfrom [Hkeys Hfetch]]]].
  split; [ | split ].
  - exists srcs. split; [ exact Hsel | split; [ | split; [ | exact Hfetch ] ] ].
    + rewrite Hkeys. apply first_occurrences_NoDup.
    + intros sid. rewrite Hkeys, first_occurrences_In. tauto.
  - assert (Hreg' : Forall (fun sid => dict_contains sid SOURCE_REGISTRY = true)
                           (first_occurrences ids [])).
    { apply Forall_forall. intros sid Hin.
      apply first_occurrences_In in Hin. destruct Hin as [Hin _].
      now apply (proj1 (Forall_forall _ _) Hreg). }
    destruct (fetch_registered organism_id name _ st Hreg')
      as [srcs' [_ [Hfrom' [Hkeys' Hfetch']]]].
    rewrite first_occurrences_idempotent in Hkeys'.
    rewrite Hfetch, Hfetch'. f_equal.
    apply from_registry_unique; congruence.
  - intros rows st' Hrun. split; [ apply first_occurrences_NoDup | ].
    exact (fetch_row_keys organism_id name (Some ids) st rows st' Hrun).
Qed.

(** A run of C10 on the example deployment: ncbi three times and atcc
    once give the rows of ncbi once, then the row of atcc. *)
Lemma C10_duplicate_ids_collapse_witness :
  @fetch_features_for_organism Example.library Example.services
    3077%Z "Chlorella vulgaris" (Some ["ncbi"; "ncbi"; "atcc"; "ncbi"])
    Example.start =
  @fetch_features_for_organism Example.library Example.services
    3077%Z "Chlorella vulgaris" (Some ["ncbi"; "atcc"]) Example.start /\
  exists rows st',
    @fetch_features_for_organism Example.library Example.services
      3077%Z "Chlorella vulgaris" (Some ["ncbi"; "ncbi"; "atcc"; "ncbi"])
      Example.start = (inr rows, st') /\
    map (fun r => (row_source_id r, row_feature_id r)) rows =
    [("ncbi", "pubmed_count"); ("ncbi", "genome_count");
     ("atcc", "atcc_products")].
Proof.
  destruct (proj2 (@C10_duplicate_ids_collapse Example.library Example.services
                     3077%Z "Chlorella vulgaris"
                     ["ncbi"; "ncbi"; "atcc"; "ncbi"] Example.start))
    as [_ [Hsame Hrows]].
  { repeat constructor. }
  split; [ exact Hsame | ].
  eexists. eexists. split; [ vm_compute; reflexivity | ].
  exact (proj2 (Hrows _ _ eq_refl)).
Defined.

(** ** Loading the catalog *)

Lemma sequence_sum_inr {E A : Type} (xs : list (E + A)) (l : list A) :
  sequence_sum xs = inr l <-> xs = map inr l.
Proof.
  revert l. induction xs as [ | [e | a] rest IH ]; intros l; simpl.
  - split.
    + intros [= <-]. reflexivity.
    + destruct l; [ reflexivity | discriminate ].
  - split; [ discriminate | destruct l; discriminate ].
  - destruct (sequence_sum rest) as [e | l'] eqn:Hseq.
    + split; [ discriminate | ].
      destruct l as [ | a' l ]; [ discriminate | ].
      simpl. intros [= -> Hrest].
      apply (IH l) in Hrest. discriminate.
    + split.
      * intros [= <-]. simpl. f_equal. now apply IH.
      * destruct l as [ | a' l ]; [ discriminate | ].
        simpl. intros [= -> Hrest]. apply (IH l) in Hrest.
        injection Hrest as ->. reflexivity.
Qed.

(** The first failure is the one reported. *)
Lemma sequence_sum_inl {E A : Type} (xs : list (E + A)) :
  (exists x e, In x xs /\ x = inl e) ->
  exists e, sequence_sum xs = inl e /\ In (inl e) xs.
Proof.
  induction xs as [ | [e | a] rest IH ]; intros [x [e0 [Hin Hx]]].
  - contradiction.
  - exists e. simpl. auto.
  - destruct Hin as [<- | Hin]; [ discriminate | ].
    destruct IH as [e [Hseq He]]; [ now exists x, e0 | ].
    exists e. simpl. rewrite Hseq. auto.
Qed.

(** A failing validation is a [ValidationError]. *)
Lemma model_validate_error `{Library} (f : Yaml) (e : Exn) :
  model_validate f = inl e -> exn_class e = "ValidationError".
Proof.
  unfold model_validate. destruct f; try (intros [= <-]; reflexivity).
  cbv zeta.
  repeat match goal with
         | |- context [ match ?r with inl _ => _ | inr _ => _ end ] =>
             destruct r; try (intros [= <-]; reflexivity)
         end.
Qed.

(** An entry without a description, or with an empty one, is refused. *)
Lemma model_validate_description `{Library} (d : list (string * Yaml)) :
  dict_get "description" d = None \/ dict_get "description" d = Some (YStr "") ->
  exists e, model_validate (YMap d) = inl e.
Proof.
  intros Hd. unfold model_validate. cbv zeta.
  assert (H5 : exists ty, required_str_min_length_1 (dict_get "description" d)
                          = inl ty).
  { destruct Hd as [-> | ->]; eexists; reflexivity. }
  destruct H5 as [ty ->].
  repeat match goal with
         | |- context [ match ?r with inl _ => _ | inr _ => _ end ] =>
             destruct r; try (eexists; reflexivity)
         end.
Qed.

(** An entry whose [max_products] is a float that is no whole number of
    64 bits is refused. *)
Lemma model_validate_max_products `{Library} (d : list (string * Yaml))
  (x : float) (ty : string) :
  dict_get "max_products" d = Some (YFloat x) ->
  float_as_int x = inl ty ->
  exists e, model_validate (YMap d) = inl e.
Proof.
  intros Hd Hx. unfold model_validate. cbv zeta.
  assert (H9 : optional_int (dict_get "max_products" d) = inl ty).
  { rewrite Hd. unfold optional_int. now rewrite Hx. }
  rewrite H9.
  repeat match goal with
         | |- context [ match ?r with inl _ => _ | inr _ => _ end ] =>
             destruct r; try (eexists; reflexivity)
         end.
Qed.

Example float_as_int_run :
  (float_as_int 3%float = inr 3%Z) /\
  (float_as_int (-0)%float = inr 0%Z) /\
  (float_as_int 2.5%float = inl "int_from_float") /\
  (float_as_int 1e19%float = inl "int_parsing_size") /\
  (float_as_int 0x1p63%float = inl "int_parsing_size") /\
  (float_as_int (-0x1p63)%float = inl "int_parsing_size") /\
  (float_as_int 9223372036854774784%float = inr 9223372036854774784%Z) /\
  (float_as_int infinity = inl "finite_number") /\
  (float_as_int nan = inl "finite_number").
Proof. repeat split; reflexivity. Qed.

(** C7. Loading validates every entry, and either the whole catalog is
    returned, every entry of the file validated and in its place, or
    nothing but an error: if one entry is refused by the schema, the
    load raises a [ValidationError]; an entry without a description or
    with an empty one is such an entry, and so is an entry whose
    [max_products] is a float with a fractional part, of magnitude
    [2^63] or more, infinite or NaN. *)
Theorem C7_catalog_load_is_all_or_nothing `{Library}
  (items : list (string * Yaml)) (entries : list Yaml) :
  dict_get "features" items = Some (YList entries) ->
  (forall catalog,
     get_all_feature_metadata_of (YMap items) = inr catalog ->
     map model_validate entries = map inr catalog /\
     List.length catalog = List.length entries) /\
  ((exists f e, In f entries /\ model_validate f = inl e) ->
   exists e, get_all_feature_metadata_of (YMap items) = inl e /\
             exn_class e = "ValidationError") /\
  (forall d,
     In (YMap d) entries ->
     dict_get "description" d = None \/ dict_get "description" d = Some (YStr "") ->
     exists e, get_all_feature_metadata_of (YMap items) = inl e /\
               exn_class e = "ValidationError") /\
  ((forall f, In f entries -> exists fm, model_validate f = inr fm) ->
   exists catalog, get_all_feature_metadata_of (YMap items) = inr catalog) /\
  (forall d x ty,
     In (YMap d) entries ->
     dict_get "max_products" d = Some (YFloat x) ->
     float_as_int x = inl ty ->
     exists e, get_all_feature_metadata_of (YMap items) = inl e /\
               exn_class e = "ValidationError").
Proof.
  intros Hfeatures.
  assert (Hload : get_all_feature_metadata_of (YMap items) =
                  sequence_sum (map model_validate entries)).
  { unfold get_all_feature_metadata_of. now rewrite Hfeatures. }
  assert (Hfail : (exists f e, In f entries /\ model_validate f = inl e) ->
                  exists e, get_all_feature_metadata_of (YMap items) = inl e /\
                            exn_class e = "ValidationError").
  { intros [f [e [Hin Hf]]]. rewrite Hload.
    destruct (sequence_sum_inl (map model_validate entries)) as [e' [Hseq He']].
    { exists (model_validate f), e. split; [ now apply in_map | exact Hf ]. }
    exists e'. split; [ exact Hseq | ].
    apply in_map_iff in He'. destruct He' as [f' [Hf' _]].
    now apply (model_validate_error f'). }
  split; [ | split; [ exact Hfail | split; [ | split ] ] ].
  - intros catalog Hok. rewrite Hload in Hok.
    apply sequence_sum_inr in Hok. split; [ exact Hok | ].
    apply (f_equal (@List.length _)) in Hok. rewrite !length_map in Hok.
    now symmetry.
  - intros d Hin Hd. apply Hfail.
    destruct (model_validate_description d Hd) as [e He].
    now exists (YMap d), e.
  - intros Hall. rewrite Hload.
    destruct (sequence_sum (map model_validate entries)) as [e | catalog] eqn:E;
      [ | now exists catalog ].
    exfalso.
    assert (Hin : In (inl e) (map model_validate entries)).
    { clear -E. induction entries as [ | f rest IH ]; simpl in *;
        [ discriminate | ].
      destruct (model_validate f) as [e' | fm].
      - left. congruence.
      - right. apply IH.
        destruct (sequence_sum (map model_validate rest)); congruence. }
    apply in_map_iff in Hin. destruct Hin as [f [Hf Hin]].
    destruct (Hall f Hin) as [fm Hfm]. congruence.
  - intros d x ty Hin Hd Hx. apply Hfail.
    destruct (model_validate_max_products d x ty Hd Hx) as [e He].
    now exists (YMap d), e.
Qed.

(** C7 on a catalog file of two entries, the second without a
    description: the load fails as a whole. *)
Lemma C7_catalog_load_is_all_or_nothing_witness :
  exists e,
    @get_all_feature_metadata_of Example.library Example.broken_yaml = inl e /\
    exn_class e = "ValidationError".
Proof.
  refine (proj1 (proj2 (proj2
            (@C7_catalog_load_is_all_or_nothing Example.library
               [("features", YList Example.broken_entries)]
               Example.broken_entries eq_refl)))
            Example.no_description _ _).
  - right. left. reflexivity.
  - left. reflexivity.
Defined.

(** ** The retry loop *)

Section RetryFacts.

Context `{Library}.
Variables W A : Type.
Variable backoff : Q -> Q -> Z -> W -> W.
Variable policy : Retry.Policy.
Variable fn : W -> (Exn + A) * W.
Variable w : W.

Let before := Retry.world_before W A backoff policy fn w.
Let attempts := Retry.attempts W A backoff.

(** As long as attempts fail with a retryable exception and the stop
    condition does not hold, the loop goes on to the next attempt. *)
Lemma attempts_skip (n fuel : nat) :
  (forall i, (i < n)%nat ->
             fails_retryably policy fn (before i) /\
             (Z.of_nat i + 1 < Retry.stop_after_attempt policy)%Z) ->
  attempts (n + fuel) policy fn 1 0 w =
  attempts fuel policy fn (Z.of_nat n + 1) n (before n).
Proof.
  revert fuel. induction n as [ | n IH ]; intros fuel Hfail.
  - reflexivity.
  - replace (S n + fuel)%nat with (n + S fuel)%nat by lia.
    rewrite IH by (intros i Hi; apply Hfail; lia).
    destruct (Hfail n (Nat.lt_succ_diag_r n)) as [[e [He Hretry]] Hstop].
    unfold attempts. cbn [Retry.attempts]. fold before.
    destruct (fn (before n)) as [outcome w1] eqn:Hfn.
    simpl in He. subst outcome. rewrite Hretry. cbn [negb].
    destruct (Z.geb_spec (Z.of_nat n + 1) (Retry.stop_after_attempt policy))
      as [Hge | Hlt]; [ lia | ].
    assert (Hnext : before (S n) =
                    backoff (Retry.wait_min policy) (Retry.wait_max policy)
                            (Z.of_nat n + 1) w1).
    { unfold before. cbn [Retry.world_before]. fold before.
      rewrite Hfn. cbn [snd]. f_equal. lia. }
    rewrite Hnext.
    replace (Z.of_nat (S n)) with (Z.of_nat n + 1)%Z by lia.
    reflexivity.
Qed.

(** The loop ends before its fuel does. *)
Lemma attempts_total (fuel : nat) :
  forall attempt_number invocations w0,
    (Z.to_nat (Retry.stop_after_attempt policy - attempt_number) < fuel)%nat ->
    exists r, attempts fuel policy fn attempt_number invocations w0 = Some r.
Proof.
  induction fuel as [ | fuel IH ]; intros a inv w0 Hfuel; [ lia | ].
  unfold attempts. cbn [Retry.attempts].
  destruct (fn w0) as [[e | result] w1]; [ | eexists; reflexivity ].
  destruct (negb (Retry.isinstance e (Retry.retry_if_exception_type policy)));
    [ eexists; reflexivity | ].
  destruct (Z.geb_spec a (Retry.stop_after_attempt policy)) as [Hge | Hlt];
    [ eexists; reflexivity | ].
  apply IH. lia.
Qed.

(** Calling a decorated function always comes back. *)
Lemma retry_call_returns :
  exists r, Retry.call W A backoff policy fn w = Some r.
Proof. apply attempts_total. lia. Qed.

End RetryFacts.

(** C4. For the policy made by [retry_with_backoff]: (a) a function that
    raises a retryable exception [max_attempts - 1] times and then
    returns [v] makes the call return [v] after exactly [max_attempts]
    invocations; (b) a function whose first exception is not retryable
    is invoked once and the call raises that exception; (c) if every
    attempt the policy allows raises a retryable exception, the call
    raises the exception of the last attempt itself, not a wrapper. *)
Theorem C4_retry_policy `{Library} (W A : Type)
  (backoff : Q -> Q -> Z -> W -> W) (max_attempts : Z) (min_wait max_wait : Q)
  (retry_on : list string) (fn : W -> (Exn + A) * W) (w : W) :
  let policy := Retry.retry_with_backoff max_attempts min_wait max_wait retry_on in
  let before := Retry.world_before W A backoff policy fn w in
  (forall (n : nat) (v : A),
     Z.of_nat n = (max_attempts - 1)%Z ->
     (forall i, (i < n)%nat -> fails_retryably policy fn (before i)) ->
     fst (fn (before n)) = inr v ->
     Retry.call W A backoff policy fn w =
     Some (inr v, snd (fn (before n)), Z.to_nat max_attempts)) /\
  (forall e,
     fst (fn w) = inl e -> Retry.isinstance e retry_on = false ->
     Retry.call W A backoff policy fn w = Some (inl e, snd (fn w), 1%nat)) /\
  (forall (m : nat) (e : Exn),
     Z.of_nat m = Z.max 1 max_attempts ->
     (forall i, (i < m)%nat -> fails_retryably policy fn (before i)) ->
     fst (fn (before (m - 1)%nat)) = inl e ->
     Retry.call W A backoff policy fn w =
     Some (inl e, snd (fn (before (m - 1)%nat)), m)).
Proof.
  intros policy before. split; [ | split ].
  - intros n v Hn Hfail Hsuccess. unfold Retry.call.
    replace (S (Z.to_nat (Retry.stop_after_attempt policy)))
      with (n + 2)%nat by (simpl; lia).
    rewrite attempts_skip
      by (intros i Hi; split; [ now apply Hfail | simpl; lia ]).
    fold before. cbn [Retry.attempts].
    destruct (fn (before n)) as [outcome w1]. simpl in Hsuccess. subst outcome.
    simpl. do 3 f_equal. lia.
  - intros e He Hretry. unfold Retry.call. cbn [Retry.attempts].
    destruct (fn w) as [outcome w1]. simpl in He. subst outcome.
    simpl. now rewrite Hretry.
  - intros m e Hm Hfail Hlast. unfold Retry.call.
    assert (Hpos : (1 <= m)%nat) by lia.
    replace (S (Z.to_nat (Retry.stop_after_attempt policy)))
      with ((m - 1) + S (Z.to_nat max_attempts - (m - 1)))%nat by (simpl; lia).
    rewrite attempts_skip
      by (intros i Hi; split; [ apply Hfail; lia | simpl; lia ]).
    fold before. cbn [Retry.attempts].
    destruct (Hfail (m - 1)%nat) as [e' [He' Hretry]]; [ lia | ].
    destruct (fn (before (m - 1)%nat)) as [outcome w1].
    simpl in Hlast, He'. subst outcome. injection He' as <-.
    rewrite Hretry. cbn [negb].
    destruct (Z.geb_spec (Z.of_nat (m - 1)%nat + 1) (Retry.stop_after_attempt policy))
      as [Hge | Hlt]; [ | simpl in Hlt; lia ].
    simpl. do 2 f_equal. lia.
Qed.

(** Runs of C4 with [max_attempts = 3]: a function that times out twice,
    a function that raises a [KeyError], a service that is down. *)
Lemma C4_retry_policy_witness :
  let policy := Retry.retry_with_backoff 3 1 60 ["RequestException"; "HTTPError"] in
  @Retry.call Example.library nat string Example.no_backoff policy Example.flaky 0%nat
  = Some (inr "ok", 3%nat, 3%nat) /\
  @Retry.call Example.library nat string Example.no_backoff policy Example.broken 0%nat
  = Some (inl (KeyError "count"), 1%nat, 1%nat) /\
  @Retry.call Example.library nat string Example.no_backoff policy Example.down 0%nat
  = Some (inl (mkExn "HTTPError" "2"), 3%nat, 3%nat).
Proof.
  intros policy. split; [ | split ].
  - refine (proj1 (@C4_retry_policy Example.library nat string
                     Example.no_backoff 3 1 60
                     ["RequestException"; "HTTPError"] Example.flaky 0%nat)
                  2%nat "ok" eq_refl _ eq_refl).
    intros i Hi. exists (mkExn "Timeout" "timed out").
    destruct i as [ | [ | i ] ]; [ split; reflexivity | split; reflexivity | lia ].
  - exact (proj1 (proj2 (@C4_retry_policy Example.library nat string
                           Example.no_backoff 3 1 60
                           ["RequestException"; "HTTPError"] Example.broken 0%nat))
                 (KeyError "count") eq_refl eq_refl).
  - refine (proj2 (proj2 (@C4_retry_policy Example.library nat string
                            Example.no_backoff 3 1 60
                            ["RequestException"; "HTTPError"] Example.down 0%nat))
                  3%nat (mkExn "HTTPError" "2") eq_refl _ eq_refl).
    intros i Hi.
    destruct i as [ | [ | [ | i ] ] ]; [ | | | lia ];
      eexists; split; reflexivity.
Defined.

(** ** The rate limiter *)

(** One float against zero: what the comparison says of the value. *)
Lemma pow2_pos (e : Z) : 0 < PyFloat.pow2 e.
Proof. destruct e; reflexivity. Qed.

Lemma not_positive_value (x : float) :
  (0 <? x)%float = false -> PyFloat.value x <= 0.
Proof.
  rewrite ltb_spec. change (Prim2SF 0%float) with (S754_zero false).
  unfold PyFloat.value.
  destruct (Prim2SF x) as [s | s | | [ | ] m e]; try (intros _; apply Qle_refl);
    [ | discriminate ].
  intros _. pose proof (pow2_pos e) as Hpow.
  assert (Hneg : (Zneg m # 1) < 0) by reflexivity.
  nra.
Qed.

Lemma sleep_returns (secs : float) (extra clock clock' : Q) :
  RateLimiter.sleep secs extra clock = inr clock' ->
  clock' = clock + PyFloat.value secs + extra.
Proof.
  unfold RateLimiter.sleep.
  destruct (is_nan secs); [ discriminate | ].
  destruct (negb _); [ discriminate | ].
  destruct (secs <? 0)%float; [ discriminate | ].
  now intros [= <-].
Qed.

(** One call.  When it returns, the limiter remembers the reading of
    the clock at the grant, and the call has lasted at least the wait
    time it computed; when it raises, the limiter is as it was. *)
Lemma wait_spec (time_time : Q -> float) (self : RateLimiter.t)
  (l : RateLimiter.Lag) (clock : Q) :
  RateLimiter.lag_ok l ->
  match RateLimiter.wait time_time self l clock with
  | (inr _, (self', clock')) =>
      RateLimiter.min_interval self' = RateLimiter.min_interval self /\
      RateLimiter._last_call self' = time_time clock' /\
      clock <= clock' /\
      clock + PyFloat.value (RateLimiter.min_interval self
                             - (time_time clock - RateLimiter._last_call self))%float
      <= clock'
  | (inl _, (self', clock')) => self' = self /\ clock <= clock'
  end.
Proof.
  intros [Hb [Ho Hr]]. unfold RateLimiter.wait. cbv zeta.
  set (wait_time := (RateLimiter.min_interval self
                     - (time_time clock - RateLimiter._last_call self))%float).
  destruct (0 <? wait_time)%float eqn:Hpos.
  - destruct (RateLimiter.sleep wait_time (RateLimiter.oversleep l)
                                (clock + RateLimiter.before_sleep l))
      as [e | clock1] eqn:Hsleep.
    + split; [ reflexivity | lra ].
    + apply sleep_returns in Hsleep. subst clock1.
      cbn [RateLimiter.min_interval RateLimiter._last_call].
      assert (Hnonneg : ~ PyFloat.value wait_time < 0).
      { unfold PyFloat.value. revert Hpos. rewrite ltb_spec.
        change (Prim2SF 0%float) with (S754_zero false).
        destruct (Prim2SF wait_time) as [s | s | | [ | ] m e];
          try (intros _; apply Qlt_irrefl); [ discriminate | ].
        intros _. pose proof (pow2_pos e) as Hpow.
        assert (Hm : 0 < (Zpos m # 1)) by reflexivity.
        nra. }
      repeat split; try reflexivity; lra.
  - apply not_positive_value in Hpos.
    cbn [RateLimiter.min_interval RateLimiter._last_call].
    repeat split; try reflexivity; lra.
Qed.

Lemma last_nonempty {A : Type} (x : A) (l : list A) (d d' : A) :
  last (x :: l) d = last (x :: l) d'.
Proof.
  revert x. induction l as [ | y l IH ]; intros x; [ reflexivity | ].
  change (last (y :: l) d = last (y :: l) d'). apply IH.
Qed.

Lemma last_cons_cons {A : Type} (x y : A) (l : list A) (d : A) :
  last (x :: y :: l) d = last (y :: l) d.
Proof. reflexivity. Qed.

Lemma inject_succ (n : nat) :
  inject_Z (Z.of_nat (S n)) == inject_Z (Z.of_nat n) + 1.
Proof.
  rewrite Nat2Z.inj_succ. unfold Z.succ. rewrite inject_Z_plus. reflexivity.
Qed.

(** A run of calls on a limiter that remembers the grant at [previous]:
    every grant is spaced from the one before it, the clock does not go
    back, and a run that ends without an exception has granted every
    call and ends with the last grant. *)
Lemma waits_spec (time_time : Q -> float)
  (schedule : list (Q * RateLimiter.Lag)) :
  forall self clock previous,
    RateLimiter.schedule_ok schedule ->
    RateLimiter._last_call self = time_time previous ->
    let '(grants, outcome, (self', clock')) :=
      RateLimiter.waits time_time self clock schedule in
    RateLimiter.spaced_from time_time (RateLimiter.min_interval self)
                            previous grants /\
    RateLimiter.min_interval self' = RateLimiter.min_interval self /\
    Forall (fun g => clock <= RateLimiter.asked g /\
                     RateLimiter.asked g <= RateLimiter.granted g /\
                     RateLimiter.granted g <= clock') grants /\
    clock <= clock' /\
    (outcome = inr tt ->
     List.length grants = List.length schedule /\
     clock' = last (map RateLimiter.granted grants) clock /\
     RateLimiter._last_call self'
     = last (map time_time (map RateLimiter.granted grants))
            (RateLimiter._last_call self)).
Proof.
  induction schedule as [ | [idle l] rest IH ]; intros self clock previous Hok Hlast.
  - simpl. repeat split; try reflexivity; try constructor. apply Qle_refl.
  - apply Forall_cons_iff in Hok. destruct Hok as [[Hidle Hlag] Hrest].
    cbn [RateLimiter.waits].
    pose proof (wait_spec time_time self l (clock + idle) Hlag) as Hwait.
    destruct (RateLimiter.wait time_time self l (clock + idle))
      as [[e | []] [self1 clock1]].
    + destruct Hwait as [-> Hclock].
      repeat split; try constructor; try discriminate. lra.
    + destruct Hwait as [Hmin [Hread [Hclock Hgap]]].
      specialize (IH self1 clock1 clock1 Hrest Hread).
      destruct (RateLimiter.waits time_time self1 clock1 rest)
        as [[grants outcome] [self' clock']].
      destruct IH as [Hspaced [Hmin' [Hall [Hmono Hdone]]]].
      rewrite Hmin in *.
      split.
      { cbn [RateLimiter.spaced_from RateLimiter.asked RateLimiter.granted].
        split; [ | exact Hspaced ].
        unfold RateLimiter.wait_error, RateLimiter.computed_wait.
        rewrite <- Hlast. lra. }
      split; [ exact Hmin' | ].
      split.
      { constructor.
        - cbn [RateLimiter.asked RateLimiter.granted]. repeat split; lra.
        - eapply Forall_impl; [ | exact Hall ].
          intros g [H1 [H2 H3]]. repeat split; lra. }
      split; [ lra | ].
      intros Hout. destruct (Hdone Hout) as [Hlen [Hend Hremember]].
      cbn [List.length map RateLimiter.granted].
      split; [ now rewrite Hlen | ].
      destruct grants as [ | g grants ].
      * simpl in *. split; [ exact Hend | ]. now rewrite Hremember, Hread.
      * cbn [map]. rewrite !last_cons_cons. split.
        -- rewrite Hend. cbn [map]. apply last_nonempty.
        -- rewrite Hremember. cbn [map]. apply last_nonempty.
Qed.

(** The same for a limiter that remembers anything, as the one that
    [__init__] makes: the first grant is spaced from nothing. *)
Lemma waits_any (time_time : Q -> float)
  (schedule : list (Q * RateLimiter.Lag)) (self : RateLimiter.t) (clock : Q) :
  RateLimiter.schedule_ok schedule ->
  let '(grants, outcome, (self', clock')) :=
    RateLimiter.waits time_time self clock schedule in
  RateLimiter.spaced_up_to_error time_time (RateLimiter.min_interval self)
                                 grants /\
  Forall (fun g => clock <= RateLimiter.asked g /\
                   RateLimiter.asked g <= RateLimiter.granted g /\
                   RateLimiter.granted g <= clock') grants /\
  clock <= clock' /\
  (outcome = inr tt ->
   List.length grants = List.length schedule /\
   clock' = last (map RateLimiter.granted grants) clock).
Proof.
  destruct schedule as [ | [idle l] rest ]; intros Hok.
  - simpl. repeat split; try constructor. apply Qle_refl.
  - apply Forall_cons_iff in Hok. destruct Hok as [[Hidle Hlag] Hrest].
    cbn [RateLimiter.waits].
    pose proof (wait_spec time_time self l (clock + idle) Hlag) as Hwait.
    destruct (RateLimiter.wait time_time self l (clock + idle))
      as [[e | []] [self1 clock1]].
    + destruct Hwait as [-> Hclock].
      repeat split; try constructor; try discriminate. lra.
    + destruct Hwait as [Hmin [Hread [Hclock _]]].
      pose proof (waits_spec time_time rest self1 clock1 clock1 Hrest Hread)
        as Hrun.
      destruct (RateLimiter.waits time_time self1 clock1 rest)
        as [[grants outcome] [self' clock']].
      destruct Hrun as [Hspaced [_ [Hall [Hmono Hdone]]]].
      rewrite Hmin in Hspaced.
      split; [ exact Hspaced | ].
      split.
      { constructor.
        - cbn [RateLimiter.asked RateLimiter.granted]. repeat split; lra.
        - eapply Forall_impl; [ | exact Hall ].
          intros g [H1 [H2 H3]]. repeat split; lra. }
      split; [ lra | ].
      intros Hout. destruct (Hdone Hout) as [Hlen [Hend _]].
      cbn [List.length map RateLimiter.granted].
      split; [ now rewrite Hlen | ].
      destruct grants as [ | g grants ]; [ exact Hend | ].
      cbn [map]. rewrite last_cons_cons, Hend. cbn [map]. apply last_nonempty.
Qed.

(** Grants that are spaced up to errors of at most [eps] are
    [min_interval - eps] apart. *)
Lemma spaced_within (time_time : Q -> float) (m : float) (eps : Q)
  (grants : list RateLimiter.Grant) :
  forall previous,
    RateLimiter.spaced_from time_time m previous grants ->
    RateLimiter.errors_from time_time m eps previous grants ->
    RateLimiter.spaced (PyFloat.value m - eps)
                       (previous :: map RateLimiter.granted grants).
Proof.
  induction grants as [ | g grants IH ]; intros previous Hspaced Herrors.
  - exact I.
  - destruct Hspaced as [Hgap Hspaced]. destruct Herrors as [Herr Herrors].
    cbn [map]. split; [ lra | ]. now apply IH.
Qed.

Lemma spaced_total (d : Q) (times : list Q) :
  forall t0,
    RateLimiter.spaced d (t0 :: times) ->
    t0 + inject_Z (Z.of_nat (List.length times)) * d <= last times t0.
Proof.
  induction times as [ | t1 times IH ]; intros t0 Hspaced.
  - simpl. unfold inject_Z. lra.
  - destruct Hspaced as [Hgap Hspaced]. specialize (IH t1 Hspaced).
    assert (Hlast : last (t1 :: times) t0 = last times t1).
    { destruct times as [ | t2 times ]; [ reflexivity | ].
      rewrite last_cons_cons. apply last_nonempty. }
    rewrite Hlast. cbn [List.length].
    pose proof (inject_succ (List.length times)) as Hsucc.
    set (k := inject_Z (Z.of_nat (List.length times))) in *.
    set (k' := inject_Z (Z.of_nat (S (List.length times)))) in *.
    assert (Hring : k' * d == k * d + d) by (rewrite Hsucc; ring).
    lra.
Qed.




(** The limiters of the repository are made for 10, 1, 1.67 and 5 calls
    per second; for these rates the division does not round down. *)
Example deployed_min_intervals :
  Forall (fun calls_per_second =>
            exists self,
              RateLimiter.__init__ calls_per_second = inr self /\
              1 / PyFloat.value calls_per_second
              <= PyFloat.value (RateLimiter.min_interval self))
         [10%float; 1%float; (167 / 100)%float; 5%float].
Proof.
  repeat constructor; eexists; (split; [ reflexivity | ]);
    vm_compute; discriminate.
Qed.

(** ** Construction of the clients *)

(** The clients that check their credentials refuse an environment in
    which one of them is missing or empty. *)
Lemma checked_clients_refuse (c : SourceClient) (environ : Environ) :
  c = NCBI \/ c = ProtocolsIO \/ c = Firecrawl \/ c = ATCC ->
  (exists v, In v (credentials c) /\ truthy (dict_get v environ) = false) ->
  exists msg, construct c environ = Some (ValueError msg).
Proof.
  intros Hc [v [Hv Hmissing]].
  destruct Hc as [-> | [-> | [-> | ->]]]; simpl in Hv.
  - unfold construct, NCBIClient.__init__, or_else. cbn [truthy].
    destruct Hv as [<- | [<- | []]].
    + rewrite Hmissing. cbn [negb]. eexists. reflexivity.
    + destruct (truthy (dict_get "NCBI_API_KEY" environ)); cbn [negb];
        [ rewrite Hmissing | ]; eexists; reflexivity.
  - destruct Hv as [<- | []].
    unfold construct, ProtocolsIOClient.__init__, or_else. cbn [truthy].
    rewrite Hmissing. eexists. reflexivity.
  - destruct Hv as [<- | []].
    unfold construct, FirecrawlClient.__init__.
    rewrite Hmissing. eexists. reflexivity.
  - destruct Hv as [<- | []].
    unfold construct, ATCCClient.__init__, FirecrawlClient.__init__.
    rewrite Hmissing. eexists. reflexivity.
Qed.

(** The Exa client is constructed in every environment. *)
Lemma exa_client_never_refuses (environ : Environ) :
  construct Exa environ = None /\ construct ExaAnswer environ = None.
Proof. split; reflexivity. Qed.

(** C8 (the code departs from it). Constructing [ExaClient] in an
    environment without [EXA_API_KEY] raises nothing: the client is
    built with the key [None] and the header [x-api-key: None], so the
    missing credential is not reported at construction time.  The same
    holds for [ExaAnswerClient], which wraps it. *)
Theorem C8_exa_client_accepts_missing_key :
  dict_get "EXA_API_KEY" ([] : Environ) = None /\
  ExaClient.__init__ [] = inr (ExaClient.mk None [("x-api-key", None)]) /\
  construct Exa [] = None /\
  construct ExaAnswer [] = None /\
  (exists msg, construct NCBI [] = Some (ValueError msg)) /\
  (exists msg, construct ProtocolsIO [] = Some (ValueError msg)) /\
  (exists msg, construct Firecrawl [] = Some (ValueError msg)).
Proof.
  repeat split; eexists; reflexivity.
Qed.

(** ** Validation of the organism input *)

Lemma missing_columns_none (fieldnames : list string) :
  missing_columns fieldnames = [] <->
  In "organism_id" fieldnames /\ In "organism_scientific_name" fieldnames.
Proof.
  unfold missing_columns. cbn [filter].
  rewrite <- !existsb_eqb_In.
  destruct (existsb (String.eqb "organism_id") fieldnames);
    destruct (existsb (String.eqb "organism_scientific_name") fieldnames);
    cbn [negb]; split; try discriminate; try tauto;
    intros Hboth; destruct Hboth; discriminate.
Qed.

Lemma read_organisms_step `{Library} (fieldnames fields : list string)
  (rest : list (list string)) (i : Z) (organisms : list Organism) :
  record_accepted fieldnames fields = true ->
  exists org,
    read_organisms fieldnames (fields :: rest) i organisms =
    read_organisms fieldnames rest (i + 1) (organisms ++ [org]).
Proof.
  unfold record_accepted, record_refused.
  destruct fields as [ | v vs ]; [ discriminate | ].
  intros Hok. cbn [read_organisms].
  set (row := dict_row fieldnames (v :: vs)) in *.
  destruct (is_empty (strip (get_or_empty row "organism_scientific_name"))
            || is_empty (strip (get_or_empty row "organism_id")));
    [ discriminate | ].
  destruct (py_int (strip (get_or_empty row "organism_id")));
    [ | discriminate ].
  eexists. reflexivity.
Qed.

Lemma read_organisms_stop `{Library} (fieldnames fields : list string)
  (rest : list (list string)) (i : Z) (organisms : list Organism) :
  record_refused fieldnames fields = true ->
  read_organisms fieldnames (fields :: rest) i organisms =
  inl (ValueError (record_error fieldnames fields i)).
Proof.
  unfold record_refused, record_error.
  destruct fields as [ | v vs ]; [ discriminate | ].
  intros Hbad. cbn [read_organisms].
  set (row := dict_row fieldnames (v :: vs)) in *.
  destruct (is_empty (strip (get_or_empty row "organism_scientific_name"))
            || is_empty (strip (get_or_empty row "organism_id")));
    [ reflexivity | ].
  destruct (py_int (strip (get_or_empty row "organism_id")));
    [ discriminate | reflexivity ].
Qed.

(** The first refused record stops the loop; when only accepted records
    come before it, its number is its place plus the start number. *)
Lemma read_organisms_refused `{Library} (fieldnames : list string)
  (before : list (list string)) (bad : list string)
  (after : list (list string)) :
  Forall (fun r => record_accepted fieldnames r = true) before ->
  record_refused fieldnames bad = true ->
  forall i organisms,
    read_organisms fieldnames (before ++ bad :: after) i organisms =
    inl (ValueError
           (record_error fieldnames bad (i + Z.of_nat (List.length before)))).
Proof.
  intros Hbefore Hbad.
  induction Hbefore as [ | r before Hr _ IH ]; intros i organisms.
  - simpl List.length. rewrite Z.add_0_r. now apply read_organisms_stop.
  - simpl app.
    destruct (read_organisms_step fieldnames r (before ++ bad :: after)
                                  i organisms Hr) as [org ->].
    rewrite IH. do 3 f_equal. simpl List.length. lia.
Qed.

(** A refused record anywhere stops the loop with a [ValueError]. *)
Lemma read_organisms_any_refused `{Library} (fieldnames : list string)
  (records : list (list string)) :
  Exists (fun r => record_refused fieldnames r = true) records ->
  forall i organisms,
    exists msg, read_organisms fieldnames records i organisms
                = inl (ValueError msg).
Proof.
  induction records as [ | r rest IH ]; intros Hex i organisms.
  - inversion Hex.
  - destruct (record_refused fieldnames r) eqn:Hr.
    + eexists. now apply read_organisms_stop.
    + assert (Hrest : Exists (fun r => record_refused fieldnames r = true) rest).
      { inversion Hex; subst; [ congruence | assumption ]. }
      destruct r as [ | v vs ].
      * cbn [read_organisms]. now apply IH.
      * destruct (read_organisms_step fieldnames (v :: vs) rest i organisms)
          as [org ->].
        { unfold record_accepted. now rewrite Hr. }
        now apply IH.
Qed.

Lemma occurs_in_second (a x b : string) : occurs_in x (a ++ x ++ b)%string.
Proof. now exists a, b. Qed.

Lemma occurs_in_fourth (a b c x : string) :
  occurs_in x (a ++ b ++ c ++ x)%string.
Proof.
  exists (a ++ b ++ c)%string, "".
  now rewrite append_empty_r, !append_assoc.
Qed.

Lemma record_error_reports `{Library} (fieldnames fields : list string) (i : Z) :
  let row := dict_row fieldnames fields in
  let oid_raw := strip (get_or_empty row "organism_id") in
  occurs_in (str_of_int i) (record_error fieldnames fields i) /\
  (is_empty (strip (get_or_empty row "organism_scientific_name")) = false ->
   is_empty oid_raw = false ->
   occurs_in oid_raw (record_error fieldnames fields i)).
Proof.
  cbv zeta. unfold record_error. split.
  - destruct (_ || _); apply occurs_in_second.
  - intros -> ->. cbn [orb]. apply occurs_in_fourth.
Qed.

Lemma run_csv_header `{Library} `{Services} (fieldnames : list string)
  (records : list (list string)) (source_ids : option (list string))
  (st : State) :
  missing_columns fieldnames = [] ->
  run_csv (fieldnames :: records) source_ids st =
  match read_organisms fieldnames records 2 [] with
  | inl e => (inl e, st)
  | inr organisms =>
      write_organisms organisms source_ids
                      (mkState (world st) (calls st) (Some []))
  end.
Proof.
  intros Hcols. unfold run_csv. rewrite Hcols. unfold bind, lift, open_output.
  destruct (read_organisms fieldnames records 2 []); reflexivity.
Qed.

(** C9 (as amended). [run_csv] checks the whole input before it opens
    the output file and before any adapter is invoked: in each case below
    it raises a [ValueError] and leaves the state as it was.  Without a
    header there is an error.  If a required column is missing, the
    error names the missing columns and the columns found; it carries no
    line number.  If the columns are there and some record has an empty
    name, an empty id or an id that is not an integer, there is an
    error; when that record is the first such record and no blank line
    comes before it, the error carries its 1-based line number, and for
    an id that is not an integer, the text of the id. *)
Theorem C9_input_validation `{Library} `{Services} (fieldnames : list string)
  (records : list (list string)) (source_ids : option (list string))
  (st : State) :
  run_csv [] source_ids st = (inl (ValueError "Input CSV has no header row."), st)
  /\
  (~ In "organism_id" fieldnames \/ ~ In "organism_scientific_name" fieldnames ->
   exists msg,
     run_csv (fieldnames :: records) source_ids st = (inl (ValueError msg), st) /\
     msg = ("Input CSV missing required columns: " ++
            join ", " (missing_columns fieldnames) ++
            ". Found columns: " ++ join ", " fieldnames)%string /\
     (forall c, In c ["organism_id"; "organism_scientific_name"] ->
                ~ In c fieldnames -> occurs_in c msg)) /\
  (In "organism_id" fieldnames -> In "organism_scientific_name" fieldnames ->
   (Exists (fun r => record_refused fieldnames r = true) records ->
    exists msg,
      run_csv (fieldnames :: records) source_ids st = (inl (ValueError msg), st))
   /\
   (forall before bad after,
      records = before ++ bad :: after ->
      Forall (fun r => record_accepted fieldnames r = true) before ->
      record_refused fieldnames bad = true ->
      let line := (Z.of_nat (List.length before) + 2)%Z in
      let msg := record_error fieldnames bad line in
      let row := dict_row fieldnames bad in
      let oid_raw := strip (get_or_empty row "organism_id") in
      nth_error (fieldnames :: records) (Z.to_nat line - 1) = Some bad /\
      run_csv (fieldnames :: records) source_ids st = (inl (ValueError msg), st) /\
      occurs_in (str_of_int line) msg /\
      (is_empty (strip (get_or_empty row "organism_scientific_name")) = false ->
       is_empty oid_raw = false -> occurs_in oid_raw msg))).
Proof.
  split; [ reflexivity | split ].
  - intros Hmissing.
    assert (Hne : missing_columns fieldnames <> []).
    { intros Hnone. apply missing_columns_none in Hnone. tauto. }
    eexists. split; [ | split; [ reflexivity | ] ].
    + unfold run_csv.
      destruct (missing_columns fieldnames); [ congruence | reflexivity ].
    + intros c Hc Hnot.
      apply occurs_in_suffix, occurs_in_prefix, join_occurs.
      apply filter_In. split; [ exact Hc | ].
      now rewrite (proj2 (existsb_eqb_not_In c fieldnames) Hnot).
  - intros Hid Hname.
    assert (Hcols : missing_columns fieldnames = [])
      by now apply missing_columns_none.
    split.
    + intros Hex. rewrite (run_csv_header _ _ _ _ Hcols).
      destruct (read_organisms_any_refused fieldnames records Hex 2%Z [])
        as [msg ->].
      now exists msg.
    + intros before bad after -> Hbefore Hbad. cbv zeta.
      split; [ | split ].
      * replace (Z.to_nat (Z.of_nat (List.length before) + 2) - 1)%nat
          with (S (List.length before)) by lia.
        cbn [nth_error]. rewrite nth_error_app2 by lia.
        now rewrite Nat.sub_diag.
      * rewrite (run_csv_header _ _ _ _ Hcols).
        rewrite (read_organisms_refused fieldnames before bad after Hbefore Hbad).
        now rewrite Z.add_comm.
      * apply record_error_reports.
Qed.

(** Runs of C9 on the example deployment: a header without
    [organism_id], and a file whose third line has the id "abc". *)
Lemma C9_input_validation_witness :
  (exists msg,
     @run_csv Example.library Example.services
       [["organism_scientific_name"]; ["Chlorella vulgaris"]] None Example.start
     = (inl (ValueError msg), Example.start) /\
     occurs_in "organism_id" msg) /\
  @run_csv Example.library Example.services
    [["organism_scientific_name"; "organism_id"];
     ["Chlorella vulgaris"; "3077"];
     ["Escherichia coli"; "abc"]] None Example.start
  = (inl (ValueError
            "Input CSV row 3 organism_id must be an integer taxonomy id, got: abc"),
     Example.start).
Proof.
  split.
  - destruct (proj1 (proj2 (@C9_input_validation Example.library Example.services
                              ["organism_scientific_name"]
                              [["Chlorella vulgaris"]] None Example.start)))
      as [msg [Hrun [_ Hnames]]].
    { left. simpl. intros [E | []]. discriminate. }
    exists msg. split; [ exact Hrun | ].
    apply Hnames; [ simpl; auto | simpl; intros [E | []]; discriminate ].
  - destruct (proj2 (proj2 (@C9_input_validation Example.library Example.services
                              ["organism_scientific_name"; "organism_id"]
                              [["Chlorella vulgaris"; "3077"];
                               ["Escherichia coli"; "abc"]]
                              None Example.start)))
      as [_ Hline]; [ simpl; auto | simpl; auto | ].
    destruct (Hline [["Chlorella vulgaris"; "3077"]]
                    ["Escherichia coli"; "abc"] []) as [_ [Hrun _]].
    + reflexivity.
    + constructor; [ reflexivity | constructor ].
    + reflexivity.
    + exact Hrun.
Defined.

(** C9 as stated fails in two ways.  The error for a missing column has
    no digit in it, hence no line number.  And in a file whose second
    line is blank and whose third line has the id "abc", the error says
    row 2. *)
Lemma C9_counterexample :
  (exists msg,
     @run_csv Example.library Example.services
       [["organism_scientific_name"]] None Example.start
     = (inl (ValueError msg), Example.start) /\
     has_digit msg = false) /\
  (let input := [["organism_scientific_name"; "organism_id"]; [];
                 ["Chlorella vulgaris"; "abc"]] in
   nth_error input (3 - 1) = Some ["Chlorella vulgaris"; "abc"] /\
   @run_csv Example.library Example.services input None Example.start
   = (inl (ValueError
             "Input CSV row 2 organism_id must be an integer taxonomy id, got: abc"),
      Example.start)).
Proof.
  split.
  - eexists. split; [ vm_compute; reflexivity | reflexivity ].
  - split; reflexivity.
Qed.

(** * Further properties of the code *)

(** ** The retry loop, in general *)

Section RetryBound.

Context `{Library}.
Variables W A : Type.
Variable backoff : Q -> Q -> Z -> W -> W.
Variable policy : Retry.Policy.
Variable fn : W -> (Exn + A) * W.
Variable w : W.
Hypothesis reraises : Retry.reraise policy = true.

(** From attempt [n + 1] on, the loop stops at some attempt [k] with the
    outcome of that attempt. *)
Lemma attempts_outcome (fuel : nat) :
  forall n,
    (Z.to_nat (Retry.stop_after_attempt policy - (Z.of_nat n + 1)) < fuel)%nat ->
    (forall i, (i < n)%nat ->
               fails_retryably policy fn
                 (Retry.world_before W A backoff policy fn w i)) ->
    exists k,
      (n < k)%nat /\
      (Z.of_nat k <= Z.max (Z.of_nat n + 1) (Retry.stop_after_attempt policy))%Z /\
      Retry.attempts W A backoff fuel policy fn (Z.of_nat n + 1) n
                     (Retry.world_before W A backoff policy fn w n) =
      Some (fn (Retry.world_before W A backoff policy fn w (k - 1)%nat), k) /\
      (forall i, (i < k - 1)%nat ->
                 fails_retryably policy fn
                   (Retry.world_before W A backoff policy fn w i)).
Proof.
  induction fuel as [ | fuel IH ]; intros n Hfuel Hfail; [ lia | ].
  cbn [Retry.attempts].
  set (wn := Retry.world_before W A backoff policy fn w n) in *.
  assert (Hhere : forall outcome w1,
             fn wn = (outcome, w1) ->
             exists k,
               (n < k)%nat /\
               (Z.of_nat k <=
                Z.max (Z.of_nat n + 1) (Retry.stop_after_attempt policy))%Z /\
               Some (outcome, w1, S n) =
               Some (fn (Retry.world_before W A backoff policy fn w (k - 1)%nat), k)
               /\
               (forall i, (i < k - 1)%nat ->
                          fails_retryably policy fn
                            (Retry.world_before W A backoff policy fn w i))).
  { intros outcome w1 Hfn. exists (S n).
    replace (S n - 1)%nat with n by lia. fold wn. rewrite Hfn.
    repeat split; [ lia | lia | exact Hfail ]. }
  destruct (fn wn) as [[e | result] w1] eqn:Hfn; [ | now apply Hhere ].
  destruct (Retry.isinstance e (Retry.retry_if_exception_type policy)) eqn:Hretry;
    cbn [negb]; [ | now apply Hhere ].
  destruct (Z.geb_spec (Z.of_nat n + 1) (Retry.stop_after_attempt policy))
    as [Hge | Hlt].
  { rewrite reraises. now apply Hhere. }
  assert (Hnext : Retry.world_before W A backoff policy fn w (S n) =
                  backoff (Retry.wait_min policy) (Retry.wait_max policy)
                          (Z.of_nat n + 1) w1).
  { cbn [Retry.world_before]. fold wn. rewrite Hfn. cbn [snd]. f_equal. lia. }
  rewrite <- Hnext.
  replace (Z.of_nat n + 1 + 1)%Z with (Z.of_nat (S n) + 1)%Z by lia.
  destruct (IH (S n)) as [k [Hk1 [Hk2 [Hrun Hfails]]]].
  - lia.
  - intros i Hi. destruct (Nat.eq_dec i n) as [-> | Hne].
    + exists e. fold wn. rewrite Hfn. auto.
    + apply Hfail. lia.
  - exists k. repeat split; [ lia | lia | exact Hrun | exact Hfails ].
Qed.

End RetryBound.

(** X1. Whatever the decorated function does, a call under a policy made
    by [retry_with_backoff] invokes it at least once and at most
    [max 1 max_attempts] times, and what the call returns or raises is
    what the last invocation returned or raised, itself; every earlier
    invocation raised a retryable exception. *)
Theorem X1_retry_is_bounded `{Library} (W A : Type)
  (backoff : Q -> Q -> Z -> W -> W) (max_attempts : Z) (min_wait max_wait : Q)
  (retry_on : list string) (fn : W -> (Exn + A) * W) (w : W) :
  let policy := Retry.retry_with_backoff max_attempts min_wait max_wait retry_on in
  let before := Retry.world_before W A backoff policy fn w in
  exists k,
    (1 <= k)%nat /\ (Z.of_nat k <= Z.max 1 max_attempts)%Z /\
    Retry.call W A backoff policy fn w = Some (fn (before (k - 1)%nat), k) /\
    forall i, (i < k - 1)%nat -> fails_retryably policy fn (before i).
Proof.
  intros policy before.
  destruct (attempts_outcome W A backoff policy fn w eq_refl
              (S (Z.to_nat (Retry.stop_after_attempt policy))) 0%nat)
    as [k [Hk1 [Hk2 [Hrun Hfails]]]].
  - simpl. lia.
  - intros i Hi. lia.
  - exists k. repeat split; [ lia | simpl in Hk2; lia | exact Hrun | exact Hfails ].
Qed.

(** ** What validation looks at and what it guarantees *)

Ltac split_validation H :=
  repeat match type of H with
         | context [ match ?r with inl _ => _ | inr _ => _ end ] =>
             let E := fresh "Efield" in
             destruct r eqn:E; try discriminate H
         end.

Lemma required_str_inr (v : option Yaml) (txt : string) :
  required_str v = inr txt -> v = Some (YStr txt).
Proof.
  unfold required_str.
  destruct v as [ [ | | | | | | ] | ]; try discriminate.
  now intros [= ->].
Qed.

Lemma required_str_min_length_1_inr (v : option Yaml) (txt : string) :
  required_str_min_length_1 v = inr txt -> v = Some (YStr txt) /\ txt <> "".
Proof.
  unfold required_str_min_length_1.
  destruct (required_str v) as [ | txt' ] eqn:E; [ discriminate | ].
  destruct (String.length txt' <? 1)%nat eqn:Hlen; [ discriminate | ].
  intros [= <-]. split; [ now apply required_str_inr | ].
  intros ->. discriminate Hlen.
Qed.

Lemma model_validate_inr `{Library} (f : Yaml) (fm : FeatureMetadata) :
  model_validate f = inr fm ->
  exists d,
    f = YMap d /\
    dict_get "feature_id" d = Some (YStr (feature_id fm)) /\
    dict_get "source_id" d = Some (YStr (source_id fm)) /\
    dict_get "display_name" d = Some (YStr (display_name fm)) /\
    dict_get "category" d = Some (YStr (category fm)) /\
    dict_get "description" d = Some (YStr (description fm)) /\
    description fm <> "".
Proof.
  intros Hok. unfold model_validate in Hok.
  destruct f as [ | | | | | | d ]; try discriminate Hok.
  cbv zeta in Hok. split_validation Hok.
  injection Hok as <-.
  cbn [feature_id source_id display_name category description].
  repeat match goal with
         | E : required_str _ = inr _ |- _ => apply required_str_inr in E
         | E : required_str_min_length_1 _ = inr _ |- _ =>
             apply required_str_min_length_1_inr in E; destruct E
         end.
  exists d. repeat split; assumption.
Qed.

(** X3. An entry that passes [model_validate] is a mapping; the five
    required fields of the result are the strings the entry holds under
    their names, and the description is not empty.  Hence every entry of
    a loaded catalog has a description. *)
Theorem X3_validated_entries_are_described `{Library} :
  (forall f fm,
     model_validate f = inr fm ->
     exists d,
       f = YMap d /\
       dict_get "feature_id" d = Some (YStr (feature_id fm)) /\
       dict_get "source_id" d = Some (YStr (source_id fm)) /\
       dict_get "display_name" d = Some (YStr (display_name fm)) /\
       dict_get "category" d = Some (YStr (category fm)) /\
       dict_get "description" d = Some (YStr (description fm)) /\
       description fm <> "") /\
  (forall data catalog,
     get_all_feature_metadata_of data = inr catalog ->
     Forall (fun fm => description fm <> "") catalog).
Proof.
  split; [ intros f fm; apply model_validate_inr | ].
  intros data catalog Hload. unfold get_all_feature_metadata_of in Hload.
  destruct data as [ | | | | | | items ]; try discriminate Hload.
  destruct (iterate _) as [e | fs]; [ discriminate | ].
  apply sequence_sum_inr in Hload.
  apply Forall_forall. intros fm Hin.
  assert (Hfm : In (inr fm) (map model_validate fs)).
  { rewrite Hload. now apply in_map. }
  apply in_map_iff in Hfm. destruct Hfm as [f [Hf _]].
  destruct (model_validate_inr f fm Hf) as [d [_ [_ [_ [_ [_ [_ Hdesc]]]]]]].
  exact Hdesc.
Qed.

(** X3 on the example deployment: the catalog loads, and each of its
    entries has a description. *)
Lemma X3_validated_entries_are_described_witness :
  Forall (fun fm => description fm <> "")
         (@loaded_catalog Example.library Example.services).
Proof.
  refine (proj2 (@X3_validated_entries_are_described Example.library)
                Example.catalog_yaml
                (@loaded_catalog Example.library Example.services) _).
  reflexivity.
Defined.

(** X4. [model_validate] looks at the ten declared fields and at nothing
    else: two entries that agree on them are validated alike, so keys
    that are not fields change neither the verdict nor the result. *)
Theorem X4_undeclared_keys_are_ignored `{Library} (d d' : list (string * Yaml)) :
  (forall k, In k declared_fields -> dict_get k d = dict_get k d') ->
  model_validate (YMap d) = model_validate (YMap d').
Proof.
  intros Hsame. unfold model_validate.
  rewrite !(Hsame _) by (unfold declared_fields; simpl; auto 11).
  reflexivity.
Qed.

(** X4 on an entry of the example catalog with a comment field added in
    front. *)
Lemma X4_undeclared_keys_are_ignored_witness :
  @model_validate Example.library
    (YMap (("comment", YStr "to be reviewed") ::
           [("feature_id", YStr "pubmed_count"); ("source_id", YStr "ncbi");
            ("display_name", YStr "PubMed"); ("category", YStr "resources");
            ("description", YStr "PubMed hits")])) =
  @model_validate Example.library
    (YMap [("feature_id", YStr "pubmed_count"); ("source_id", YStr "ncbi");
           ("display_name", YStr "PubMed"); ("category", YStr "resources");
           ("description", YStr "PubMed hits")]).
Proof.
  apply (@X4_undeclared_keys_are_ignored Example.library).
  intros k Hk. unfold declared_fields in Hk. simpl in Hk.
  repeat (destruct Hk as [<- | Hk]; [ reflexivity | ]).
  contradiction.
Defined.

(** ** How a fetch fails *)

(** X5. A call of [fetch_features_for_organism] that raises has failed
    in one of three ways: the selection of the sources raised, or the
    catalog did not load, both before any adapter was invoked and with
    the state as it was; or an adapter raised, and then the exception
    is that adapter's own, the adapters of the planned entries before it
    were invoked in order and returned, and no adapter was invoked after
    it. *)
Theorem X5_fetch_fails_fast `{Library} `{Services} (organism_id : Z)
  (name : string) (source_ids : option (list string)) (st : State) (e : Exn)
  (st' : State) :
  fetch_features_for_organism organism_id name source_ids st = (inl e, st') ->
  (_get_sources_to_process source_ids = inl e /\ st' = st) \/
  (get_all_feature_metadata = inl e /\ st' = st) \/
  (exists done fm rest results,
     plan loaded_catalog (processing_order source_ids) = done ++ fm :: rest /\
     List.length results = List.length done /\
     calls st' = calls st ++
                 map (call_for organism_id name) (combine done results) ++
                 [mkCall organism_id name fm (inl e)] /\
     output_csv st' = output_csv st).
Proof.
  unfold fetch_features_for_organism, bind, lift.
  destruct (_get_sources_to_process source_ids) as [e0 | srcs] eqn:Hsel.
  - intros [= <- <-]. left. auto.
  - apply get_sources_keys in Hsel. destruct Hsel as [_ <-].
    intros Hrun. right. now apply fetch_sources_err in Hrun.
Qed.

(** X5 on the deployment with the outage, all sources requested: the
    fetch raises the error of the NCBI adapter after three calls (one
    for protocols_io, two for ncbi), and it is the third case that
    holds. *)
Lemma X5_fetch_fails_fast_witness :
  let run := @fetch_features_for_organism Example.library Outage.services
               3077%Z "Chlorella vulgaris" None Outage.start in
  let e := mkExn "HTTPError" "503 Server Error" in
  fst run = inl e /\
  List.length (calls (snd run)) = 3%nat /\
  ((@_get_sources_to_process Outage.services None = inl e /\
    snd run = Outage.start) \/
   (@get_all_feature_metadata Example.library Outage.services = inl e /\
    snd run = Outage.start) \/
   (exists done fm rest results,
      plan (@loaded_catalog Example.library Outage.services)
           (@processing_order Outage.services None) = done ++ fm :: rest /\
      List.length results = List.length done /\
      calls (snd run) =
      calls Outage.start ++
      map (call_for 3077%Z "Chlorella vulgaris") (combine done results) ++
      [mkCall 3077%Z "Chlorella vulgaris" fm (inl e)] /\
      output_csv (snd run) = output_csv Outage.start)).
Proof.
  intros run e. split; [ reflexivity | split; [ reflexivity | ] ].
  apply (@X5_fetch_fails_fast Example.library Outage.services
           3077%Z "Chlorella vulgaris" None Outage.start e (snd run)).
  reflexivity.
Defined.

(** X6. When the catalog file does not load, every fetch that selects at
    least one source raises the error of the load and invokes no
    adapter; the state is as it was. *)
Theorem X6_unloadable_catalog_stops_fetch `{Library} `{Services}
  (organism_id : Z) (name : string) (source_ids : option (list string))
  (st : State) (e : Exn) (src : string * SourceConfig)
  (srcs : list (string * SourceConfig)) :
  get_all_feature_metadata = inl e ->
  _get_sources_to_process source_ids = inr (src :: srcs) ->
  fetch_features_for_organism organism_id name source_ids st = (inl e, st).
Proof.
  intros Hload Hsel.
  unfold fetch_features_for_organism, bind, lift. rewrite Hsel.
  destruct src as [sid config]. rewrite fetch_sources_cons.
  unfold get_feature_metadata_by_source, get_feature_metadata_by_source_of.
  unfold get_all_feature_metadata in Hload. now rewrite Hload.
Qed.

(** X6 on the example deployment with the catalog that lacks a
    description. *)
Lemma X6_unloadable_catalog_stops_fetch_witness :
  exists e,
    @fetch_features_for_organism Example.library Outage.unloadable
      3077%Z "Chlorella vulgaris" (Some ["ncbi"])
      (mkState (0%nat : @World Outage.unloadable) [] None)
    = (inl e, mkState (0%nat : @World Outage.unloadable) [] None) /\
    exn_class e = "ValidationError".
Proof.
  eexists. split.
  - eapply (@X6_unloadable_catalog_stops_fetch Example.library Outage.unloadable);
      reflexivity.
  - reflexivity.
Defined.

(** ** Which catalog entries a fetch covers *)

Lemma filter_none {A : Type} (l : list A) : filter (fun _ => false) l = [].
Proof. induction l; simpl; auto. Qed.

Lemma filter_or_permutation {A : Type} (p q : A -> bool) (l : list A) :
  (forall x, p x && q x = false) ->
  Permutation (filter (fun x => p x || q x) l) (filter p l ++ filter q l).
Proof.
  intros Hdisjoint. induction l as [ | x l IH ]; simpl; [ constructor | ].
  specialize (Hdisjoint x).
  destruct (p x), (q x); simpl in *; try discriminate.
  - now constructor.
  - now apply Permutation_cons_app.
  - exact IH.
Qed.

(** The plan over distinct sources holds the catalog entries of those
    sources, each once. *)
Lemma plan_permutation (catalog : list FeatureMetadata) (order : list string) :
  NoDup order ->
  Permutation (plan catalog order)
              (filter (fun f => existsb (String.eqb (source_id f)) order) catalog).
Proof.
  induction 1 as [ | sid rest Hfresh _ IH ]; unfold plan in *; simpl.
  - rewrite filter_none. constructor.
  - rewrite (filter_or_permutation
               (fun f => String.eqb (source_id f) sid)
               (fun f => existsb (String.eqb (source_id f)) rest)).
    + now apply Permutation_app_head.
    + intros f. destruct (String.eqb_spec (source_id f) sid) as [-> | Hne];
        [ | reflexivity ].
      simpl. now apply existsb_eqb_not_In.
Qed.

Lemma processing_order_NoDup `{Services} (source_ids : option (list string)) :
  NoDup (processing_order source_ids).
Proof.
  destruct source_ids; simpl;
    [ apply first_occurrences_NoDup | apply registry_keys_NoDup ].
Qed.

Lemma rows_key3 (organism_id : Z) (fms : list FeatureMetadata)
  (results : list PyVal) :
  List.length results = List.length fms ->
  map row_key (map (row_for organism_id) (combine fms results)) =
  map (fun f => (organism_id, source_id f, feature_id f)) fms.
Proof.
  intros Hlen. rewrite map_map. unfold row_key, row_for. simpl.
  apply (map_combine_fst (fun f => (organism_id, source_id f, feature_id f))
                         fms results Hlen).
Qed.

(** X7. The rows of a returning fetch are, up to their order, the
    catalog entries of the visited sources, each exactly once, all with
    the organism id of the request.  When [source_ids] is omitted these
    are the entries whose source has an adapter: an entry of the catalog
    that names no registered source is never fetched. *)
Theorem X7_fetch_covers_the_catalog `{Library} `{Services} (organism_id : Z)
  (name : string) (source_ids : option (list string)) (st : State)
  (rows : list FeatureRow) (st' : State) :
  fetch_features_for_organism organism_id name source_ids st = (inr rows, st') ->
  Permutation
    (map row_key rows)
    (map (fun f => (organism_id, source_id f, feature_id f))
         (filter (fun f => existsb (String.eqb (source_id f))
                                   (processing_order source_ids))
                 loaded_catalog)) /\
  (source_ids = None ->
   Permutation
     (map row_key rows)
     (map (fun f => (organism_id, source_id f, feature_id f))
          (filter has_adapter loaded_catalog))).
Proof.
  intros Hrun. apply fetch_ok in Hrun.
  destruct Hrun as [results [Hlen [-> _]]]. cbn zeta in Hlen.
  rewrite rows_key3 by exact Hlen.
  assert (Hperm : Permutation
                    (map (fun f => (organism_id, source_id f, feature_id f))
                         (plan loaded_catalog (processing_order source_ids)))
                    (map (fun f => (organism_id, source_id f, feature_id f))
                         (filter (fun f => existsb (String.eqb (source_id f))
                                                   (processing_order source_ids))
                                 loaded_catalog))).
  { apply Permutation_map, plan_permutation, processing_order_NoDup. }
  split; [ exact Hperm | ].
  intros ->. rewrite Hperm.
  rewrite (filter_ext _ has_adapter); [ reflexivity | ].
  intros f. unfold has_adapter.
  destruct (dict_contains (source_id f) SOURCE_REGISTRY) eqn:E.
  - apply existsb_eqb_In. now apply dict_contains_In.
  - apply existsb_eqb_not_In. intros Hin.
    apply dict_contains_In in Hin. congruence.
Qed.

(** X7 on the deployment whose catalog has an entry for the unregistered
    source dsmz: three of the four entries are fetched. *)
Lemma X7_fetch_covers_the_catalog_witness :
  exists rows st',
    @fetch_features_for_organism Example.library Outage.recovered
      3077%Z "Chlorella vulgaris" None
      (mkState (0%nat : @World Outage.recovered) [] None) = (inr rows, st') /\
    Permutation (map row_key rows)
                [(3077%Z, "ncbi", "pubmed_count");
                 (3077%Z, "protocols_io", "protocols_count");
                 (3077%Z, "ncbi", "genome_count")].
Proof.
  eexists. eexists. split; [ vm_compute; reflexivity | ].
  exact (proj2 (@X7_fetch_covers_the_catalog Example.library Outage.recovered
                  3077%Z "Chlorella vulgaris" None
                  (mkState (0%nat : @World Outage.recovered) [] None)
                  _ _ eq_refl) eq_refl).
Defined.

(** ** The batch driver after validation *)

(** A fetch never touches the output file. *)
Lemma fetch_keeps_output `{Library} `{Services} (organism_id : Z)
  (name : string) (source_ids : option (list string)) (st : State) :
  output_csv (snd (fetch_features_for_organism organism_id name source_ids st))
  = output_csv st.
Proof.
  destruct (fetch_features_for_organism organism_id name source_ids st)
    as [[e | rows] st'] eqn:Hrun; cbn [snd].
  - unfold fetch_features_for_organism, bind, lift in Hrun.
    destruct (_get_sources_to_process source_ids) as [e0 | srcs].
    + now injection Hrun as _ <-.
    + apply fetch_sources_err in Hrun.
      destruct Hrun as [[_ ->] | [? [? [? [? [_ [_ [_ Hout]]]]]]]]; auto.
  - apply fetch_ok in Hrun. now destruct Hrun as [? [_ [_ [_ Hout]]]].
Qed.

(** Writing rows appends a line per row until [json.dumps] refuses one,
    and leaves the world and the call log alone. *)
Lemma write_rows_trace `{Library} `{Services} (rows : list FeatureRow) :
  forall st written,
    output_csv st = Some written ->
    exists out,
      output_csv (snd (write_rows rows st)) = Some (written ++ out) /\
      ((fst (write_rows rows st) = inr tt /\ map csv_key out = map row_key rows) \/
       (exists e pre r post,
          fst (write_rows rows st) = inl e /\
          rows = pre ++ r :: post /\
          json_dumps (row_fetched_object r) = inl e /\
          map csv_key out = map row_key pre)).
Proof.
  induction rows as [ | r rows IH ]; intros st written Hopen.
  - exists []. simpl. rewrite app_nil_r. auto.
  - cbn [write_rows]. unfold bind, lift.
    destruct (json_dumps (row_fetched_object r)) as [e | text] eqn:Hjson.
    + exists []. cbn [snd fst]. rewrite app_nil_r.
      split; [ exact Hopen | ]. right. exists e, [], r, rows. auto.
    + unfold writerow. cbn [fst snd]. rewrite Hopen.
      set (line := mkCsvRow (row_organism_id r) (row_feature_id r)
                            (row_source_id r) text).
      destruct (IH (mkState (world st) (calls st) (Some (written ++ [line])))
                   (written ++ [line]) eq_refl)
        as [out [Hout Hcases]].
      exists (line :: out). rewrite Hout, <- app_assoc.
      split; [ reflexivity | ].
      destruct Hcases as [[Hok Hkeys] | [e [pre [r' [post [Hfail [-> [Hr' Hkeys]]]]]]]].
      * left. split; [ exact Hok | ]. simpl. now rewrite Hkeys.
      * right. exists e, (r :: pre), r', post.
        repeat split; [ exact Hfail | exact Hr' | ]. simpl. now rewrite Hkeys.
Qed.

Lemma fetch_row_key3 `{Library} `{Services} (organism_id : Z) (name : string)
  (source_ids : option (list string)) (st : State) (rows : list FeatureRow)
  (st' : State) :
  fetch_features_for_organism organism_id name source_ids st = (inr rows, st') ->
  map row_key rows =
  map (fun f => (organism_id, source_id f, feature_id f))
      (plan loaded_catalog (processing_order source_ids)).
Proof.
  intros Hrun. apply fetch_ok in Hrun.
  destruct Hrun as [results [Hlen [-> _]]]. now apply rows_key3.
Qed.

Lemma expected_keys_cons `{Library} `{Services} (org : Organism)
  (organisms : list Organism) (source_ids : option (list string)) :
  expected_keys (org :: organisms) source_ids
  = map (fun f => (org_id org, source_id f, feature_id f))
        (plan loaded_catalog (processing_order source_ids))
    ++ expected_keys organisms source_ids.
Proof. reflexivity. Qed.

(** How the writing loop ends: the organisms before the first failing
    one are written in full; the failing one has no line when its fetch
    raised, and the lines before the refused row when [json.dumps]
    raised. *)
Lemma write_organisms_trace `{Library} `{Services} (organisms : list Organism)
  (source_ids : option (list string)) :
  forall st written,
    output_csv st = Some written ->
    exists out done rest partial,
      output_csv (snd (write_organisms organisms source_ids st))
      = Some (written ++ out) /\
      organisms = done ++ rest /\
      map csv_key out = expected_keys done source_ids ++ partial /\
      (fst (write_organisms organisms source_ids st) = inr tt ->
       rest = [] /\ partial = []) /\
      (forall e,
         fst (write_organisms organisms source_ids st) = inl e ->
         exists org later before,
           rest = org :: later /\
           ((fst (fetch_features_for_organism (org_id org)
                    (org_scientific_name org) source_ids before) = inl e /\
             partial = []) \/
            (exists rows pre r post,
               fst (fetch_features_for_organism (org_id org)
                      (org_scientific_name org) source_ids before) = inr rows /\
               rows = pre ++ r :: post /\
               json_dumps (row_fetched_object r) = inl e /\
               partial = map row_key pre))).
Proof.
  induction organisms as [ | org organisms IH ]; intros st written Hopen.
  - exists [], [], [], []. simpl. rewrite app_nil_r.
    split; [ exact Hopen | ]. split; [ reflexivity | ].
    split; [ reflexivity | ]. split; [ auto | discriminate ].
  - cbn [write_organisms]. unfold bind.
    pose proof (fetch_keeps_output (org_id org) (org_scientific_name org)
                                   source_ids st) as Hkeep.
    destruct (fetch_features_for_organism (org_id org) (org_scientific_name org)
                                          source_ids st)
      as [[e | rows] st1] eqn:Hfetch; cbn [snd] in Hkeep.
    + exists [], [], (org :: organisms), []. cbn [fst snd].
      rewrite app_nil_r, Hkeep.
      split; [ exact Hopen | ]. split; [ reflexivity | ].
      split; [ reflexivity | ]. split; [ discriminate | ].
      intros e' [= <-]. exists org, organisms, st.
      split; [ reflexivity | ]. left. rewrite Hfetch. auto.
    + pose proof (fetch_row_key3 _ _ _ _ _ _ Hfetch) as Hkeys.
      rewrite Hopen in Hkeep.
      destruct (write_rows_trace rows st1 written Hkeep) as [out1 [Hout1 Hcases]].
      destruct (write_rows rows st1) as [[e2 | []] st2]; cbn [fst snd] in *.
      * destruct Hcases as [[Hok _] | [e [pre [r [post [Hfail [Hrows [Hr Hpre]]]]]]]];
          [ discriminate Hok | ].
        injection Hfail as <-.
        exists out1, [], (org :: organisms), (map row_key pre).
        split; [ exact Hout1 | ]. split; [ reflexivity | ].
        split; [ exact Hpre | ]. split; [ discriminate | ].
        intros e' [= <-]. exists org, organisms, st.
        split; [ reflexivity | ]. right. exists rows, pre, r, post.
        rewrite Hfetch. auto.
      * destruct Hcases as [[_ Hall] | [e [? [? [? [Hfail _]]]]]];
          [ | discriminate Hfail ].
        destruct (IH st2 (written ++ out1) Hout1)
          as [out [done [rest [partial [Hout [Horgs [Hlines [Hdone Hfails]]]]]]]].
        exists (out1 ++ out), (org :: done), rest, partial.
        rewrite Hout, map_app, Hlines, Hall, Hkeys, expected_keys_cons,
                <- !app_assoc.
        split; [ reflexivity | ]. split; [ now rewrite Horgs | ].
        split; [ reflexivity | ]. split; [ exact Hdone | exact Hfails ].
Qed.

(** X8. Once the input has passed validation, the output file holds, at
    the end of the run and however the run ends, the complete lines of
    the organisms before the first one that failed, in input order, each
    with the planned entries of the visited sources in plan order; of
    the failing organism it holds nothing when its fetch raised (an
    adapter, the catalog or the selection), and the lines before the row
    that [json.dumps] refused otherwise; of the organisms after it,
    nothing.  When the run succeeds the file holds the lines of all
    organisms. *)
Theorem X8_output_is_a_prefix `{Library} `{Services} (fieldnames : list string)
  (records : list (list string)) (source_ids : option (list string))
  (st : State) (organisms : list Organism) :
  missing_columns fieldnames = [] ->
  read_organisms fieldnames records 2 [] = inr organisms ->
  let run := run_csv (fieldnames :: records) source_ids st in
  exists out done rest partial,
    output_csv (snd run) = Some out /\
    organisms = done ++ rest /\
    map csv_key out = expected_keys done source_ids ++ partial /\
    (fst run = inr tt -> rest = [] /\ partial = []) /\
    (forall e,
       fst run = inl e ->
       exists org later before,
         rest = org :: later /\
         ((fst (fetch_features_for_organism (org_id org)
                  (org_scientific_name org) source_ids before) = inl e /\
           partial = []) \/
          (exists rows pre r post,
             fst (fetch_features_for_organism (org_id org)
                    (org_scientific_name org) source_ids before) = inr rows /\
             rows = pre ++ r :: post /\
             json_dumps (row_fetched_object r) = inl e /\
             partial = map row_key pre))).
Proof.
  intros Hcols Hread. cbv zeta.
  rewrite (run_csv_header _ _ _ _ Hcols), Hread.
  exact (write_organisms_trace organisms source_ids
           (mkState (world st) (calls st) (Some [])) [] eq_refl).
Qed.

(** X8 on a deployment where protocols.io cannot be reached for the
    second of two organisms: the file holds the line of the first. *)
Lemma X8_output_is_a_prefix_witness :
  let run := @run_csv Example.library Outage.unreachable
               [["organism_scientific_name"; "organism_id"];
                ["Chlorella vulgaris"; "3077"]; ["Escherichia coli"; "562"]]
               (Some ["protocols_io"])
               (mkState (0%nat : @World Outage.unreachable) [] None) in
  fst run = inl (mkExn "ConnectionError" "Connection refused") /\
  output_csv (snd run)
  = Some [mkCsvRow 3077 "protocols_count" "protocols_io" "{}"] /\
  exists out done rest partial,
    output_csv (snd run) = Some out /\
    [mkOrganism "Chlorella vulgaris" 3077; mkOrganism "Escherichia coli" 562]
    = done ++ rest /\
    map csv_key out
    = @expected_keys Example.library Outage.unreachable done
        (Some ["protocols_io"]) ++ partial /\
    (fst run = inr tt -> rest = [] /\ partial = []).
Proof.
  intros run. split; [ reflexivity | ]. split; [ reflexivity | ].
  destruct (@X8_output_is_a_prefix Example.library Outage.unreachable
              ["organism_scientific_name"; "organism_id"]
              [["Chlorella vulgaris"; "3077"]; ["Escherichia coli"; "562"]]
              (Some ["protocols_io"])
              (mkState (0%nat : @World Outage.unreachable) [] None)
              [mkOrganism "Chlorella vulgaris" 3077;
               mkOrganism "Escherichia coli" 562]
              eq_refl eq_refl)
    as [out [done [rest [partial [Hout [Horgs [Hlines [Hdone _]]]]]]]].
  exists out, done, rest, partial. auto.
Defined.

Lemma get_sources_invalid `{Services} (ids : list string) :
  (exists sid, In sid ids /\ dict_contains sid SOURCE_REGISTRY = false) ->
  exists msg, _get_sources_to_process (Some ids) = inl (ValueError msg).
Proof.
  intros [bad [Hin Hbad]]. unfold _get_sources_to_process.
  destruct (filter (fun sid => negb (dict_contains sid SOURCE_REGISTRY)) ids)
    as [ | x rest ] eqn:E; [ | eexists; reflexivity ].
  assert (Hbad' : In bad []).
  { rewrite <- E. apply filter_In. split; [ exact Hin | now rewrite Hbad ]. }
  contradiction.
Qed.

(** X9. [run_csv] notices an unknown source id only when it fetches the
    first organism, after it has opened the output file: with at least
    one organism the run raises the [ValueError] of the selection and
    leaves an output file that holds the header and no row; with no
    organism in the input the run succeeds, and the unknown id goes
    unnoticed.  No adapter is invoked in either case. *)
Theorem X9_unknown_source_id_is_noticed_late `{Library} `{Services}
  (fieldnames : list string) (records : list (list string))
  (ids : list string) (st : State) (organisms : list Organism) :
  missing_columns fieldnames = [] ->
  read_organisms fieldnames records 2 [] = inr organisms ->
  (exists sid, In sid ids /\ dict_contains sid SOURCE_REGISTRY = false) ->
  (organisms = [] ->
   run_csv (fieldnames :: records) (Some ids) st =
   (inr tt, mkState (world st) (calls st) (Some []))) /\
  (organisms <> [] ->
   exists msg,
     _get_sources_to_process (Some ids) = inl (ValueError msg) /\
     run_csv (fieldnames :: records) (Some ids) st =
     (inl (ValueError msg), mkState (world st) (calls st) (Some []))).
Proof.
  intros Hcols Hread Hbad.
  rewrite (run_csv_header _ _ _ _ Hcols), Hread. split.
  - intros ->. reflexivity.
  - intros Hsome. destruct organisms as [ | org rest ]; [ congruence | ].
    destruct (get_sources_invalid ids Hbad) as [msg Hsel].
    exists msg. split; [ exact Hsel | ].
    cbn [write_organisms]. unfold bind at 1.
    unfold fetch_features_for_organism, bind, lift. now rewrite Hsel.
Qed.

(** X9 on the example deployment with the source id "pubmed": a file
    with one organism, and a file with the header only. *)
Lemma X9_unknown_source_id_is_noticed_late_witness :
  (exists msg,
     @run_csv Example.library Example.services
       [["organism_scientific_name"; "organism_id"];
        ["Chlorella vulgaris"; "3077"]] (Some ["pubmed"]) Example.start
     = (inl (ValueError msg), mkState (0%nat : @World Example.services) [] (Some [])))
  /\
  @run_csv Example.library Example.services
    [["organism_scientific_name"; "organism_id"]] (Some ["pubmed"]) Example.start
  = (inr tt, mkState (0%nat : @World Example.services) [] (Some [])).
Proof.
  split.
  - destruct (proj2 (@X9_unknown_source_id_is_noticed_late
                       Example.library Example.services
                       ["organism_scientific_name"; "organism_id"]
                       [["Chlorella vulgaris"; "3077"]] ["pubmed"] Example.start
                       [mkOrganism "Chlorella vulgaris" 3077]
                       eq_refl eq_refl
                       (ex_intro _ "pubmed" (conj (or_introl eq_refl) eq_refl))))
      as [msg [_ Hrun]]; [ discriminate | ].
    now exists msg.
  - exact (proj1 (@X9_unknown_source_id_is_noticed_late
                    Example.library Example.services
                    ["organism_scientific_name"; "organism_id"]
                    [] ["pubmed"] Example.start []
                    eq_refl eq_refl
                    (ex_intro _ "pubmed" (conj (or_introl eq_refl) eq_refl)))
                 eq_refl).
Defined.

(** The input loop accepts what it does not refuse. *)
Lemma read_organisms_accepts `{Library} (fieldnames : list string)
  (records : list (list string)) :
  Forall (fun r => record_refused fieldnames r = false) records ->
  forall i acc,
    exists organisms,
      read_organisms fieldnames records i acc = inr (acc ++ organisms) /\
      Forall2
        (fun fields org =>
           let row := dict_row fieldnames fields in
           org_scientific_name org =
           strip (get_or_empty row "organism_scientific_name") /\
           org_scientific_name org <> "" /\
           py_int (strip (get_or_empty row "organism_id")) = Some (org_id org))
        (filter nonblank records) organisms.
Proof.
  induction 1 as [ | r records Hr _ IH ]; intros i acc.
  - exists []. simpl. rewrite app_nil_r. split; [ reflexivity | constructor ].
  - destruct r as [ | v vs ].
    + cbn [read_organisms filter nonblank]. apply IH.
    + cbn [read_organisms filter nonblank].
      unfold record_refused in Hr.
      set (row := dict_row fieldnames (v :: vs)) in *.
      destruct (is_empty (strip (get_or_empty row "organism_scientific_name")))
        eqn:Hname; [ discriminate | ].
      destruct (is_empty (strip (get_or_empty row "organism_id")));
        [ discriminate | ].
      cbn [orb] in *.
      destruct (py_int (strip (get_or_empty row "organism_id"))) as [oid | ]
        eqn:Hoid; [ | discriminate ].
      destruct (IH (i + 1)%Z
                   (acc ++ [mkOrganism
                              (strip (get_or_empty row "organism_scientific_name"))
                              oid]))
        as [organisms [Hrun Hall]].
      exists (mkOrganism (strip (get_or_empty row "organism_scientific_name")) oid
              :: organisms).
      rewrite Hrun, <- app_assoc. split; [ reflexivity | ].
      constructor; [ | exact Hall ].
      cbv zeta. fold row. cbn [org_scientific_name org_id].
      repeat split; [ | exact Hoid ].
      intros Hempty. now rewrite Hempty in Hname.
Qed.

Lemma refused_or_not `{Library} (fieldnames : list string)
  (records : list (list string)) :
  Forall (fun r => record_refused fieldnames r = false) records \/
  Exists (fun r => record_refused fieldnames r = true) records.
Proof.
  induction records as [ | r records [IH | IH] ].
  - left. constructor.
  - destruct (record_refused fieldnames r) eqn:E.
    + right. now constructor.
    + left. now constructor.
  - right. now apply Exists_cons_tl.
Qed.

(** X10. The input loop returns organisms exactly when it refuses no
    record, and then it returns one organism per non-blank record, in
    input order, whose name is the stripped name field, not empty, and
    whose id is the integer value of the stripped id field. *)
Theorem X10_accepted_input_becomes_organisms `{Library}
  (fieldnames : list string) (records : list (list string)) :
  ((exists organisms, read_organisms fieldnames records 2 [] = inr organisms) <->
   Forall (fun r => record_refused fieldnames r = false) records) /\
  (forall organisms,
     read_organisms fieldnames records 2 [] = inr organisms ->
     Forall2
       (fun fields org =>
          let row := dict_row fieldnames fields in
          org_scientific_name org =
          strip (get_or_empty row "organism_scientific_name") /\
          org_scientific_name org <> "" /\
          py_int (strip (get_or_empty row "organism_id")) = Some (org_id org))
       (filter nonblank records) organisms).
Proof.
  assert (Hback : forall organisms,
             read_organisms fieldnames records 2 [] = inr organisms ->
             Forall (fun r => record_refused fieldnames r = false) records).
  { intros organisms Hread.
    destruct (refused_or_not fieldnames records) as [Hall | Hex];
      [ exact Hall | ].
    destruct (read_organisms_any_refused fieldnames records Hex 2%Z [])
      as [msg Hfail]. congruence. }
  split; [ split | ].
  - intros [organisms Hread]. now apply (Hback organisms).
  - intros Hall.
    destruct (read_organisms_accepts fieldnames records Hall 2%Z [])
      as [organisms [Hread _]].
    now exists organisms.
  - intros organisms Hread.
    destruct (read_organisms_accepts fieldnames records
                (Hback organisms Hread) 2%Z [])
      as [organisms' [Hread' Hall]].
    rewrite Hread in Hread'. injection Hread' as ->. exact Hall.
Qed.

(** X10 on an input with a blank line and padded fields. *)
Lemma X10_accepted_input_becomes_organisms_witness :
  @read_organisms Example.library ["organism_scientific_name"; "organism_id"]
    [[" Chlorella vulgaris"; "3077 "]; []; ["Escherichia coli"; "562"]] 2 []
  = inr [mkOrganism "Chlorella vulgaris" 3077; mkOrganism "Escherichia coli" 562]
  /\
  Forall (fun r => @record_refused Example.library
                     ["organism_scientific_name"; "organism_id"] r = false)
         [[" Chlorella vulgaris"; "3077 "]; []; ["Escherichia coli"; "562"]].
Proof.
  split; [ reflexivity | ].
  apply (proj1 (proj1 (@X10_accepted_input_becomes_organisms Example.library
                         ["organism_scientific_name"; "organism_id"]
                         [[" Chlorella vulgaris"; "3077 "]; [];
                          ["Escherichia coli"; "562"]]))).
  eexists. reflexivity.
Defined.

(** ** The concurrency limiter *)

Lemma limiter_run_invariant (events : list ConcurrencyLimiter.Event) :
  forall self open self',
    ConcurrencyLimiter.scoped open events = true ->
    ConcurrencyLimiter.run self events = Some self' ->
    (0 <= ConcurrencyLimiter._semaphore self)%Z ->
    (ConcurrencyLimiter._semaphore self' +
     ConcurrencyLimiter.holders (Z.of_nat open) events =
     ConcurrencyLimiter._semaphore self + Z.of_nat open)%Z /\
    (0 <= ConcurrencyLimiter.holders (Z.of_nat open) events)%Z /\
    (0 <= ConcurrencyLimiter._semaphore self')%Z.
Proof.
  induction events as [ | [ | ] events IH ]; intros self open self' Hscoped Hrun Hpos.
  - injection Hrun as <-. simpl. lia.
  - cbn [ConcurrencyLimiter.run] in Hrun.
    unfold ConcurrencyLimiter.__enter__ in Hrun.
    destruct (Z.ltb_spec 0 (ConcurrencyLimiter._semaphore self)) as [Hfree | Hfull];
      [ | discriminate ].
    apply (IH _ (S open)) in Hrun; [ | exact Hscoped | simpl; lia ].
    cbn [ConcurrencyLimiter.holders ConcurrencyLimiter._semaphore] in *.
    replace (Z.of_nat open + 1)%Z with (Z.of_nat (S open)) by lia. lia.
  - cbn [ConcurrencyLimiter.run ConcurrencyLimiter.scoped] in *.
    destruct open as [ | open ]; [ discriminate | ].
    apply (IH _ open) in Hrun;
      [ | exact Hscoped | unfold ConcurrencyLimiter.__exit__; simpl; lia ].
    cbn [ConcurrencyLimiter.holders] in *.
    unfold ConcurrencyLimiter.__exit__ in Hrun.
    cbn [ConcurrencyLimiter._semaphore] in Hrun.
    replace (Z.of_nat (S open) - 1)%Z with (Z.of_nat open) by lia. lia.
Qed.

Lemma limiter_run_prefix (pre post : list ConcurrencyLimiter.Event) :
  forall self open self',
    ConcurrencyLimiter.scoped open (pre ++ post) = true ->
    ConcurrencyLimiter.run self (pre ++ post) = Some self' ->
    ConcurrencyLimiter.scoped open pre = true /\
    exists mid, ConcurrencyLimiter.run self pre = Some mid.
Proof.
  induction pre as [ | [ | ] pre IH ]; intros self open self' Hscoped Hrun.
  - split; [ reflexivity | now exists self ].
  - cbn [app ConcurrencyLimiter.run ConcurrencyLimiter.scoped] in *.
    destruct (ConcurrencyLimiter.__enter__ self) as [held | ]; [ | discriminate ].
    now apply (IH held (S open) self').
  - cbn [app ConcurrencyLimiter.run ConcurrencyLimiter.scoped] in *.
    destruct open as [ | open ]; [ discriminate | ].
    now apply (IH _ open self').
Qed.

(** X11. A limiter is made for a positive [max_concurrent] only.  When
    it is used through [with] blocks, then at every moment of every
    schedule at most [max_concurrent] blocks are open, the counter of
    the semaphore is the number of free slots, and entering a block
    waits exactly when no slot is free. *)
Theorem X11_at_most_max_concurrent_holders (max_concurrent : Z)
  (self : ConcurrencyLimiter.t) (pre post : list ConcurrencyLimiter.Event)
  (final : ConcurrencyLimiter.t) :
  ConcurrencyLimiter.__init__ max_concurrent = inr self ->
  ConcurrencyLimiter.scoped 0 (pre ++ post) = true ->
  ConcurrencyLimiter.run self (pre ++ post) = Some final ->
  (0 < max_concurrent)%Z /\
  exists now,
    ConcurrencyLimiter.run self pre = Some now /\
    (0 <= ConcurrencyLimiter.holders 0 pre <= max_concurrent)%Z /\
    ConcurrencyLimiter._semaphore now =
    (max_concurrent - ConcurrencyLimiter.holders 0 pre)%Z /\
    (ConcurrencyLimiter.__enter__ now = None <->
     ConcurrencyLimiter.holders 0 pre = max_concurrent).
Proof.
  intros Hinit Hscoped Hrun. unfold ConcurrencyLimiter.__init__ in Hinit.
  destruct (Z.leb_spec max_concurrent 0) as [Hle | Hpos]; [ discriminate | ].
  injection Hinit as <-. split; [ exact Hpos | ].
  destruct (limiter_run_prefix pre post _ 0%nat final Hscoped Hrun)
    as [Hscoped' [now Hnow]].
  exists now. split; [ exact Hnow | ].
  destruct (limiter_run_invariant pre _ 0%nat now Hscoped' Hnow)
    as [Hsum [Hheld Hfree]]; [ simpl; lia | ].
  cbn [ConcurrencyLimiter._semaphore] in Hsum. simpl Z.of_nat in *.
  repeat split; try lia.
  - unfold ConcurrencyLimiter.__enter__.
    destruct (Z.ltb_spec 0 (ConcurrencyLimiter._semaphore now));
      [ discriminate | lia ].
  - intros Hfull. unfold ConcurrencyLimiter.__enter__.
    destruct (Z.ltb_spec 0 (ConcurrencyLimiter._semaphore now));
      [ lia | reflexivity ].
Qed.

(** X11 on a limiter of two slots: after two threads have entered, a
    third one waits; the schedule goes on with an exit. *)
Lemma X11_at_most_max_concurrent_holders_witness :
  exists now,
    ConcurrencyLimiter.run (ConcurrencyLimiter.mk 2)
      [ConcurrencyLimiter.Enter; ConcurrencyLimiter.Enter] = Some now /\
    ConcurrencyLimiter._semaphore now = (2 - 2)%Z /\
    ConcurrencyLimiter.__enter__ now = None.
Proof.
  destruct (X11_at_most_max_concurrent_holders 2 (ConcurrencyLimiter.mk 2)
              [ConcurrencyLimiter.Enter; ConcurrencyLimiter.Enter]
              [ConcurrencyLimiter.Exit] (ConcurrencyLimiter.mk 1)
              eq_refl eq_refl eq_refl)
    as [_ [now [Hnow [_ [Hfree Hwait]]]]].
  exists now. split; [ exact Hnow | split; [ exact Hfree | ] ].
  apply Hwait. reflexivity.
Defined.

(** ** The Firecrawl client gives its slot back *)

Lemma limiter_enter_exit (self held : ConcurrencyLimiter.t) :
  ConcurrencyLimiter.__enter__ self = Some held ->
  ConcurrencyLimiter.__exit__ held = self.
Proof.
  unfold ConcurrencyLimiter.__enter__, ConcurrencyLimiter.__exit__.
  destruct self as [v]. cbn [ConcurrencyLimiter._semaphore].
  destruct (0 <? v)%Z; [ | discriminate ].
  intros [= <-]. cbn [ConcurrencyLimiter._semaphore]. f_equal. lia.
Qed.

(** X12. [extract] waits exactly when the limiter has no free slot.
    When it runs, it leaves the limiter as it found it, whether it
    returns or raises, and its outcome is decided by what the Firecrawl
    call did: an exception of the call is passed on as it is; a
    response that is false or has no [data] raises
    [FirecrawlExtractionError], and so does a response whose [data] is
    [None]; otherwise the data is returned.  So what it returns is the
    data of the response and never [None]. *)
Theorem X12_extract_gives_the_slot_back (W : Type)
  (app_extract : list string -> string -> option (list (string * PyVal)) ->
                 Z -> bool -> Z -> W -> (Exn + Firecrawl.Response) * W)
  (url prompt : string) (schema : option (list (string * PyVal)))
  (timeout_ms : Z) (store_in_cache : bool) (s : Firecrawl.State W) :
  let called :=
    app_extract [url] prompt schema timeout_ms store_in_cache 5000%Z (snd s) in
  let run :=
    Firecrawl.extract W app_extract url prompt schema timeout_ms store_in_cache s in
  (run = None <-> (ConcurrencyLimiter._semaphore (fst s) <= 0)%Z) /\
  (forall outcome s',
     run = Some (outcome, s') ->
     fst s' = fst s /\ snd s' = snd called /\
     (forall e, fst called = inl e -> outcome = inl e) /\
     (fst called = inr Firecrawl.Falsy \/ fst called = inr Firecrawl.Bare ->
      outcome = inl (Firecrawl.FirecrawlExtractionError
                       "Firecrawl extract returned no data")) /\
     (fst called = inr (Firecrawl.Carrying VNone) ->
      outcome = inl (Firecrawl.FirecrawlExtractionError
                       "Firecrawl extract returned data=None")) /\
     (forall data,
        fst called = inr (Firecrawl.Carrying data) -> data <> VNone ->
        outcome = inr data) /\
     (forall data, outcome = inr data ->
                   data <> VNone /\
                   fst called = inr (Firecrawl.Carrying data))).
Proof.
  cbv zeta. unfold Firecrawl.extract. split.
  - unfold ConcurrencyLimiter.__enter__.
    destruct (Z.ltb_spec 0 (ConcurrencyLimiter._semaphore (fst s))).
    + destruct (app_extract _ _ _ _ _ _ _). split; [ discriminate | lia ].
    + split; [ lia | reflexivity ].
  - intros outcome s'.
    destruct (ConcurrencyLimiter.__enter__ (fst s)) as [held | ] eqn:Henter;
      [ | discriminate ].
    apply limiter_enter_exit in Henter. rewrite Henter.
    destruct (app_extract _ _ _ _ _ _ _) as [result w].
    intros [= <- <-]. cbn [fst snd].
    split; [ reflexivity | ]. split; [ reflexivity | ].
    split; [ intros e ->; reflexivity | ].
    split; [ intros [-> | ->]; reflexivity | ].
    split; [ intros ->; reflexivity | ].
    split.
    + intros data -> Hdata. destruct data; try reflexivity. now destruct Hdata.
    + intros data Hdata.
      destruct result as [e | [ | | [ ] ]]; try discriminate Hdata;
        injection Hdata as <-; split; try discriminate; reflexivity.
Qed.

(** X12 with a Firecrawl that answers with an object without [data], on
    a limiter with one free slot: the error is raised and the slot is
    free again. *)
Lemma X12_extract_gives_the_slot_back_witness :
  let app := fun (_ : list string) (_ : string)
                 (_ : option (list (string * PyVal))) (_ : Z) (_ : bool)
                 (_ : Z) (w : nat) =>
               (inr Firecrawl.Bare : Exn + Firecrawl.Response, S w) in
  Firecrawl.extract nat app "https://www.atcc.org/search" "Extract" None
                    100000 false (ConcurrencyLimiter.mk 1, 0%nat)
  = Some (inl (Firecrawl.FirecrawlExtractionError
                 "Firecrawl extract returned no data"),
          (ConcurrencyLimiter.mk 1, 1%nat)).
Proof.
  intros app.
  destruct (Firecrawl.extract nat app "https://www.atcc.org/search" "Extract"
                              None 100000 false (ConcurrencyLimiter.mk 1, 0%nat))
    as [[outcome s'] | ] eqn:Hrun; [ | discriminate Hrun ].
  destruct (proj2 (X12_extract_gives_the_slot_back nat app
                     "https://www.atcc.org/search" "Extract" None 100000 false
                     (ConcurrencyLimiter.mk 1, 0%nat)) outcome s' Hrun)
    as [Hslot [Hworld [_ [Hbare _]]]].
  rewrite (Hbare (or_intror eq_refl)).
  destruct s' as [limiter w]. cbn [fst snd] in Hslot, Hworld.
  now rewrite Hslot, Hworld.
Defined.

(** X13. [scrape_with_json_mode] without a schema and without a prompt
    (each [None] or empty) raises [ValueError] at once: it takes no
    slot, not even waits for one, and does not call Firecrawl.  With one
    of them it waits exactly when no slot is free, and when it runs it
    leaves the limiter as it found it and never returns [None]. *)
Theorem X13_scrape_needs_schema_or_prompt (W : Type)
  (app_scrape : string -> list (list (string * PyVal)) -> bool -> Z -> bool ->
                W -> (Exn + Firecrawl.Response) * W)
  (url : string) (schema : option (list (string * PyVal)))
  (prompt : option string) (timeout_ms : Z)
  (only_main_content store_in_cache : bool) (s : Firecrawl.State W) :
  let run :=
    Firecrawl.scrape_with_json_mode W app_scrape url schema prompt timeout_ms
                                    only_main_content store_in_cache s in
  (Firecrawl.truthy_dict schema = false -> truthy prompt = false ->
   run = Some (inl (ValueError "Either 'schema' or 'prompt' must be provided"), s))
  /\
  (Firecrawl.truthy_dict schema = true \/ truthy prompt = true ->
   (run = None <-> (ConcurrencyLimiter._semaphore (fst s) <= 0)%Z) /\
   forall outcome s',
     run = Some (outcome, s') ->
     fst s' = fst s /\ outcome <> inr VNone).
Proof.
  cbv zeta. unfold Firecrawl.scrape_with_json_mode. split.
  - intros -> ->. reflexivity.
  - intros Hgiven.
    assert (Hguard : negb (Firecrawl.truthy_dict schema) && negb (truthy prompt)
                     = false).
    { destruct Hgiven as [-> | ->]; [ reflexivity | apply andb_false_r ]. }
    rewrite Hguard. split.
    + unfold ConcurrencyLimiter.__enter__.
      destruct (Z.ltb_spec 0 (ConcurrencyLimiter._semaphore (fst s))).
      * destruct (app_scrape _ _ _ _ _ _). split; [ discriminate | lia ].
      * split; [ lia | reflexivity ].
    + intros outcome s'.
      destruct (ConcurrencyLimiter.__enter__ (fst s)) as [held | ] eqn:Henter;
        [ | discriminate ].
      apply limiter_enter_exit in Henter. rewrite Henter.
      destruct (app_scrape _ _ _ _ _ _) as [result w].
      intros [= <- <-]. cbn [fst]. split; [ reflexivity | ].
      destruct result as [e | [ | | [ ] ]]; discriminate.
Qed.

(** X13 on a limiter without a free slot: the call without schema and
    prompt raises all the same, the call with a prompt waits. *)
Lemma X13_scrape_needs_schema_or_prompt_witness :
  let app := fun (_ : string) (_ : list (list (string * PyVal))) (_ : bool)
                 (_ : Z) (_ : bool) (w : nat) =>
               (inr (Firecrawl.Carrying (VDict [])) : Exn + Firecrawl.Response,
                S w) in
  Firecrawl.scrape_with_json_mode nat app "https://www.atcc.org" (Some [])
    (Some "") 120000 false false (ConcurrencyLimiter.mk 0, 0%nat)
  = Some (inl (ValueError "Either 'schema' or 'prompt' must be provided"),
          (ConcurrencyLimiter.mk 0, 0%nat)) /\
  Firecrawl.scrape_with_json_mode nat app "https://www.atcc.org" None
    (Some "Extract the title") 120000 false false (ConcurrencyLimiter.mk 0, 0%nat)
  = None.
Proof.
  intros app. split.
  - apply (proj1 (X13_scrape_needs_schema_or_prompt nat app
                    "https://www.atcc.org" (Some []) (Some "") 120000 false
                    false (ConcurrencyLimiter.mk 0, 0%nat))); reflexivity.
  - apply (proj1 (proj2 (X13_scrape_needs_schema_or_prompt nat app
                           "https://www.atcc.org" None
                           (Some "Extract the title") 120000 false false
                           (ConcurrencyLimiter.mk 0, 0%nat))
                        (or_intror eq_refl))).
    simpl. lia.
Defined.

(** ** The ATCC adapter asks for no more pages than allowed *)

Lemma get_details_spec (W Detail : Type)
  (get_product : string -> W -> (Exn + option Detail) * W)
  (items : list ATCC.AtccProduct) :
  forall details s,
    let run := ATCC.get_details W Detail get_product items details s in
    exists asked later,
      snd (snd run) = snd s ++ asked /\
      ATCC.pages items = asked ++ later /\
      forall found,
        fst run = inr found ->
        later = [] /\
        exists new, found = details ++ new /\
                    (List.length new <= List.length asked)%nat.
Proof.
  induction items as [ | item items IH ]; intros details s; cbv zeta.
  - exists [], []. simpl. rewrite app_nil_r.
    split; [ reflexivity | ]. split; [ reflexivity | ].
    intros found [= <-]. split; [ reflexivity | ].
    exists []. now rewrite app_nil_r.
  - cbn [ATCC.get_details]. unfold ATCC.pages. cbn [flat_map].
    fold (ATCC.pages items).
    destruct (ATCC.product_url item) as [ [ | c url ] | ] eqn:Hurl;
      [ exact (IH details s) | | exact (IH details s) ].
    destruct (get_product (String c url) (fst s)) as [[e | [detail | ]] w].
    + exists [String c url], (ATCC.pages items). cbn [fst snd].
      split; [ reflexivity | ]. split; [ reflexivity | discriminate ].
    + destruct (IH (details ++ [detail]) (w, snd s ++ [String c url]))
        as [asked [later [Hlog [Hpages Hfound]]]].
      exists (String c url :: asked), later. cbn [snd] in Hlog.
      rewrite Hlog, <- app_assoc, Hpages.
      split; [ reflexivity | ]. split; [ reflexivity | ].
      intros found Hok. destruct (Hfound found Hok) as [Hlater [new [-> Hnew]]].
      split; [ exact Hlater | ].
      exists (detail :: new). rewrite <- app_assoc.
      split; [ reflexivity | simpl; lia ].
    + destruct (IH details (w, snd s ++ [String c url]))
        as [asked [later [Hlog [Hpages Hfound]]]].
      exists (String c url :: asked), later. cbn [snd] in Hlog.
      rewrite Hlog, <- app_assoc, Hpages.
      split; [ reflexivity | ]. split; [ reflexivity | ].
      intros found Hok. destruct (Hfound found Hok) as [Hlater [new [-> Hnew]]].
      split; [ exact Hlater | ].
      exists new. split; [ reflexivity | simpl; lia ].
Qed.

Lemma pages_length (items : list ATCC.AtccProduct) :
  (List.length (ATCC.pages items) <= List.length items)%nat.
Proof.
  induction items as [ | item items IH ]; [ simpl; lia | ].
  unfold ATCC.pages. cbn [flat_map]. fold (ATCC.pages items).
  rewrite length_app.
  destruct (ATCC.product_url item) as [ [ | c url ] | ]; simpl; lia.
Qed.

Lemma pages_urls (items : list ATCC.AtccProduct) (url : string) :
  In url (ATCC.pages items) ->
  url <> "" /\ In (Some url) (map ATCC.product_url items).
Proof.
  induction items as [ | item items IH ]; [ intros [] | ].
  unfold ATCC.pages. cbn [flat_map]. fold (ATCC.pages items).
  intros Hin. apply in_app_or in Hin. destruct Hin as [Hin | Hin].
  - destruct (ATCC.product_url item) as [ [ | c u ] | ] eqn:Hurl;
      try (destruct Hin; fail).
    destruct Hin as [<- | []]. split; [ discriminate | ].
    left. exact Hurl.
  - destruct (IH Hin) as [Hne Hsrc]. split; [ exact Hne | now right ].
Qed.

Lemma in_firstn {A : Type} (n : nat) (l : list A) (x : A) :
  In x (firstn n l) -> In x l.
Proof.
  intros Hin. rewrite <- (firstn_skipn n l). apply in_or_app. now left.
Qed.

(** X14. [search_and_get_atcc_products] asks for product pages in the
    order of the products of the search: the pages asked for are the
    first of the non-empty urls of the first [max_products] products,
    in that order, and all of them when the call returns.  So it asks
    for at most [max_products] pages, whatever the search returned and
    however the call ends, and for none when [max_products] is not
    positive or the search found nothing; and it returns at most one
    detail per page asked for.  [get_atcc] on a feature without
    [max_products] asks for no product page. *)
Theorem X14_atcc_product_pages_are_bounded (W Detail : Type)
  (search_products : string -> W -> (Exn + option ATCC.AtccSearchResults) * W)
  (get_product : string -> W -> (Exn + option Detail) * W)
  (name : string) (limit : Z) (s : ATCC.State W) :
  let run := ATCC.search_and_get_atcc_products W Detail search_products
               get_product name limit s in
  let allowed :=
    match fst (search_products name (fst s)) with
    | inr (Some found) =>
        ATCC.pages (firstn (Z.to_nat limit) (ATCC.products found))
    | _ => []
    end in
  (exists asked later,
     snd (snd run) = snd s ++ asked /\
     allowed = asked ++ later /\
     (Z.of_nat (List.length asked) <= Z.max 0 limit)%Z /\
     (forall url, In url asked ->
                  url <> "" /\
                  exists found,
                    fst (search_products name (fst s)) = inr (Some found) /\
                    In (Some url) (map ATCC.product_url (ATCC.products found))) /\
     forall result,
       fst run = inr result ->
       later = [] /\
       (List.length (ATCC.product_details Detail result)
        <= List.length asked)%nat /\
       fst (search_products name (fst s))
       = inr (ATCC.search_results Detail result)) /\
  (forall organism_id fm,
     max_products fm = None ->
     snd (snd (ATCC.get_atcc W Detail search_products get_product
                             organism_id name fm s)) = snd s).
Proof.
  cbv zeta. split.
  - assert (Hmain : exists asked later,
              snd (snd (ATCC.search_and_get_atcc_products W Detail
                          search_products get_product name limit s))
              = snd s ++ asked /\
              match fst (search_products name (fst s)) with
              | inr (Some found) =>
                  ATCC.pages (firstn (Z.to_nat limit) (ATCC.products found))
              | _ => []
              end = asked ++ later /\
              forall result,
                fst (ATCC.search_and_get_atcc_products W Detail
                       search_products get_product name limit s) = inr result ->
                later = [] /\
                (List.length (ATCC.product_details Detail result)
                 <= List.length asked)%nat /\
                fst (search_products name (fst s))
                = inr (ATCC.search_results Detail result)).
    { unfold ATCC.search_and_get_atcc_products.
      destruct (search_products name (fst s)) as [sr w] eqn:Hsearch.
      cbn [fst].
      destruct sr as [e | [found | ]].
      - exists [], []. cbn [fst snd]. rewrite app_nil_r.
        split; [ reflexivity | ]. split; [ reflexivity | discriminate ].
      - destruct (ATCC.products found) as [ | item items ] eqn:Hproducts.
        + exists [], []. cbn [fst snd]. rewrite app_nil_r, firstn_nil.
          split; [ reflexivity | ]. split; [ reflexivity | ].
          intros result [= <-]. simpl. auto.
        + destruct (Z.ltb_spec 0 limit) as [Hpos | Hle].
          * pose proof (get_details_spec W Detail get_product
                          (firstn (Z.to_nat limit) (item :: items)) []
                          (w, snd s)) as Hspec.
            cbv zeta in Hspec.
            destruct (ATCC.get_details W Detail get_product
                        (firstn (Z.to_nat limit) (item :: items)) [] (w, snd s))
              as [outcome s'].
            destruct Hspec as [asked [later [Hlog [Hpages Hfound]]]].
            cbn [fst snd] in *.
            exists asked, later.
            destruct outcome as [e | details]; cbn [fst snd];
              (split; [ exact Hlog | ]); (split; [ exact Hpages | ]).
            -- discriminate.
            -- intros result [= <-].
               cbn [ATCC.product_details ATCC.search_results].
               destruct (Hfound details eq_refl) as [Hlater [new [-> Hnew]]].
               split; [ exact Hlater | ]. split; [ exact Hnew | reflexivity ].
          * exists [], []. cbn [fst snd]. rewrite app_nil_r.
            replace (Z.to_nat limit) with 0%nat by lia. cbn [firstn].
            split; [ reflexivity | ]. split; [ reflexivity | ].
            intros result [= <-]. simpl. auto.
      - exists [], []. cbn [fst snd]. rewrite app_nil_r.
        split; [ reflexivity | ]. split; [ reflexivity | ].
        intros result [= <-]. simpl. auto. }
    destruct Hmain as [asked [later [Hlog [Hallowed Hresult]]]].
    exists asked, later.
    split; [ exact Hlog | ]. split; [ exact Hallowed | ].
    split; [ | split; [ | exact Hresult ] ].
    + destruct (fst (search_products name (fst s))) as [e | [found | ]];
        try (destruct asked; [ simpl; lia | discriminate Hallowed ]).
      pose proof (pages_length (firstn (Z.to_nat limit) (ATCC.products found)))
        as Hlen.
      pose proof (firstn_le_length (Z.to_nat limit) (ATCC.products found))
        as Hfirst.
      rewrite Hallowed, length_app in Hlen. lia.
    + intros url Hin.
      destruct (fst (search_products name (fst s))) as [e | [found | ]];
        try (destruct asked; [ destruct Hin | discriminate Hallowed ]).
      assert (Hallowed' : In url (ATCC.pages (firstn (Z.to_nat limit)
                                                (ATCC.products found))))
        by (rewrite Hallowed; apply in_or_app; now left).
      apply pages_urls in Hallowed'. destruct Hallowed' as [Hne Hsrc].
      split; [ exact Hne | ]. exists found. split; [ reflexivity | ].
      apply in_map_iff in Hsrc. destruct Hsrc as [product [Hp Hin']].
      apply in_map_iff. exists product. split; [ exact Hp | ].
      eapply in_firstn. exact Hin'.
  - intros organism_id fm Hmax. unfold ATCC.get_atcc. rewrite Hmax.
    unfold ATCC.search_and_get_atcc_products.
    destruct (search_products name (fst s)) as [[e | [found | ]] w];
      try reflexivity.
    destruct (ATCC.products found); reflexivity.
Qed.

(** X14 on a search with three products, the second without url: with
    [max_products = 3] the pages of the first and of the third product
    are asked for, in that order; a feature without [max_products] asks
    for none. *)
Lemma X14_atcc_product_pages_are_bounded_witness :
  snd (snd (ATCC.search_and_get_atcc_products nat string
              ATCCExample.search_products ATCCExample.get_product
              "Chlorella vulgaris" 3 (0%nat, [])))
  = ["https://www.atcc.org/products/9765";
     "https://www.atcc.org/products/30581"] /\
  snd (snd (ATCC.get_atcc nat string ATCCExample.search_products
              ATCCExample.get_product 3077
              "Chlorella vulgaris"
              (mkFeatureMetadata "atcc_products" "atcc" "ATCC" "resources"
                                 "products" None None None None None)
              (0%nat, []))) = [].
Proof.
  destruct (X14_atcc_product_pages_are_bounded nat string
              ATCCExample.search_products ATCCExample.get_product
              "Chlorella vulgaris" 3 (0%nat, []))
    as [[asked [later [Hlog [Hallowed [_ [_ Hresult]]]]]] Hnone].
  split.
  - destruct (Hresult _ eq_refl) as [-> _].
    rewrite app_nil_r in Hallowed. rewrite Hlog, <- Hallowed. reflexivity.
  - apply (Hnone 3077%Z). reflexivity.
Defined.

(** ** Retries go through the rate limiter *)

(** What every attempt and every pause preserves holds at the end of a
    call; [P n] speaks of the world after [n] invocations. *)
Lemma attempts_invariant `{Library} (W A : Type)
  (backoff : Q -> Q -> Z -> W -> W) (policy : Retry.Policy)
  (fn : W -> (Exn + A) * W) (P : nat -> W -> Prop) :
  (forall n w, P n w -> P (S n) (snd (fn w))) ->
  (forall n lo hi a w, P n w -> P n (backoff lo hi a w)) ->
  forall fuel attempt_number invocations w outcome w' k,
    Retry.attempts W A backoff fuel policy fn attempt_number invocations w
    = Some (outcome, w', k) ->
    P invocations w -> P k w'.
Proof.
  intros Hstep Hpause.
  induction fuel as [ | fuel IH ]; intros a inv w outcome w' k Hrun Hw;
    [ discriminate | ].
  cbn [Retry.attempts] in Hrun.
  specialize (Hstep inv w Hw).
  destruct (fn w) as [[e | result] w1]; cbn [snd] in Hstep.
  - destruct (negb (Retry.isinstance e (Retry.retry_if_exception_type policy))).
    + now injection Hrun as _ <- <-.
    + destruct (a >=? Retry.stop_after_attempt policy)%Z.
      * now injection Hrun as _ <- <-.
      * apply IH in Hrun; [ exact Hrun | now apply Hpause ].
  - now injection Hrun as _ <- <-.
Qed.

(** A call that ends with a retryable exception has used up its
    attempts. *)
Lemma attempts_stop `{Library} (W A : Type)
  (backoff : Q -> Q -> Z -> W -> W) (policy : Retry.Policy)
  (fn : W -> (Exn + A) * W) :
  Retry.reraise policy = true ->
  forall fuel attempt_number invocations w e w' k,
    Retry.attempts W A backoff fuel policy fn attempt_number invocations w
    = Some (inl e, w', k) ->
    Retry.isinstance e (Retry.retry_if_exception_type policy) = true ->
    (invocations < k)%nat /\
    (Retry.stop_after_attempt policy
     <= attempt_number + Z.of_nat (k - invocations) - 1)%Z.
Proof.
  intros Hreraise.
  induction fuel as [ | fuel IH ]; intros a inv w e w' k Hrun Hretry;
    [ discriminate | ].
  cbn [Retry.attempts] in Hrun.
  destruct (fn w) as [[e0 | result] w1]; [ | discriminate ].
  destruct (Retry.isinstance e0 (Retry.retry_if_exception_type policy)) eqn:He0;
    cbn [negb] in Hrun.
  - destruct (Z.geb_spec a (Retry.stop_after_attempt policy)) as [Hge | Hlt].
    + injection Hrun as _ _ <-. split; [ lia | ].
      replace (S inv - inv)%nat with 1%nat by lia. lia.
    + apply IH in Hrun; [ | exact Hretry ].
      destruct Hrun as [Hk Hstop]. split; [ lia | ].
      replace (Z.of_nat (k - inv)) with (Z.of_nat (k - S inv) + 1)%Z by lia.
      lia.
  - injection Hrun as <- _ _. congruence.
Qed.

Lemma last_map {A B : Type} (f : A -> B) (x : A) (l : list A) (d : A) (d' : B) :
  last (map f (x :: l)) d' = f (last (x :: l) d).
Proof.
  revert x. induction l as [ | y l IH ]; intros x; [ reflexivity | ].
  cbn [map]. rewrite !last_cons_cons. apply (IH y).
Qed.

Lemma last_cons_default {A : Type} (x : A) (l : list A) (d : A) :
  last (x :: l) d = last l x.
Proof.
  destruct l as [ | y l ]; [ reflexivity | ].
  rewrite last_cons_cons. apply last_nonempty.
Qed.

Lemma spaced_from_snoc (time_time : Q -> float) (m : float)
  (g : RateLimiter.Grant) (grants : list RateLimiter.Grant) :
  forall previous,
    RateLimiter.spaced_from time_time m previous grants ->
    RateLimiter.spaced_from time_time m
      (last (map RateLimiter.granted grants) previous) [g] ->
    RateLimiter.spaced_from time_time m previous (grants ++ [g]).
Proof.
  induction grants as [ | g1 grants IH ]; intros previous Hspaced Hnew.
  - exact Hnew.
  - destruct Hspaced as [Hgap Hspaced].
    cbn [app RateLimiter.spaced_from]. split; [ exact Hgap | ].
    apply IH; [ exact Hspaced | ].
    cbn [map] in Hnew. now rewrite last_cons_default in Hnew.
Qed.

Lemma grants_of_snoc (log : list Throttled.Attempt) (a : Throttled.Attempt) :
  Throttled.grants_of (log ++ [a])
  = Throttled.grants_of log
    ++ match a with Throttled.Sent g _ => [g] | Throttled.Refused _ => [] end.
Proof.
  unfold Throttled.grants_of. rewrite flat_map_app. simpl.
  now rewrite app_nil_r.
Qed.

(** One attempt keeps the limiter and the log coherent, adds one entry
    to the log, sends the request after the grant, and returns a
    response only if its status is no error. *)
Lemma throttled_step (R : Type)
  (requests_get : string -> list (string * PyVal) -> Z -> R ->
                  (Exn + Throttled.Response) * R)
  (time_time : Q -> float)
  (lag_of : nat -> RateLimiter.Lag) (start_of duration_of : nat -> Q)
  (url : string) (params : list (string * PyVal)) (timeout : Z)
  (net : Throttled.Net R) :
  (forall n, RateLimiter.lag_ok (lag_of n)) ->
  (forall n, 0 <= start_of n) ->
  Throttled.coherent R time_time net ->
  let attempt := Throttled._throttled_get R requests_get time_time lag_of
                   start_of duration_of url params timeout net in
  Throttled.coherent R time_time (snd attempt) /\
  RateLimiter.min_interval (Throttled.limiter R (snd attempt))
  = RateLimiter.min_interval (Throttled.limiter R net) /\
  exists entry,
    Throttled.log R (snd attempt) = Throttled.log R net ++ [entry] /\
    Throttled.in_order entry /\
    forall resp,
      fst attempt = inr resp ->
      (exists g sent_at, entry = Throttled.Sent g sent_at) /\
      ~ (400 <= Throttled.status_code resp < 600)%Z.
Proof.
  intros Hlag Hstart [Hspaced Hlast]. unfold Throttled._throttled_get. cbv zeta.
  pose proof (wait_spec time_time (Throttled.limiter R net)
                        (lag_of (List.length (Throttled.log R net)))
                        (Throttled.clock R net) (Hlag _)) as Hwait.
  destruct (RateLimiter.wait time_time _ _ _) as [[e | []] [limiter' granted]].
  - destruct Hwait as [-> _]. cbn [fst snd Throttled.limiter Throttled.log].
    split.
    { unfold Throttled.coherent. cbn [Throttled.limiter Throttled.log].
      rewrite grants_of_snoc, app_nil_r. split; assumption. }
    split; [ reflexivity | ].
    exists (Throttled.Refused e).
    split; [ reflexivity | split; [ exact I | discriminate ] ].
  - destruct Hwait as [Hmin [Hread [_ Hgap]]].
    destruct (requests_get url params timeout (Throttled.remote R net))
      as [r remote'].
    cbn [fst snd Throttled.limiter Throttled.log].
    set (g := {| RateLimiter.asked := Throttled.clock R net;
                 RateLimiter.granted := granted |}).
    split.
    { unfold Throttled.coherent. cbn [Throttled.limiter Throttled.log].
      rewrite grants_of_snoc, Hmin, Hread, !map_app. cbn [map].
      rewrite last_last. split; [ | reflexivity ].
      destruct (Throttled.grants_of (Throttled.log R net)) as [ | g1 grants ];
        [ exact I | ].
      cbn [app RateLimiter.spaced_up_to_error] in *.
      apply spaced_from_snoc; [ exact Hspaced | ].
      cbn [RateLimiter.spaced_from]. split; [ | exact I ].
      cbn [map] in Hlast.
      rewrite (last_map time_time (RateLimiter.granted g1)
                        (map RateLimiter.granted grants)
                        (RateLimiter.granted g1)) in Hlast.
      rewrite last_cons_default in Hlast.
      unfold RateLimiter.wait_error, RateLimiter.computed_wait.
      cbn [RateLimiter.asked RateLimiter.granted] in *.
      rewrite <- Hlast. subst g. cbn [RateLimiter.asked RateLimiter.granted].
      lra. }
    split; [ exact Hmin | ].
    exists (Throttled.Sent g (granted + start_of (List.length (Throttled.log R net)))).
    split; [ reflexivity | ].
    split.
    { subst g. cbn [Throttled.in_order RateLimiter.granted].
      specialize (Hstart (List.length (Throttled.log R net))). lra. }
    intros resp Hresp. split; [ eexists; eexists; reflexivity | ].
    destruct r as [e | resp0]; [ discriminate Hresp | ].
    unfold Throttled.raise_for_status in Hresp.
    destruct ((400 <=? Throttled.status_code resp0)%Z
              && (Throttled.status_code resp0 <? 600)%Z) eqn:Hstatus;
      [ discriminate Hresp | ].
    injection Hresp as <-.
    apply andb_false_iff in Hstatus. destruct Hstatus as [Hs | Hs].
    + apply Z.leb_gt in Hs. lia.
    + apply Z.ltb_ge in Hs. lia.
Qed.



(** ** Request parameters *)

Lemma dict_get_set {V : Type} (k k' : string) (v : V) (d : list (string * V)) :
  dict_get k (dict_set k' v d)
  = if String.eqb k k' then Some v else dict_get k d.
Proof.
  induction d as [| [k0 v0] rest IH]; simpl.
  - reflexivity.
  - destruct (String.eqb k' k0) eqn:Hk'; simpl.
    + apply String.eqb_eq in Hk'. subst k0.
      now destruct (String.eqb k k').
    + rewrite IH. destruct (String.eqb k k0) eqn:Hk0; [ | reflexivity ].
      apply String.eqb_eq in Hk0. subst k0.
      now rewrite String.eqb_sym, Hk'.
Qed.

Lemma dict_get_absent {V : Type} (k : string) (d : list (string * V)) :
  ~ In k (dict_keys d) -> dict_get k d = None.
Proof.
  induction d as [| [k0 v0] rest IH]; simpl; intros Hin.
  - reflexivity.
  - destruct (String.eqb k k0) eqn:Hk.
    + apply String.eqb_eq in Hk. subst k0. exfalso. apply Hin. now left.
    + apply IH. intros Hrest. apply Hin. now right.
Qed.

Lemma dict_update_get {V : Type} (extra base : list (string * V)) (k : string) :
  NoDup (dict_keys extra) ->
  dict_get k (dict_update base extra)
  = match dict_get k extra with
    | Some v => Some v
    | None => dict_get k base
    end.
Proof.
  unfold dict_update. revert base.
  induction extra as [| [k1 v1] rest IH]; intros base Hnodup; simpl.
  - reflexivity.
  - simpl in Hnodup. apply NoDup_cons_iff in Hnodup as [Hfresh Hnodup].
    rewrite (IH _ Hnodup), dict_get_set.
    destruct (String.eqb k k1) eqn:Hk; [ | reflexivity ].
    apply String.eqb_eq in Hk. subst k1.
    now rewrite (dict_get_absent _ _ Hfresh).
Qed.

Lemma dict_update_miss {V : Type} (extra base : list (string * V)) (k : string) :
  dict_get k extra = None ->
  dict_get k (dict_update base extra) = dict_get k base.
Proof.
  unfold dict_update. revert base.
  induction extra as [| [k1 v1] rest IH]; intros base Hmiss; simpl in *.
  - reflexivity.
  - destruct (String.eqb k k1) eqn:Hk; [ discriminate Hmiss | ].
    rewrite (IH _ Hmiss), dict_get_set. now rewrite Hk.
Qed.

Lemma dict_update_keys {V : Type} (extra base : list (string * V)) :
  exists added, dict_keys (dict_update base extra) = dict_keys base ++ added.
Proof.
  unfold dict_update. revert base.
  induction extra as [| [k1 v1] rest IH]; intros base; simpl.
  - exists []. now rewrite app_nil_r.
  - destruct (IH (dict_set k1 v1 base)) as [added Hadded].
    rewrite Hadded. clear.
    assert (Hset : exists one, dict_keys (dict_set k1 v1 base) = dict_keys base ++ one).
    { induction base as [| [k0 v0] more IHb]; simpl.
      - now exists [k1].
      - destruct (String.eqb k1 k0); simpl.
        + exists []. now rewrite app_nil_r.
        + destruct IHb as [one Hone]. exists one. now rewrite Hone. }
    destruct Hset as [one Hone]. exists (one ++ added).
    now rewrite Hone, app_assoc.
Qed.

(** X16.  [NCBIClient._params] merges the caller's parameters over the
    client's identification: a key of [extra] carries the value of
    [extra], also when it is "tool", "email" or "api_key"; every other
    key carries what the client alone would send; and the three
    identification keys come first, in that order, whatever [extra]
    holds. *)
Theorem X16_ncbi_params_merge (self : NCBIClient.t)
  (extra : list (string * PyVal)) :
  NoDup (dict_keys extra) ->
  (forall k,
     dict_get k (ncbi_params self extra)
     = match dict_get k extra with
       | Some v => Some v
       | None => dict_get k (ncbi_params self [])
       end) /\
  (exists added,
     dict_keys (ncbi_params self extra) = ["tool"; "email"; "api_key"] ++ added).
Proof.
  intros Hnodup. split.
  - intros k. unfold ncbi_params. now rewrite (dict_update_get _ _ _ Hnodup).
  - unfold ncbi_params.
    destruct (dict_update_keys extra
                [("tool", opt_str (NCBIClient.tool_id self));
                 ("email", opt_str (NCBIClient.api_email self));
                 ("api_key", opt_str (NCBIClient.api_key self))])
      as [added Hadded].
    exists added. exact Hadded.
Qed.

(** X16 on a search request that overrides the tool name. *)
Lemma X16_ncbi_params_merge_witness :
  let self := NCBIClient.mk (Some "secret") (Some "lab@example.org")
                            (Some "organism_tractability") in
  let extra := [("db", VStr "pubmed"); ("tool", VStr "other");
                ("term", VStr "Chlorella vulgaris")] in
  dict_get "tool" (ncbi_params self extra) = Some (VStr "other") /\
  dict_get "api_key" (ncbi_params self extra) = Some (VStr "secret") /\
  dict_get "db" (ncbi_params self extra) = Some (VStr "pubmed").
Proof.
  intros self extra.
  assert (Hnodup : NoDup (dict_keys extra)).
  { unfold extra. simpl.
    repeat (apply NoDup_cons; [ simpl; intuition discriminate | ]).
    apply NoDup_nil. }
  pose proof (X16_ncbi_params_merge self extra Hnodup) as [Hget _].
  repeat split; rewrite Hget; reflexivity.
Defined.

(** X17.  A client that [NCBIClient.__init__] has built sends a
    non-empty API key, a non-empty e-mail address and a non-empty tool
    name with every request whose [extra] parameters do not name those
    keys. *)
Theorem X17_ncbi_requests_carry_credentials (environ : Environ)
  (api_key api_email tool_id : option string) (self : NCBIClient.t)
  (extra : list (string * PyVal)) :
  NCBIClient.__init__ environ api_key api_email tool_id = inr self ->
  dict_contains "api_key" extra = false ->
  dict_contains "email" extra = false ->
  dict_contains "tool" extra = false ->
  exists key email tool,
    dict_get "api_key" (ncbi_params self extra) = Some (VStr key) /\
    dict_get "email" (ncbi_params self extra) = Some (VStr email) /\
    dict_get "tool" (ncbi_params self extra) = Some (VStr tool) /\
    key <> ""%string /\ email <> ""%string /\ tool <> ""%string.
Proof.
  unfold NCBIClient.__init__, dict_contains. intros Hinit Hkey Hemail Htool.
  assert (Hk : dict_get "api_key" extra = None)
    by (destruct (dict_get "api_key" extra); [ discriminate | reflexivity ]).
  assert (He : dict_get "email" extra = None)
    by (destruct (dict_get "email" extra); [ discriminate | reflexivity ]).
  assert (Ht : dict_get "tool" extra = None)
    by (destruct (dict_get "tool" extra); [ discriminate | reflexivity ]).
  clear Hkey Hemail Htool.
  destruct (truthy (or_else api_key (dict_get "NCBI_API_KEY" environ)))
    eqn:Hkey; [ | discriminate Hinit ].
  destruct (truthy (or_else api_email (dict_get "NCBI_API_EMAIL" environ)))
    eqn:Hemail; [ | discriminate Hinit ].
  simpl in Hinit. injection Hinit as <-.
  assert (Htool : truthy (or_else tool_id (Some NCBIClient.NCBI_API_TOOL_ID)) = true).
  { unfold or_else. destruct (truthy tool_id) eqn:Hown; [ exact Hown | reflexivity ]. }
  unfold ncbi_params.
  rewrite (dict_update_miss _ _ _ Hk), (dict_update_miss _ _ _ He),
          (dict_update_miss _ _ _ Ht).
  cbn [NCBIClient.api_key NCBIClient.api_email NCBIClient.tool_id].
  destruct (or_else api_key (dict_get "NCBI_API_KEY" environ))
    as [[| c1 key] |]; try discriminate Hkey.
  destruct (or_else api_email (dict_get "NCBI_API_EMAIL" environ))
    as [[| c2 email] |]; try discriminate Hemail.
  destruct (or_else tool_id (Some NCBIClient.NCBI_API_TOOL_ID))
    as [[| c3 tool] |]; try discriminate Htool.
  exists (String c1 key), (String c2 email), (String c3 tool).
  repeat split; try reflexivity; discriminate.
Qed.

(** X17 on a client configured from the environment. *)
Lemma X17_ncbi_requests_carry_credentials_witness :
  exists key email tool,
    dict_get "api_key"
      (ncbi_params (NCBIClient.mk (Some "secret") (Some "lab@example.org")
                                  (Some "organism_tractability"))
                   [("db", VStr "pubmed")]) = Some (VStr key) /\
    dict_get "email"
      (ncbi_params (NCBIClient.mk (Some "secret") (Some "lab@example.org")
                                  (Some "organism_tractability"))
                   [("db", VStr "pubmed")]) = Some (VStr email) /\
    dict_get "tool"
      (ncbi_params (NCBIClient.mk (Some "secret") (Some "lab@example.org")
                                  (Some "organism_tractability"))
                   [("db", VStr "pubmed")]) = Some (VStr tool) /\
    key <> ""%string /\ email <> ""%string /\ tool <> ""%string.
Proof.
  exact (X17_ncbi_requests_carry_credentials
           [("NCBI_API_KEY", "secret"); ("NCBI_API_EMAIL", "lab@example.org")]
           None None None
           (NCBIClient.mk (Some "secret") (Some "lab@example.org")
                          (Some "organism_tractability"))
           [("db", VStr "pubmed")]
           eq_refl eq_refl eq_refl eq_refl).
Defined.

(** X18.  Whatever page size and page number [search_protocols] is
    given, the request carries a page size between 1 and 100 and a page
    number of at least 0; values already in range are sent as given, and
    the four other parameters are sent as given. *)
Theorem X18_protocols_io_paging_is_clamped (key : string) (page_size page_id : Z)
  (order_field order_dir filter : string) :
  let params :=
    protocols_io_params key page_size page_id order_field order_dir filter in
  (exists size page,
     dict_get "page_size" params = Some (VInt size) /\
     dict_get "page_id" params = Some (VInt page) /\
     (1 <= size <= 100)%Z /\ (0 <= page)%Z /\
     ((1 <= page_size <= 100)%Z -> size = page_size) /\
     ((0 <= page_id)%Z -> page = page_id)) /\
  dict_get "key" params = Some (VStr key) /\
  dict_get "order_field" params = Some (VStr order_field) /\
  dict_get "order_dir" params = Some (VStr order_dir) /\
  dict_get "filter" params = Some (VStr filter) /\
  dict_keys params
  = ["key"; "page_size"; "page_id"; "order_field"; "order_dir"; "filter"].
Proof.
  intros params. split.
  - exists (Z.min (Z.max page_size 1) 100), (Z.max page_id 0).
    repeat split; try reflexivity; lia.
  - repeat split; reflexivity.
Qed.

(** ** The output schema of a web-answer query *)

(** X19.  [_create_query_output_schema] always returns a schema; it has
    the keys of the base schema, describes every field it requires
    (the base schema alone requires an "answer" it does not describe),
    keeps the base descriptions of "reasoning" and "confidence", and
    restricts the answer to an enumeration exactly when [answer_enum]
    is a non-empty list: an empty list is treated as no list. *)
Theorem X19_answer_schema_is_complete (query : string)
  (answer_enum : option (list string)) :
  exists schema properties answer_field,
    ExaSchema._create_query_output_schema query answer_enum = inr schema /\
    dict_keys schema = dict_keys ExaSchema.BASE_OUTPUT_SCHEMA /\
    incl (ExaSchema.required_names schema) (ExaSchema.property_names schema) /\
    ~ incl (ExaSchema.required_names ExaSchema.BASE_OUTPUT_SCHEMA)
           (ExaSchema.property_names ExaSchema.BASE_OUTPUT_SCHEMA) /\
    dict_get "properties" schema = Some (VDict properties) /\
    dict_keys properties = ["reasoning"; "confidence"; "answer"] /\
    (forall base_properties,
       dict_get "properties" ExaSchema.BASE_OUTPUT_SCHEMA
       = Some (VDict base_properties) ->
       dict_get "reasoning" properties = dict_get "reasoning" base_properties /\
       dict_get "confidence" properties = dict_get "confidence" base_properties) /\
    dict_get "answer" properties = Some (VDict answer_field) /\
    dict_get "description" answer_field
    = Some (VStr ("Answer to: " ++ query)%string) /\
    dict_get "enum" answer_field
    = match answer_enum with
      | Some (value :: values) => Some (VList (map VStr (value :: values)))
      | _ => None
      end /\
    ExaSchema._create_query_output_schema query (Some [])
    = ExaSchema._create_query_output_schema query None.
Proof.
  assert (Hbase : ~ incl (ExaSchema.required_names ExaSchema.BASE_OUTPUT_SCHEMA)
                         (ExaSchema.property_names ExaSchema.BASE_OUTPUT_SCHEMA)).
  { intros Hincl. specialize (Hincl "answer"%string (or_introl eq_refl)).
    simpl in Hincl. intuition discriminate. }
  assert (Hincl : incl ["answer"; "reasoning"; "confidence"]%string
                       ["reasoning"; "confidence"; "answer"]%string).
  { intros name Hin. simpl in *. intuition. }
  destruct answer_enum as [[| value values] |];
    eexists; eexists; eexists;
    (split; [ reflexivity | ]);
    (split; [ reflexivity | ]);
    (split; [ exact Hincl | ]);
    (split; [ exact Hbase | ]);
    (split; [ reflexivity | ]);
    (split; [ reflexivity | ]);
    (split; [ intros base_properties Hb; injection Hb as <-; split; reflexivity | ]);
    (split; [ reflexivity | ]);
    (split; [ reflexivity | ]);
    (split; reflexivity).
Qed.

(** ** The command line of a single source *)

(** X20.  [get-ncbi], when the catalog loads: with no "ncbi" entry in
    the catalog the command raises IndexError and calls no adapter;
    otherwise it calls the NCBI adapter exactly once, for the first
    "ncbi" entry in catalog order and with the organism given, and its
    outcome is that of the adapter. *)
Theorem X20_get_ncbi_uses_the_first_feature `{Library} `{Services}
  (organism_scientific_name : string) (organism_id : Z)
  (catalog : list FeatureMetadata) (st : State) :
  get_all_feature_metadata = inr catalog ->
  match filter (fun f => String.eqb (source_id f) "ncbi") catalog with
  | [] =>
      get_ncbi_cli organism_scientific_name organism_id st = (inl IndexError, st)
  | first :: _ =>
      In first catalog /\ source_id first = "ncbi"%string /\
      exists outcome st',
        get_ncbi_cli organism_scientific_name organism_id st = (outcome, st') /\
        get_ncbi organism_id organism_scientific_name first (world st)
        = (outcome, world st') /\
        calls st'
        = calls st ++ [mkCall organism_id organism_scientific_name first outcome] /\
        output_csv st' = output_csv st
  end.
Proof.
  intros Hload.
  unfold get_ncbi_cli, bind, lift, get_feature_metadata_by_source,
         get_feature_metadata_by_source_of.
  unfold get_all_feature_metadata in Hload. rewrite Hload.
  destruct (filter (fun f => String.eqb (source_id f) "ncbi") catalog)
    as [| first others] eqn:Hfilter.
  - reflexivity.
  - assert (Hin : In first (filter (fun f => String.eqb (source_id f) "ncbi") catalog))
      by (rewrite Hfilter; now left).
    apply filter_In in Hin as [Hin Hsource].
    apply String.eqb_eq in Hsource.
    split; [ exact Hin | ]. split; [ exact Hsource | ].
    unfold invoke.
    destruct (get_ncbi organism_id organism_scientific_name first (world st))
      as [outcome w].
    eexists. eexists. split; [ reflexivity | ].
    repeat split; reflexivity.
Qed.

(** X20 on the example deployment: one call, for the first "ncbi" entry
    of its catalog. *)
Lemma X20_get_ncbi_uses_the_first_feature_witness :
  match filter (fun f => String.eqb (source_id f) "ncbi")
               (@loaded_catalog Example.library Example.services) with
  | [] =>
      @get_ncbi_cli Example.library Example.services
        "Chlorella vulgaris" 3077 Example.start
      = (inl IndexError, Example.start)
  | first :: _ =>
      In first (@loaded_catalog Example.library Example.services) /\
      source_id first = "ncbi"%string /\
      exists outcome st',
        @get_ncbi_cli Example.library Example.services
          "Chlorella vulgaris" 3077 Example.start = (outcome, st') /\
        @get_ncbi Example.services 3077%Z "Chlorella vulgaris" first
                  (world Example.start)
        = (outcome, world st') /\
        calls st'
        = calls Example.start
          ++ [mkCall 3077 "Chlorella vulgaris" first outcome] /\
        output_csv st' = output_csv Example.start
  end.
Proof.
  exact (@X20_get_ncbi_uses_the_first_feature Example.library Example.services
           "Chlorella vulgaris" 3077%Z
           (@loaded_catalog Example.library Example.services)
           Example.start eq_refl).
Defined.

(** ** The catalog service and the pipeline agree *)

(** X21.  [get_feature_ids_for_source] lists the feature ids of the
    entries [get_feature_metadata_by_source] returns, in their order,
    and fails as that one does; and the rows of a returning fetch for
    the single source [s] carry exactly the feature ids the service
    lists for [s], in the same order. *)
Theorem X21_rows_carry_the_listed_feature_ids `{Library} `{Services}
  (s : string) (organism_id : Z) (name : string) (st : State)
  (rows : list FeatureRow) (st' : State) :
  fetch_features_for_organism organism_id name (Some [s]) st = (inr rows, st') ->
  get_feature_ids_for_source_of feature_metadata_yaml s
  = inr (map row_feature_id rows) /\
  (forall data sid,
     get_feature_ids_for_source_of data sid
     = match get_feature_metadata_by_source_of data sid with
       | inl e => inl e
       | inr entries => inr (map feature_id entries)
       end).
Proof.
  intros Hrun. split.
  - pose proof (fetch_row_keys _ _ _ _ _ _ Hrun) as Hkeys.
    unfold fetch_features_for_organism, bind, lift in Hrun.
    destruct (_get_sources_to_process (Some [s])) as [e | srcs] eqn:Hsel;
      [ discriminate | ].
    apply get_sources_keys in Hsel. destruct Hsel as [_ Hsrcs].
    simpl in Hsrcs.
    destruct srcs as [ | [s' config] [ | ? ? ] ]; try discriminate.
    simpl in Hsrcs. injection Hsrcs as ->.
    rewrite fetch_sources_cons in Hrun.
    destruct (get_feature_metadata_by_source s) as [e | fms] eqn:Hfms;
      [ discriminate | ].
    apply by_source_loaded in Hfms. destruct Hfms as [Hload _].
    unfold get_feature_ids_for_source_of.
    unfold get_all_feature_metadata in Hload. rewrite Hload.
    f_equal.
    assert (Hids : map snd (map (fun r => (row_source_id r, row_feature_id r)) rows)
                   = map snd (map (fun f => (source_id f, feature_id f))
                                  (plan loaded_catalog
                                        (processing_order (Some [s])))))
      by now rewrite Hkeys.
    rewrite !map_map in Hids. cbn [snd] in Hids.
    unfold plan in Hids. simpl in Hids. rewrite app_nil_r in Hids.
    symmetry. exact Hids.
  - intros data sid.
    unfold get_feature_ids_for_source_of, get_feature_metadata_by_source_of.
    now destruct (get_all_feature_metadata_of data).
Qed.

(** X21 on the example deployment, for the source "ncbi". *)
Lemma X21_rows_carry_the_listed_feature_ids_witness :
  exists rows st',
    @fetch_features_for_organism Example.library Example.services
      3077%Z "Chlorella vulgaris" (Some ["ncbi"]) Example.start
    = (inr rows, st') /\
    @get_feature_ids_for_source_of Example.library
      (@feature_metadata_yaml Example.services) "ncbi"
    = inr (map row_feature_id rows).
Proof.
  eexists. eexists. split; [ vm_compute; reflexivity | ].
  exact (proj1 (@X21_rows_carry_the_listed_feature_ids
                  Example.library Example.services "ncbi" 3077%Z
                  "Chlorella vulgaris" Example.start _ _ eq_refl)).
Defined.
